(** * intelli-summary: the retrying stage clients and the page that drives them

    A shallow embedding of
      - [src/lib/text-extraction.ts]    ([extractTextFromFile], [validateFile]),
      - [src/lib/summary-generation.ts] ([generateSummary],
                                         [calculateCompressionRatio]),
      - [src/app/api/analyze-image/route.ts] ([POST] and its helpers),
      - the client of that route ([analyzeImage]) and
      - the page component holding the uploaded files
        ([extractTextFromFiles], [performSpecializedAnalyses] and the
        [can...] predicates),
    together with the properties the specification states about them.

    Conventions.
      - A JavaScript string is a [string]: a sequence of code units below
        256.  Code units above 255 are not represented.
      - A remote call is an input of the model: the caller supplies, for
        each attempt, what [fetch] did.  Everything the code does with that
        answer is computed.
      - An [async] function becomes a function returning the list of
        observable events (remote calls and sleeps) and its outcome (the
        value it resolves with or the value it rejects with). *)

From Stdlib Require Import String Ascii List Bool Arith ZArith QArith Qround.
From Stdlib Require Import Lia Lqa DecimalString Sorted Permutation.
Import ListNotations.

Close Scope Q_scope.
Set Implicit Arguments.

(* ===================================================================== *)
(** * JavaScript strings *)
(* ===================================================================== *)

Module Js.

Local Open Scope string_scope.
Local Open Scope bool_scope.

(** [s.startsWith(p)]. *)
Definition startsWith (s p : string) : bool := String.prefix p s.

(** [s.includes(sub)]: [sub] occurs at some position of [s]. *)
Fixpoint includes (s sub : string) : bool :=
  String.prefix sub s ||
  match s with
  | EmptyString => false
  | String _ s' => includes s' sub
  end.

(** [s.endsWith(suf)]. *)
Definition endsWith (s suf : string) : bool :=
  let n := String.length s in
  let m := String.length suf in
  (m <=? n)%nat && String.eqb (String.substring (n - m) m s) suf.

(** One code unit of [toLowerCase()]: the Basic Latin capitals and the
    Latin-1 capitals (U+00C0 to U+00DE, without the sign U+00D7) move up
    by 32; everything else below 256 is unchanged. *)
Definition lowerChar (c : ascii) : ascii :=
  let n := nat_of_ascii c in
  if (((65 <=? n) && (n <=? 90)) ||
      ((192 <=? n) && (n <=? 222) && negb (n =? 215)))%nat
  then ascii_of_nat (n + 32) else c.

Fixpoint toLowerCase (s : string) : string :=
  match s with
  | EmptyString => EmptyString
  | String c s' => String (lowerChar c) (toLowerCase s')
  end.

(** The class [\s] below 256: TAB, LF, VT, FF, CR, SP and NBSP. *)
Definition isSpace (c : ascii) : bool :=
  let n := nat_of_ascii c in
  (((9 <=? n) && (n <=? 13)) || (n =? 32) || (n =? 160))%nat.

(** The class [\w]: letters, digits and the underscore. *)
Definition isWordChar (c : ascii) : bool :=
  let n := nat_of_ascii c in
  (((48 <=? n) && (n <=? 57)) || ((65 <=? n) && (n <=? 90)) ||
   ((97 <=? n) && (n <=? 122)) || (n =? 95))%nat.

Fixpoint trimStart (s : string) : string :=
  match s with
  | EmptyString => EmptyString
  | String c s' => if isSpace c then trimStart s' else s
  end.

Fixpoint rev (s : string) : string :=
  match s with
  | EmptyString => EmptyString
  | String c s' => rev s' ++ String c EmptyString
  end.

Definition trimEnd (s : string) : string := rev (trimStart (rev s)).

(** [s.trim()]. *)
Definition trim (s : string) : string := trimEnd (trimStart s).

(** [s.split(/\s+/)]: the pieces between the maximal runs of white
    space.  A run at either end leaves an empty piece there, and the
    empty string splits into one empty piece, as in JavaScript.
    [cur] is the piece being read, reversed; [inSep] tells that the
    previous code unit was white space. *)
Fixpoint splitSpacesFrom (cur : string) (inSep : bool) (s : string)
  : list string :=
  match s with
  | EmptyString => [rev cur]
  | String c s' =>
      if isSpace c then
        if inSep then splitSpacesFrom cur true s'
        else rev cur :: splitSpacesFrom EmptyString true s'
      else splitSpacesFrom (String c cur) false s'
  end.

Definition splitSpaces (s : string) : list string :=
  splitSpacesFrom EmptyString false s.

(** Truthiness of a string: every string but the empty one. *)
Definition truthy (s : string) : bool :=
  negb (String.eqb s EmptyString).

(** Truthiness of an optional string field ([undefined] is falsy). *)
Definition truthyOpt (o : option string) : bool :=
  match o with
  | Some s => truthy s
  | None => false
  end.

(** [a || b] on an optional string and a default. *)
Definition orElse (o : option string) (d : string) : string :=
  match o with
  | Some s => if truthy s then s else d
  | None => d
  end.

(** A template literal's rendering of a small non-negative integer. *)
Definition ofNat (n : nat) : string :=
  NilEmpty.string_of_uint (Nat.to_uint n).

End Js.

(* ===================================================================== *)
(** * Files and their validation ([text-extraction.ts]) *)
(* ===================================================================== *)

Local Open Scope string_scope.
Local Open Scope bool_scope.

(** The fields of a DOM [File] the code reads.  [size] is a byte count. *)
Record File := mkFile {
  file_name : string;
  file_type : string;
  file_size : N
}.

(** The literal type ["pdf" | "image"]. *)
Inductive FileKind := pdf | image.

(** A thrown [Error]: its [name] and its [message]. *)
Record JsError := mkError {
  err_name : string;
  err_message : string
}.

(** [new Error(msg)]. *)
Definition newError (msg : string) : JsError := mkError "Error" msg.

(** 50 * 1024 * 1024. *)
Definition MAX_FILE_SIZE : N := 50 * 1024 * 1024.

(** The regular expression [/\.(jpg|jpeg|png|gif|bmp)$/]: the string ends
    with a dot and one of the five alternatives. *)
Definition matchesImageExtension (s : string) : bool :=
  existsb (fun alt => Js.endsWith s ("." ++ alt))
          ["jpg"; "jpeg"; "png"; "gif"; "bmp"].

(** Lines 13-33 of [extractTextFromFile]: the checks made before the retry
    loop.  [None] is a null file ([!file]).  The result is the error the
    function throws, or [None] when all four checks pass. *)
Definition extractTextFromFile_checks (file : option File) (type : FileKind)
  : option JsError :=
  match file with
  | None => Some (newError "Invalid file: File is empty or corrupted")
  | Some f =>
      if (file_size f =? 0)%N then
        Some (newError "Invalid file: File is empty or corrupted")
      else if (MAX_FILE_SIZE <? file_size f)%N then
        Some (newError "File too large: Maximum file size is 50MB")
      else if match type with pdf => true | image => false end
              && negb (Js.includes (file_type f) "pdf")
              && negb (Js.endsWith (Js.toLowerCase (file_name f)) ".pdf") then
        Some (newError
                "Invalid PDF file: File does not appear to be a valid PDF")
      else if match type with image => true | pdf => false end
              && negb (Js.startsWith (file_type f) "image/")
              && negb (matchesImageExtension (Js.toLowerCase (file_name f)))
      then
        Some (newError
                "Invalid image file: Supported formats are JPG, PNG, GIF, BMP")
      else None
  end.

(** The object [validateFile] returns. *)
Record FileValidation := mkFileValidation {
  isValid : bool;
  error : option string
}.

Definition validImageTypes : list string :=
  ["image/jpeg"; "image/jpg"; "image/png"; "image/gif"; "image/bmp"].

Definition validExtensions : list string :=
  [".jpg"; ".jpeg"; ".png"; ".gif"; ".bmp"].

(** [validateFile], lines 124-154. *)
Definition validateFile (file : option File) (type : FileKind)
  : FileValidation :=
  match file with
  | None => mkFileValidation false (Some "No file provided")
  | Some f =>
      if (file_size f =? 0)%N then
        mkFileValidation false (Some "File is empty")
      else if (MAX_FILE_SIZE <? file_size f)%N then
        mkFileValidation false (Some "File size exceeds 50MB limit")
      else
        match type with
        | pdf =>
            if negb (Js.includes (file_type f) "pdf")
               && negb (Js.endsWith (Js.toLowerCase (file_name f)) ".pdf")
            then mkFileValidation false (Some "File is not a valid PDF")
            else mkFileValidation true None
        | image =>
            if negb (existsb (fun t => Js.includes (file_type f) t)
                             validImageTypes)
               && negb (existsb
                          (fun ext =>
                             Js.endsWith (Js.toLowerCase (file_name f)) ext)
                          validExtensions)
            then mkFileValidation false
                   (Some "File is not a supported image format")
            else mkFileValidation true None
        end
  end.


(* ===================================================================== *)
(** * The retry loop shared by the two stage clients *)
(* ===================================================================== *)

(** What a [throw] carries: an instance of [Error] (a [DOMException] such
    as the one of an aborted [fetch] is one too), or any other value.  Of
    a value that is not an [Error] the code reads one thing, its [message]
    property: [message] is what that property holds, as a template literal
    prints it, and [None] for a value without one. *)
Inductive Thrown :=
| ThrownError (e : JsError)
| ThrownOther (message : option string).

(** How a call of an [async] function, or one pass through a [try] block,
    ends. *)
Inductive Outcome (A : Type) :=
| Returned (a : A)
| Threw (t : Thrown).

Arguments Returned {A} a.
Arguments Threw {A} t.

(** What can be observed of a call from outside: a remote call made on the
    given attempt, or a [setTimeout] wait of the given milliseconds. *)
Inductive Event :=
| Fetch (attempt : nat)
| Sleep (ms : Z).

(** A finished call: what it did, in order, and how it ended. *)
Record Run (A : Type) := mkRun {
  events : list Event;
  outcome : Outcome A
}.

(** What [response.json()] gives: the parsed body, or a rejection. *)
Inductive JsonResult (B : Type) :=
| JsonValue (b : B)
| JsonFails (e : JsError).

Arguments JsonValue {B} b.
Arguments JsonFails {B} e.

(** The fields of a response body both clients read, around the payload
    [P] of each: [result.error], [result.success]. *)
Record Body (P : Type) := mkBody {
  body_error : option string;
  body_success : bool;
  body_payload : P
}.

(** The [fetch] of one attempt, as the model's input.
      - [Rejected t]: the promise of [fetch] rejects.  When the timer of
        [TIMEOUT_MS] fires first, [controller.abort()] cancels the request
        and [fetch] rejects with an error named ["AbortError"].
      - [Responded ok status json]: a response arrived; [json] is what
        [response.json()] gives.
    Every awaited promise is taken to settle: the timer bounds the wait
    for the response, and the body of a response that arrived is assumed
    to arrive too (the code clears the timer before it reads the body).
    A body that never arrives is the matter of [awaitLoop]. *)
Inductive FetchResult (P : Type) :=
| Rejected (t : Thrown)
| Responded (ok : bool) (status : nat) (json : JsonResult (Body P)).

Arguments Rejected {P} t.
Arguments Responded {P} ok status json.

(** The rejection of an aborted [fetch]. *)
Definition abortError : JsError :=
  mkError "AbortError" "The user aborted a request.".

(** Lines 55-58 ([text-extraction.ts]) and 63-66 ([summary-generation.ts]):
    the error thrown for a response that is not [ok]. *)
Definition notOkError {P} (status : nat) (json : JsonResult (Body P))
  : Thrown :=
  let errorData_error :=
    match json with
    | JsonValue b => body_error b
    | JsonFails _ => Some "Unknown server error"
    end in
  ThrownError
    (newError (Js.orElse errorData_error
                 ("Server error: " ++ Js.ofNat status))).

(** What distinguishes the loop of [extractTextFromFile] from the loop of
    [generateSummary]. *)
Record Policy := mkPolicy {
  (** [MAX_RETRIES] *)
  maxRetries : nat;
  (** the test under "Don't retry validation errors", on the message *)
  isValidationMessage : string -> bool;
  (** the factor of [Math.pow(2, attempt)] in the wait for a rate limit *)
  rateLimitUnit : Z;
  (** the message of the error thrown for an ["AbortError"] *)
  timeoutMessage : string;
  (** the text before the count in the error thrown after the loop *)
  exhaustedPrefix : string
}.

(** The [throw] after the loop.  [lastError] is the value caught last,
    cast to [Error] without a test: [lastError?.message] is read from
    whatever was thrown, and is [undefined] for a [null] [lastError] and
    for a value without the property. *)
Definition exhausted (P : Policy) (lastError : option Thrown) : Thrown :=
  let lastMessage :=
    match lastError with
    | Some (ThrownError e) => Some (err_message e)
    | Some (ThrownOther message) => message
    | None => None
    end in
  ThrownError
    (newError (exhaustedPrefix P ++ Js.ofNat (maxRetries P) ++ " attempts: "
               ++ Js.orElse lastMessage "Unknown error")).

(** What the [catch] block decides before it looks at the attempt count:
    throw out of the function, or go on after the given waits. *)
Inductive CatchAction :=
| Rethrow (t : Thrown)
| Continue (waits : list Event).

(** The [if (error instanceof Error) { ... }] of the [catch] block. *)
Definition onCatch (P : Policy) (attempt : nat) (t : Thrown) : CatchAction :=
  match t with
  | ThrownError e =>
      if String.eqb (err_name e) "AbortError" then
        Rethrow (ThrownError (newError (timeoutMessage P)))
      else if isValidationMessage P (err_message e) then
        Rethrow t
      else if Js.includes (err_message e) "rate limit" then
        Continue [Sleep (2 ^ Z.of_nat attempt * rateLimitUnit P)]
      else Continue []
  | ThrownOther _ => Continue []
  end.

(** The wait "with exponential backoff" at the end of the [catch] block:
    [Math.pow(2, attempt - 1) * 1000]. *)
Definition backoff (attempt : nat) : Z := 2 ^ (Z.of_nat attempt - 1) * 1000.

(** [for (let attempt = ...; attempt <= MAX_RETRIES; attempt++) { try {...}
    catch {...} }] followed by the final [throw].  [body attempt] is the
    outcome of the [try] block on that attempt; the block calls [fetch]
    once, first.  [fuel] bounds the number of passes; [maxRetries P]
    passes are never exceeded (see [retryLoop_fuel]). *)
Fixpoint retryLoop {A} (P : Policy) (body : nat -> Outcome A)
    (fuel attempt : nat) (lastError : option Thrown) : Run A :=
  match fuel with
  | O => mkRun [] (Threw (exhausted P lastError))
  | S fuel' =>
      if (attempt <=? maxRetries P)%nat then
        match body attempt with
        | Returned a => mkRun [Fetch attempt] (Returned a)
        | Threw t =>
            match onCatch P attempt t with
            | Rethrow t' => mkRun [Fetch attempt] (Threw t')
            | Continue waits =>
                if (attempt =? maxRetries P)%nat then
                  mkRun (Fetch attempt :: waits)
                        (Threw (exhausted P (Some t)))
                else
                  let rest := retryLoop P body fuel' (S attempt) (Some t) in
                  mkRun (Fetch attempt :: waits
                           ++ Sleep (backoff attempt) :: events rest)
                        (outcome rest)
            end
        end
      else mkRun [] (Threw (exhausted P lastError))
  end.

(** A whole call: the checks before the loop, then the loop from attempt
    1.  [rejected] is the error of the checks, if one fails. *)
Definition execute {A} (P : Policy) (rejected : option JsError)
    (body : nat -> Outcome A) : Run A :=
  match rejected with
  | Some e => mkRun [] (Threw (ThrownError e))
  | None => retryLoop P body (maxRetries P) 1 None
  end.

(** The number of remote calls of a run. *)
Fixpoint remoteCalls (evs : list Event) : nat :=
  match evs with
  | [] => 0
  | Fetch _ :: evs' => S (remoteCalls evs')
  | Sleep _ :: evs' => remoteCalls evs'
  end.

(** The waits before the remote calls: for each [Fetch], the sum of the
    sleeps since the previous one (since the start for the first). Sleeps
    after the last call precede no attempt and are not listed. *)
Fixpoint waitsBeforeCalls (slept : Z) (evs : list Event) : list Z :=
  match evs with
  | [] => []
  | Sleep ms :: evs' => waitsBeforeCalls (slept + ms) evs'
  | Fetch _ :: evs' => slept :: waitsBeforeCalls 0 evs'
  end.

(** The wait before attempt 2, before attempt 3, and so on. *)
Definition retryWaits (evs : list Event) : list Z :=
  tl (waitsBeforeCalls 0 evs).

(* ===================================================================== *)
(** * [extractTextFromFile] *)
(* ===================================================================== *)

Record ExtractedText := mkExtractedText {
  text : string;
  wordCount : Z;
  characterCount : Z;
  fileName : string;
  fileType : FileKind
}.

(** The payload of the answer of [/api/extract-text]. *)
Record ExtractPayload := mkExtractPayload {
  result_text : string;
  result_wordCount : Z;
  result_characterCount : Z
}.

(** The [try] block of [extractTextFromFile], lines 38-72, after [fetch]. *)
Definition extractAttempt (f : File) (type : FileKind)
    (r : FetchResult ExtractPayload) : Outcome ExtractedText :=
  match r with
  | Rejected t => Threw t
  | Responded ok status json =>
      if negb ok then Threw (notOkError status json)
      else
        match json with
        | JsonFails e => Threw (ThrownError e)
        | JsonValue b =>
            if negb (body_success b) then
              Threw (ThrownError
                       (newError (Js.orElse (body_error b)
                                    "Text extraction failed")))
            else
              Returned
                (mkExtractedText (result_text (body_payload b))
                   (result_wordCount (body_payload b))
                   (result_characterCount (body_payload b))
                   (file_name f) type)
        end
  end.

Definition extractPolicy (type : FileKind) : Policy :=
  mkPolicy 3
    (fun m => Js.includes m "Invalid" || Js.includes m "too large")
    1000
    ("Timeout: "
       ++ match type with pdf => "PDF parsing" | image => "Image OCR" end
       ++ " took too long. Try with a smaller file.")
    "Failed after ".

(** [extractTextFromFile(file, type)], with the answers of
    [/api/extract-text] by attempt.  A null file never reaches the loop:
    the first check rejects it. *)
Definition extractTextFromFile (file : option File) (type : FileKind)
    (responses : nat -> FetchResult ExtractPayload) : Run ExtractedText :=
  match file with
  | None => execute (extractPolicy type)
              (extractTextFromFile_checks file type)
              (fun _ => Threw (ThrownOther None))
  | Some f =>
      execute (extractPolicy type) (extractTextFromFile_checks file type)
        (fun attempt => extractAttempt f type (responses attempt))
  end.

(* ===================================================================== *)
(** * [generateSummary] *)
(* ===================================================================== *)

Inductive SummaryLength := short | medium | long.

Record GeneratedSummary := mkGeneratedSummary {
  summary : string;
  keyPoints : string;
  summaryLength : SummaryLength;
  summary_fileName : string;
  summary_wordCount : Z;
  originalWordCount : Z
}.

(** The payload of the answer of [/api/generate-summary]; [summary] and
    [keyPoints] may be missing. *)
Record SummaryPayload := mkSummaryPayload {
  result_summary : option string;
  result_keyPoints : option string;
  result_summaryLength : SummaryLength;
  result_fileName : string;
  result_summaryWordCount : Z;
  result_originalWordCount : Z
}.

(** [text.trim().split(/\s+/).filter((word) => word.length > 0).length] *)
Definition countWords (text : string) : Z :=
  Z.of_nat
    (List.length
       (filter (fun word => (0 <? String.length word)%nat)
               (Js.splitSpaces (Js.trim text)))).

(** Lines 18-38 of [generateSummary]: the checks before the loop. *)
Definition generateSummary_checks (text fileName : string)
  : option JsError :=
  if negb (Js.truthy text) || (String.length (Js.trim text) =? 0)%nat then
    Some (newError "Invalid input: Text cannot be empty")
  else if negb (Js.truthy fileName) then
    Some (newError "Invalid input: File name is required")
  else if (countWords text <? 10)%Z then
    Some (newError
      "Text too short: Minimum 10 words required for summarization")
  else if (15000 <? countWords text)%Z then
    Some (newError
      "Text too long: Maximum 15,000 words supported for summarization")
  else None.

(** The [try] block of [generateSummary], lines 43-86, after [fetch]. *)
Definition summaryAttempt (r : FetchResult SummaryPayload)
  : Outcome GeneratedSummary :=
  match r with
  | Rejected t => Threw t
  | Responded ok status json =>
      if negb ok then Threw (notOkError status json)
      else
        match json with
        | JsonFails e => Threw (ThrownError e)
        | JsonValue b =>
            if negb (body_success b) then
              Threw (ThrownError
                       (newError (Js.orElse (body_error b)
                                    "Summary generation failed")))
            else
              match result_summary (body_payload b),
                    result_keyPoints (body_payload b) with
              | Some s, Some k =>
                  if Js.truthy s && Js.truthy k then
                    Returned
                      (mkGeneratedSummary s k
                         (result_summaryLength (body_payload b))
                         (result_fileName (body_payload b))
                         (result_summaryWordCount (body_payload b))
                         (result_originalWordCount (body_payload b)))
                  else
                    Threw (ThrownError (newError
                      "Invalid response: Missing summary or key points"))
              | _, _ =>
                  Threw (ThrownError (newError
                    "Invalid response: Missing summary or key points"))
              end
        end
  end.

Definition summaryPolicy : Policy :=
  mkPolicy 3
    (fun m => Js.includes m "Invalid input" || Js.includes m "too short"
              || Js.includes m "too long")
    2000
    "Timeout: Summary generation took too long. Try with shorter text."
    "Summary generation failed after ".

(** [generateSummary(text, fileName, summaryLength)], with the answers of
    [/api/generate-summary] by attempt.  The length setting only travels
    in the request. *)
Definition generateSummary (text fileName : string) (len : SummaryLength)
    (responses : nat -> FetchResult SummaryPayload) : Run GeneratedSummary :=
  execute summaryPolicy (generateSummary_checks text fileName)
    (fun attempt => summaryAttempt (responses attempt)).


(* ===================================================================== *)
(** * The two clients when the body of a response never arrives *)
(* ===================================================================== *)

(** A promise the code awaits: it settles, or it never does.  The timer of
    [TIMEOUT_MS] bounds the wait for the response only: it is cleared on
    line 53 ([text-extraction.ts]) and on line 61
    ([summary-generation.ts]), before [response.json()] is awaited on
    lines 56 and 60, and 64 and 68.  Nothing ends the wait for a body that
    does not arrive.  The waits of [setTimeout] always settle. *)
Inductive Awaited (A : Type) :=
| Settles (a : A)
| NeverSettles.

Arguments Settles {A} a.
Arguments NeverSettles {A}.

(** A call seen from outside: it has ended, or it is left waiting for
    ever after the given calls and waits. *)
Inductive Call (A : Type) :=
| Ended (run : Run A)
| Pending (done : list Event).

Arguments Ended {A} run.
Arguments Pending {A} done.

(** The calls and waits of a call, ended or not. *)
Definition eventsOf {A} (c : Call A) : list Event :=
  match c with
  | Ended run => events run
  | Pending done => done
  end.

(** A call that goes on as [c] after the events [evs]. *)
Definition thenCall {A} (evs : list Event) (c : Call A) : Call A :=
  match c with
  | Ended run => Ended (mkRun (evs ++ events run)%list (outcome run))
  | Pending done => Pending (evs ++ done)%list
  end.

Definition whenSettled {A B} (f : A -> B) (p : Awaited A) : Awaited B :=
  match p with
  | Settles a => Settles (f a)
  | NeverSettles => NeverSettles
  end.

(** The loop of [retryLoop], with a [try] block that may wait for ever:
    [body attempt] is how the block ends on that attempt, if it does.  The
    block calls [fetch] first, so the call of the attempt is made. *)
Fixpoint awaitLoop {A} (P : Policy) (body : nat -> Awaited (Outcome A))
    (fuel attempt : nat) (lastError : option Thrown) : Call A :=
  match fuel with
  | O => Ended (mkRun [] (Threw (exhausted P lastError)))
  | S fuel' =>
      if (attempt <=? maxRetries P)%nat then
        match body attempt with
        | NeverSettles => Pending [Fetch attempt]
        | Settles (Returned a) => Ended (mkRun [Fetch attempt] (Returned a))
        | Settles (Threw t) =>
            match onCatch P attempt t with
            | Rethrow t' => Ended (mkRun [Fetch attempt] (Threw t'))
            | Continue waits =>
                if (attempt =? maxRetries P)%nat then
                  Ended (mkRun (Fetch attempt :: waits)
                               (Threw (exhausted P (Some t))))
                else
                  thenCall
                    (Fetch attempt :: waits ++ [Sleep (backoff attempt)])%list
                    (awaitLoop P body fuel' (S attempt) (Some t))
            end
        end
      else Ended (mkRun [] (Threw (exhausted P lastError)))
  end.

(** A whole call, as [execute]. *)
Definition awaitExecute {A} (P : Policy) (rejected : option JsError)
    (body : nat -> Awaited (Outcome A)) : Call A :=
  match rejected with
  | Some e => Ended (mkRun [] (Threw (ThrownError e)))
  | None => awaitLoop P body (maxRetries P) 1 None
  end.

(** [extractTextFromFile], given for each attempt the answer of
    [/api/extract-text], or [NeverSettles] for a response whose body never
    arrives. *)
Definition extractTextFromFile_awaiting (file : option File) (type : FileKind)
    (responses : nat -> Awaited (FetchResult ExtractPayload))
  : Call ExtractedText :=
  match file with
  | None => awaitExecute (extractPolicy type)
              (extractTextFromFile_checks file type)
              (fun _ => NeverSettles)
  | Some f =>
      awaitExecute (extractPolicy type) (extractTextFromFile_checks file type)
        (fun attempt => whenSettled (extractAttempt f type) (responses attempt))
  end.

(** [generateSummary], in the same way. *)
Definition generateSummary_awaiting (text fileName : string)
    (len : SummaryLength)
    (responses : nat -> Awaited (FetchResult SummaryPayload))
  : Call GeneratedSummary :=
  awaitExecute summaryPolicy (generateSummary_checks text fileName)
    (fun attempt => whenSettled summaryAttempt (responses attempt)).


(* ===================================================================== *)
(** * [calculateCompressionRatio] *)
(* ===================================================================== *)

(** JavaScript numbers, as far as this function can tell them apart: the
    two infinities, [NaN], and the finite values as rationals.  The two
    zeros are one value here (the function only divides by a positive
    number, see [calculateCompressionRatio]).

    A finite result of an arithmetic operation is the exact result
    rounded to a representable number.  The rounding is a parameter, of
    which only two facts are used: it is monotone, and it leaves integers
    of magnitude up to 2^53 alone.  Round-to-nearest of binary64 is such a
    rounding on the range this function works in; overflow to an infinity
    is not modelled. *)
Inductive number :=
| NaN
| PosInf
| NegInf
| Fin (q : Q).

Record Rounding := mkRounding {
  rnd :> Q -> Q;
  rnd_mono : forall x y : Q, (x <= y)%Q -> (rnd x <= rnd y)%Q;
  rnd_int : forall z : Z,
      (Z.abs z <= 2 ^ 53)%Z -> (rnd (inject_Z z) == inject_Z z)%Q
}.

(** The rounding that rounds nothing. *)
Definition exactRounding : Rounding :=
  mkRounding (fun q => q) (fun _ _ H => H) (fun z _ => Qeq_refl (inject_Z z)).

Module Number.

(** Truthiness: [!x] holds of the zeros and of [NaN]. *)
Definition truthy (x : number) : bool :=
  match x with
  | NaN => false
  | Fin q => negb (Qeq_bool q 0)
  | PosInf | NegInf => true
  end.

(** [x <= y] *)
Definition leb (x y : number) : bool :=
  match x, y with
  | NaN, _ | _, NaN => false
  | NegInf, _ => true
  | _, PosInf => true
  | PosInf, _ => false
  | Fin _, NegInf => false
  | Fin a, Fin b => Qle_bool a b
  end.

(** [x < y] *)
Definition ltb (x y : number) : bool :=
  match x, y with
  | NaN, _ | _, NaN => false
  | _, NegInf => false
  | NegInf, _ => true
  | PosInf, _ => false
  | Fin _, PosInf => true
  | Fin a, Fin b => negb (Qle_bool b a)
  end.

(** [x > y] *)
Definition gtb (x y : number) : bool := ltb y x.

(** The infinity with the sign of [q] (of [+0] when [q] is zero). *)
Definition infOfSign (q : Q) : number :=
  if Qle_bool 0 q then PosInf else NegInf.

Definition neg (x : number) : number :=
  match x with
  | NaN => NaN
  | PosInf => NegInf
  | NegInf => PosInf
  | Fin q => Fin (- q)
  end.

(** [x / y] *)
Definition div (R : Rounding) (x y : number) : number :=
  match x, y with
  | NaN, _ | _, NaN => NaN
  | (PosInf | NegInf), (PosInf | NegInf) => NaN
  | PosInf, Fin b => infOfSign b
  | NegInf, Fin b => neg (infOfSign b)
  | Fin _, (PosInf | NegInf) => Fin 0
  | Fin a, Fin b =>
      if Qeq_bool b 0 then
        if Qeq_bool a 0 then NaN else infOfSign a
      else Fin (R (a / b)%Q)
  end.

(** [x - y] *)
Definition sub (R : Rounding) (x y : number) : number :=
  match x, y with
  | NaN, _ | _, NaN => NaN
  | PosInf, PosInf | NegInf, NegInf => NaN
  | PosInf, _ => PosInf
  | NegInf, _ => NegInf
  | Fin _, PosInf => NegInf
  | Fin _, NegInf => PosInf
  | Fin a, Fin b => Fin (R (a - b)%Q)
  end.

(** [x * y] *)
Definition mul (R : Rounding) (x y : number) : number :=
  match x, y with
  | NaN, _ | _, NaN => NaN
  | PosInf, PosInf | NegInf, NegInf => PosInf
  | PosInf, NegInf | NegInf, PosInf => NegInf
  | PosInf, Fin b | Fin b, PosInf =>
      if Qeq_bool b 0 then NaN else infOfSign b
  | NegInf, Fin b | Fin b, NegInf =>
      if Qeq_bool b 0 then NaN else neg (infOfSign b)
  | Fin a, Fin b => Fin (R (a * b)%Q)
  end.

(** [Math.round(x)]: the integer nearest to [x], the upper one of two
    equally near; [NaN] and the infinities are returned as they are. *)
Definition round (x : number) : number :=
  match x with
  | Fin q => Fin (inject_Z (Qfloor (q + (1 # 2))%Q))
  | _ => x
  end.

End Number.

(** [calculateCompressionRatio(originalWordCount, summaryWordCount)],
    lines 123-133. *)
Definition calculateCompressionRatio (R : Rounding)
    (originalWordCount summaryWordCount : number) : number :=
  if negb (Number.truthy originalWordCount)
     || negb (Number.truthy summaryWordCount)
     || Number.leb originalWordCount (Fin 0)
     || Number.ltb summaryWordCount (Fin 0)
  then Fin 0
  else if Number.gtb summaryWordCount originalWordCount then Fin 0
  else
    Number.round
      (Number.mul R
         (Number.sub R (Fin 1)
            (Number.div R summaryWordCount originalWordCount))
         (Fin 100)).

(** A number is an integer of the range 0 to 100. *)
Definition isPercentage (x : number) : Prop :=
  exists n : Z, (0 <= n <= 100)%Z /\ x = Fin (inject_Z n).


(* ===================================================================== *)
(** * The image analysis route ([app/api/analyze-image/route.ts]) *)
(* ===================================================================== *)

Record DetectedObject := mkDetectedObject {
  label : string;
  confidence : Z
}.

Record ObjectDetection := mkObjectDetection {
  objects : list DetectedObject;
  totalObjects : nat
}.

Record SceneAnalysis := mkSceneAnalysis {
  description : string;
  tags : list string;
  scene_confidence : Z
}.

Record TextRegion := mkTextRegion {
  region_text : string;
  region_confidence : Z
}.

Record TextAnalysis := mkTextAnalysis {
  extractedText_of_image : string;
  textRegions : list TextRegion
}.

Record VisualFeatures := mkVisualFeatures {
  dominantColors : list string;
  imageType : string;
  hasText : bool;
  isPhoto : bool;
  isDrawing : bool
}.

Record Metadata := mkMetadata {
  width : Z;
  height : Z;
  format : string;
  fileSize : N;
  analysisTimestamp : string
}.

Record ImageAnalysisResult := mkImageAnalysisResult {
  objectDetection : ObjectDetection;
  sceneAnalysis : SceneAnalysis;
  textAnalysis : TextAnalysis;
  visualFeatures : VisualFeatures;
  metadata : Metadata
}.

(** A call of the Hugging Face inference API, as the model's input: the
    [fetch] rejects, or a response arrives whose body parses to [R] or
    does not parse. *)
Inductive Upstream (R : Type) :=
| UpstreamRejects (t : Thrown)
| UpstreamResponds (ok : bool) (status : nat) (statusText : string)
    (json : JsonResult R).

Arguments UpstreamRejects {R} t.
Arguments UpstreamResponds {R} ok status statusText json.

(** [analyzeImageWithHuggingFace], lines 37-66.  The parsed body is
    [result[0]?.generated_text].  Whatever the [try] block throws is
    thrown again by the [catch] block. *)
Definition analyzeImageWithHuggingFace (up : Upstream (option string))
  : Outcome string :=
  match up with
  | UpstreamRejects t => Threw t
  | UpstreamResponds ok status statusText json =>
      if negb ok then
        Threw (ThrownError
                 (newError ("Hugging Face API error: " ++ Js.ofNat status
                            ++ " " ++ statusText)))
      else
        match json with
        | JsonFails e => Threw (ThrownError e)
        | JsonValue generated_text =>
            Returned (Js.orElse generated_text "Unable to analyze image")
        end
  end.

(** [detectObjectsWithHuggingFace], lines 68-98: every failure ends in
    the empty list.  The parsed body is taken after the [map] of line 90,
    that is with each score already turned into a rounded percentage. *)
Definition detectObjectsWithHuggingFace (up : Upstream (list DetectedObject))
  : list DetectedObject :=
  match up with
  | UpstreamRejects _ => []
  | UpstreamResponds ok _ _ json =>
      if negb ok then []
      else match json with
           | JsonFails _ => []
           | JsonValue objs => objs
           end
  end.

Definition commonWords : list string :=
  ["the"; "a"; "an"; "and"; "or"; "but"; "in"; "on"; "at"; "to"; "for";
   "of"; "with"; "by"; "is"; "are"; "was"; "were"].

(** [s.replace(/[^\w\s]/g, "")] *)
Fixpoint keepWordsAndSpaces (s : string) : string :=
  match s with
  | EmptyString => EmptyString
  | String c s' =>
      if Js.isWordChar c || Js.isSpace c
      then String c (keepWordsAndSpaces s')
      else keepWordsAndSpaces s'
  end.

Definition memString (x : string) (l : list string) : bool :=
  existsb (String.eqb x) l.

(** [[...new Set(words)]]: each word once, at its first position.
    [seen] holds the words met so far. *)
Fixpoint uniqueFrom (seen words : list string) : list string :=
  match words with
  | [] => []
  | w :: rest =>
      if memString w seen then uniqueFrom seen rest
      else w :: uniqueFrom (w :: seen) rest
  end.

(** [extractTagsFromDescription], lines 232-260. *)
Definition extractTagsFromDescription (description : string) : list string :=
  let words :=
    filter (fun word => (2 <? String.length word)%nat
                        && negb (memString word commonWords))
           (Js.splitSpaces (keepWordsAndSpaces (Js.toLowerCase description)))
  in firstn 5 (uniqueFrom [] words).

(** What the route answers: a status and a JSON body. *)
Inductive RouteBody :=
| ErrorBody (error : string)
| AnalysisBody (success : bool) (analysis : ImageAnalysisResult)
    (warning : option string).

Record RouteResponse := mkRouteResponse {
  status : nat;
  body : RouteBody
}.

(** 10 * 1024 * 1024 *)
Definition MAX_IMAGE_SIZE : N := 10 * 1024 * 1024.

(** The object [fallbackAnalysis] of lines 185-213. *)
Definition fallbackAnalysis (f : File) (now : string) : ImageAnalysisResult :=
  mkImageAnalysisResult
    (mkObjectDetection [mkDetectedObject "image" 50] 1)
    (mkSceneAnalysis
       "Image analysis temporarily unavailable. Please try again later."
       ["image"] 50)
    (mkTextAnalysis "" [])
    (mkVisualFeatures ["#808080"] "image" false
       (Js.includes (file_type f) "jpeg" || Js.includes (file_type f) "jpg")
       false)
    (mkMetadata 0 0 (file_type f) (file_size f) now).

(** The object built on lines 140-176 when both calls are over. *)
Definition fullAnalysis (f : File) (description : string)
    (objs : list DetectedObject) (now : string) : ImageAnalysisResult :=
  let jpeg :=
    Js.includes (file_type f) "jpeg" || Js.includes (file_type f) "jpg" in
  let lower := Js.toLowerCase description in
  mkImageAnalysisResult
    (mkObjectDetection (firstn 10 objs) (List.length objs))
    (mkSceneAnalysis description (extractTagsFromDescription description) 85)
    (mkTextAnalysis "" [])
    (mkVisualFeatures ["#808080"]
       (if jpeg then "photo" else "image")
       (Js.includes lower "text" || Js.includes lower "sign")
       jpeg
       (Js.includes (file_type f) "svg" || Js.includes lower "drawing"))
    (mkMetadata 0 0 (file_type f) (file_size f) now).

(** [error.message || "Unknown error"] *)
Definition messageOf (t : Thrown) : string :=
  match t with
  | ThrownError e => Js.orElse (Some (err_message e)) "Unknown error"
  | ThrownOther message => Js.orElse message "Unknown error"
  end.

(** The handler [POST], lines 107-230.
      - [formData]: what [request.formData()] gives, and in it the entry
        ["file"];
      - [arrayBuffer]: whether the bytes of the file could be read;
      - [caption], [detection]: the two calls of the inference API;
      - [now]: [new Date().toISOString()]. *)
Definition POST (formData : Outcome (option File)) (arrayBuffer : Outcome unit)
    (caption : Upstream (option string))
    (detection : Upstream (list DetectedObject)) (now : string)
  : RouteResponse :=
  let failed (t : Thrown) :=
    mkRouteResponse 500
      (ErrorBody ("Failed to analyze image: " ++ messageOf t
                  ++ ". Please try again.")) in
  match formData with
  | Threw t => failed t
  | Returned None => mkRouteResponse 400 (ErrorBody "No file provided")
  | Returned (Some f) =>
      if negb (Js.startsWith (file_type f) "image/") then
        mkRouteResponse 400 (ErrorBody "File must be an image")
      else if (MAX_IMAGE_SIZE <? file_size f)%N then
        mkRouteResponse 400
          (ErrorBody "Image file too large. Maximum size is 10MB.")
      else
        match arrayBuffer with
        | Threw t => failed t
        | Returned _ =>
            match analyzeImageWithHuggingFace caption with
            | Returned description =>
                let objs := detectObjectsWithHuggingFace detection in
                mkRouteResponse 200
                  (AnalysisBody true (fullAnalysis f description objs now)
                     None)
            | Threw apiError =>
                mkRouteResponse 200
                  (AnalysisBody true (fallbackAnalysis f now)
                     (Some "Using basic analysis due to API limitations"))
            end
        end
  end.

(** [response.ok]: a status from 200 to 299. *)
Definition isOk (st : nat) : bool := ((200 <=? st) && (st <=? 299))%nat.

(** The client [analyzeImage] of the route, given what its [fetch] of
    [/api/analyze-image] did. *)
Definition analyzeImage (fetched : Outcome RouteResponse)
  : Outcome ImageAnalysisResult :=
  match fetched with
  | Threw t => Threw t
  | Returned response =>
      if negb (isOk (status response)) then
        Threw (ThrownError (newError
          (Js.orElse
             match body response with
             | ErrorBody e => Some e
             | AnalysisBody _ _ _ => None
             end
             ("Analysis failed: " ++ Js.ofNat (status response)))))
      else
        match body response with
        | AnalysisBody true analysis _ => Returned analysis
        | AnalysisBody false _ _ =>
            Threw (ThrownError (newError "Image analysis failed"))
        | ErrorBody e =>
            Threw (ThrownError (newError (Js.orElse (Some e)
                                            "Image analysis failed")))
        end
  end.


(* ===================================================================== *)
(** * The page: uploaded files and the stages run on them *)
(* ===================================================================== *)

(** Of the results of the other stages the page only reads the document
    type of a structure analysis; their other fields are left out. *)
Record DocumentStructureAnalysis := mkDocumentStructureAnalysis {
  documentType : string;
  structure_confidence : Z
}.

Record DocumentQualityMetrics := mkDocumentQualityMetrics {
  overallQuality : string
}.

Inductive SpecializedDocumentAnalysis :=
| InvoiceAnalysis
| ContractAnalysis
| ResumeAnalysis.

(** [interface UploadedFile].  An optional field is an [option]. *)
Record UploadedFile := mkUploadedFile {
  file : File;
  id : string;
  type : FileKind;
  preview : option string;
  extractedText : option ExtractedText;
  isExtracting : option bool;
  extractionError : option string;
  generatedSummary : option GeneratedSummary;
  isSummarizing : option bool;
  summaryError : option string;
  imageAnalysis : option ImageAnalysisResult;
  isAnalyzingImage : option bool;
  imageAnalysisError : option string;
  documentStructure : option DocumentStructureAnalysis;
  isAnalyzingStructure : option bool;
  structureAnalysisError : option string;
  documentQuality : option DocumentQualityMetrics;
  isAnalyzingQuality : option bool;
  qualityAnalysisError : option string;
  specializedAnalysis : option SpecializedDocumentAnalysis;
  isAnalyzingSpecialized : option bool;
  specializedAnalysisError : option string
}.

(** [{ ...f, field: v }], for the fields the modelled handlers write. *)
Definition set_extractedText (v : option ExtractedText) (f : UploadedFile)
  : UploadedFile :=
  mkUploadedFile (file f) (id f) (type f) (preview f) v (isExtracting f)
      (extractionError f) (generatedSummary f) (isSummarizing f)
      (summaryError f) (imageAnalysis f) (isAnalyzingImage f)
      (imageAnalysisError f) (documentStructure f) (isAnalyzingStructure f)
      (structureAnalysisError f) (documentQuality f) (isAnalyzingQuality f)
      (qualityAnalysisError f) (specializedAnalysis f)
      (isAnalyzingSpecialized f) (specializedAnalysisError f).

Definition set_isExtracting (v : option bool) (f : UploadedFile)
  : UploadedFile :=
  mkUploadedFile (file f) (id f) (type f) (preview f) (extractedText f) v
      (extractionError f) (generatedSummary f) (isSummarizing f)
      (summaryError f) (imageAnalysis f) (isAnalyzingImage f)
      (imageAnalysisError f) (documentStructure f) (isAnalyzingStructure f)
      (structureAnalysisError f) (documentQuality f) (isAnalyzingQuality f)
      (qualityAnalysisError f) (specializedAnalysis f)
      (isAnalyzingSpecialized f) (specializedAnalysisError f).

Definition set_extractionError (v : option string) (f : UploadedFile)
  : UploadedFile :=
  mkUploadedFile (file f) (id f) (type f) (preview f) (extractedText f)
      (isExtracting f) v (generatedSummary f) (isSummarizing f)
      (summaryError f) (imageAnalysis f) (isAnalyzingImage f)
      (imageAnalysisError f) (documentStructure f) (isAnalyzingStructure f)
      (structureAnalysisError f) (documentQuality f) (isAnalyzingQuality f)
      (qualityAnalysisError f) (specializedAnalysis f)
      (isAnalyzingSpecialized f) (specializedAnalysisError f).

Definition set_imageAnalysis (v : option ImageAnalysisResult) (f : UploadedFile)
  : UploadedFile :=
  mkUploadedFile (file f) (id f) (type f) (preview f) (extractedText f)
      (isExtracting f) (extractionError f) (generatedSummary f)
      (isSummarizing f) (summaryError f) v (isAnalyzingImage f)
      (imageAnalysisError f) (documentStructure f) (isAnalyzingStructure f)
      (structureAnalysisError f) (documentQuality f) (isAnalyzingQuality f)
      (qualityAnalysisError f) (specializedAnalysis f)
      (isAnalyzingSpecialized f) (specializedAnalysisError f).

Definition set_isAnalyzingImage (v : option bool) (f : UploadedFile)
  : UploadedFile :=
  mkUploadedFile (file f) (id f) (type f) (preview f) (extractedText f)
      (isExtracting f) (extractionError f) (generatedSummary f)
      (isSummarizing f) (summaryError f) (imageAnalysis f) v
      (imageAnalysisError f) (documentStructure f) (isAnalyzingStructure f)
      (structureAnalysisError f) (documentQuality f) (isAnalyzingQuality f)
      (qualityAnalysisError f) (specializedAnalysis f)
      (isAnalyzingSpecialized f) (specializedAnalysisError f).

Definition set_imageAnalysisError (v : option string) (f : UploadedFile)
  : UploadedFile :=
  mkUploadedFile (file f) (id f) (type f) (preview f) (extractedText f)
      (isExtracting f) (extractionError f) (generatedSummary f)
      (isSummarizing f) (summaryError f) (imageAnalysis f)
      (isAnalyzingImage f) v (documentStructure f) (isAnalyzingStructure f)
      (structureAnalysisError f) (documentQuality f) (isAnalyzingQuality f)
      (qualityAnalysisError f) (specializedAnalysis f)
      (isAnalyzingSpecialized f) (specializedAnalysisError f).

Definition set_documentStructure (v : option DocumentStructureAnalysis)
    (f : UploadedFile) : UploadedFile :=
  mkUploadedFile (file f) (id f) (type f) (preview f) (extractedText f)
      (isExtracting f) (extractionError f) (generatedSummary f)
      (isSummarizing f) (summaryError f) (imageAnalysis f)
      (isAnalyzingImage f) (imageAnalysisError f) v (isAnalyzingStructure f)
      (structureAnalysisError f) (documentQuality f) (isAnalyzingQuality f)
      (qualityAnalysisError f) (specializedAnalysis f)
      (isAnalyzingSpecialized f) (specializedAnalysisError f).

Definition set_isAnalyzingStructure (v : option bool) (f : UploadedFile)
  : UploadedFile :=
  mkUploadedFile (file f) (id f) (type f) (preview f) (extractedText f)
      (isExtracting f) (extractionError f) (generatedSummary f)
      (isSummarizing f) (summaryError f) (imageAnalysis f)
      (isAnalyzingImage f) (imageAnalysisError f) (documentStructure f) v
      (structureAnalysisError f) (documentQuality f) (isAnalyzingQuality f)
      (qualityAnalysisError f) (specializedAnalysis f)
      (isAnalyzingSpecialized f) (specializedAnalysisError f).

Definition set_structureAnalysisError (v : option string) (f : UploadedFile)
  : UploadedFile :=
  mkUploadedFile (file f) (id f) (type f) (preview f) (extractedText f)
      (isExtracting f) (extractionError f) (generatedSummary f)
      (isSummarizing f) (summaryError f) (imageAnalysis f)
      (isAnalyzingImage f) (imageAnalysisError f) (documentStructure f)
      (isAnalyzingStructure f) v (documentQuality f) (isAnalyzingQuality f)
      (qualityAnalysisError f) (specializedAnalysis f)
      (isAnalyzingSpecialized f) (specializedAnalysisError f).

(** What the route of the specialized analysis answers. *)
Inductive SpecializedAnswer :=
| SpecializedError (status : nat) (error : string)
| SpecializedSuccess (analysis : SpecializedDocumentAnalysis).

(** The handler [POST] of the specialized analysis (part_003, lines
    60-164).  [generated] tells how the call of the language model ended;
    the extracted object itself is not modelled. *)
Definition specializedPOST (text documentType : string)
    (generated : Outcome unit) : SpecializedAnswer :=
  if negb (Js.truthy text) || negb (Js.truthy documentType) then
    SpecializedError 400 "Document text and type are required"
  else
    let extractAs (analysis : SpecializedDocumentAnalysis) :=
      match generated with
      | Returned _ => SpecializedSuccess analysis
      | Threw _ =>
          SpecializedError 500
            "Failed to perform specialized analysis. Please try again."
      end in
    if String.eqb documentType "invoice" then extractAs InvoiceAnalysis
    else if String.eqb documentType "contract" then extractAs ContractAnalysis
    else if String.eqb documentType "resume" then extractAs ResumeAnalysis
    else
      SpecializedError 400
        "Unsupported document type for specialized analysis".

(** A file as [processFiles] adds it. *)
Definition newUpload (f : File) (i : string) (t : FileKind)
    (p : option string) : UploadedFile :=
  mkUploadedFile f i t p None None None None None None None None None
    None None None None None None None None None.

(** Truthiness of an optional object. *)
Definition present {A} (o : option A) : bool :=
  match o with
  | Some _ => true
  | None => false
  end.

(** The six stages. *)
Inductive Stage :=
| StageExtract
| StageSummarize
| StageAnalyzeImage
| StageAnalyzeStructure
| StageAnalyzeQuality
| StageAnalyzeSpecialized.

Definition allStages : list Stage :=
  [StageExtract; StageSummarize; StageAnalyzeImage; StageAnalyzeStructure;
   StageAnalyzeQuality; StageAnalyzeSpecialized].

(** The document types with a specialized analysis (lines 434 and 553). *)
Definition specializedTypes : list string := ["invoice"; "contract"; "resume"].

(** The predicates of the six [filter] calls (lines 180, 224, 272, 320,
    374, 428), which are also those of the six [can...] constants (lines
    540-554). *)
Definition needsExtraction (f : UploadedFile) : bool :=
  negb (present (extractedText f)) && negb (Js.truthyOpt (extractionError f)).

Definition needsSummary (f : UploadedFile) : bool :=
  present (extractedText f) && negb (present (generatedSummary f))
  && negb (Js.truthyOpt (summaryError f)).

Definition needsImageAnalysis (f : UploadedFile) : bool :=
  match type f with image => true | pdf => false end
  && negb (present (imageAnalysis f))
  && negb (Js.truthyOpt (imageAnalysisError f)).

Definition needsStructure (f : UploadedFile) : bool :=
  present (extractedText f) && negb (present (documentStructure f))
  && negb (Js.truthyOpt (structureAnalysisError f)).

Definition needsQuality (f : UploadedFile) : bool :=
  present (extractedText f) && negb (present (documentQuality f))
  && negb (Js.truthyOpt (qualityAnalysisError f)).

Definition needsSpecialized (f : UploadedFile) : bool :=
  present (extractedText f) && present (documentStructure f)
  && negb (present (specializedAnalysis f))
  && negb (Js.truthyOpt (specializedAnalysisError f))
  && match documentStructure f with
     | Some d => memString (documentType d) specializedTypes
     | None => false
     end.

Definition eligible (st : Stage) (f : UploadedFile) : bool :=
  match st with
  | StageExtract => needsExtraction f
  | StageSummarize => needsSummary f
  | StageAnalyzeImage => needsImageAnalysis f
  | StageAnalyzeStructure => needsStructure f
  | StageAnalyzeQuality => needsQuality f
  | StageAnalyzeSpecialized => needsSpecialized f
  end.

(** Reading the page's state.  A computation over the state [S] returns a
    value and the state it leaves. *)
Definition Reader (S A : Type) : Type := S -> A * S.

Definition ret {S A} (a : A) : Reader S A := fun s => (a, s).

Definition bind {S A B} (c : Reader S A) (k : A -> Reader S B) : Reader S B :=
  fun s => let (a, s') := c s in k a s'.

Notation "x <- c ;; k" := (bind c (fun x => k))
  (at level 61, c at next level, right associativity).

(** [uploadedFiles.filter(p)] and [uploadedFiles.some(p)]: both read the
    array and leave it as it is. *)
Definition filterFiles (p : UploadedFile -> bool)
  : Reader (list UploadedFile) (list UploadedFile) :=
  fun uploadedFiles => (filter p uploadedFiles, uploadedFiles).

Definition someFile (p : UploadedFile -> bool)
  : Reader (list UploadedFile) bool :=
  fun uploadedFiles => (existsb p uploadedFiles, uploadedFiles).

(** The [can...] constants of lines 540-554. *)
Definition canExtractText : Reader (list UploadedFile) bool :=
  someFile needsExtraction.

Definition canGenerateSummaries : Reader (list UploadedFile) bool :=
  someFile needsSummary.

Definition canAnalyzeImages : Reader (list UploadedFile) bool :=
  someFile needsImageAnalysis.

Definition canAnalyzeStructures : Reader (list UploadedFile) bool :=
  someFile needsStructure.

Definition canAnalyzeQuality : Reader (list UploadedFile) bool :=
  someFile needsQuality.

Definition canPerformSpecialized : Reader (list UploadedFile) bool :=
  someFile needsSpecialized.

(** The six constants as one rendering computes them, in the order of the
    stages. *)
Definition canRun : Reader (list UploadedFile) (list (Stage * bool)) :=
  extract <- canExtractText ;;
  summarize <- canGenerateSummaries ;;
  images <- canAnalyzeImages ;;
  structures <- canAnalyzeStructures ;;
  quality <- canAnalyzeQuality ;;
  specialized <- canPerformSpecialized ;;
  ret [(StageExtract, extract);
       (StageSummarize, summarize);
       (StageAnalyzeImage, images);
       (StageAnalyzeStructure, structures);
       (StageAnalyzeQuality, quality);
       (StageAnalyzeSpecialized, specialized)].

(** The files one stage would work on, as pairs of file id and stage. *)
Definition workOf (st : Stage)
  : Reader (list UploadedFile) (list (string * Stage)) :=
  files <- filterFiles (eligible st) ;;
  ret (map (fun f => (id f, st)) files).

(** The runnable pairs of file and stage: what the six filters select. *)
Definition runnableWork
  : Reader (list UploadedFile) (list (string * Stage)) :=
  w1 <- workOf StageExtract ;;
  w2 <- workOf StageSummarize ;;
  w3 <- workOf StageAnalyzeImage ;;
  w4 <- workOf StageAnalyzeStructure ;;
  w5 <- workOf StageAnalyzeQuality ;;
  w6 <- workOf StageAnalyzeSpecialized ;;
  ret (w1 ++ w2 ++ w3 ++ w4 ++ w5 ++ w6)%list.

(** The state of one stage of one file, in the words of the
    specification. *)
Inductive StageState (R : Type) :=
| NotStarted
| InProgress
| Succeeded (result : R)
| Failed (error : string).

Arguments NotStarted {R}.
Arguments InProgress {R}.
Arguments Succeeded {R} result.
Arguments Failed {R} error.

(** How the three fields of a stage are read as a stage state: a result
    is a success, an error (a message that is not empty) a failure, the
    flag alone work in progress. *)
Definition stageState {R} (result : option R) (busy : option bool)
    (error : option string) : StageState R :=
  match result, error, busy with
  | Some r, _, _ => Succeeded r
  | None, Some e, _ =>
      if Js.truthy e then Failed e
      else match busy with
           | Some true => InProgress
           | _ => NotStarted
           end
  | None, None, Some true => InProgress
  | None, None, _ => NotStarted
  end.

Definition extractionState (f : UploadedFile) : StageState ExtractedText :=
  stageState (extractedText f) (isExtracting f) (extractionError f).

Definition structureState (f : UploadedFile)
  : StageState DocumentStructureAnalysis :=
  stageState (documentStructure f) (isAnalyzingStructure f)
    (structureAnalysisError f).

Definition specializedState (f : UploadedFile)
  : StageState SpecializedDocumentAnalysis :=
  stageState (specializedAnalysis f) (isAnalyzingSpecialized f)
    (specializedAnalysisError f).


(** [prev.map((f) => (f.id === uploadedFile.id ? change(f) : f))] *)
Definition updateFile (uploadedFile : UploadedFile)
    (change : UploadedFile -> UploadedFile) (prev : list UploadedFile)
  : list UploadedFile :=
  map (fun f => if String.eqb (id f) (id uploadedFile) then change f else f)
      prev.

(** [error instanceof Error ? error.message : "Unknown error"] *)
Definition shownMessage (t : Thrown) : string :=
  match t with
  | ThrownError e => err_message e
  | ThrownOther _ => "Unknown error"
  end.

(** One pass of the loop of [extractTextFromFiles], lines 182-216, on the
    state [prev] of the page: the three [setUploadedFiles] calls. *)
Definition extractOne (uploadedFile : UploadedFile)
    (responses : nat -> FetchResult ExtractPayload)
    (prev : list UploadedFile) : list UploadedFile :=
  let marked :=
    updateFile uploadedFile (set_isExtracting (Some true)) prev in
  match outcome (extractTextFromFile (Some (file uploadedFile))
                   (type uploadedFile) responses) with
  | Returned extracted =>
      updateFile uploadedFile
        (fun f => set_isExtracting (Some false)
                    (set_extractedText (Some extracted) f))
        marked
  | Threw error =>
      updateFile uploadedFile
        (fun f => set_isExtracting (Some false)
                    (set_extractionError (Some (shownMessage error)) f))
        marked
  end.

(** The loop over [filesToProcess]; [responses k] are the answers to the
    calls made for the file at position [k] of that list. *)
Fixpoint extractEach (filesToProcess : list UploadedFile)
    (responses : nat -> nat -> FetchResult ExtractPayload) (k : nat)
    (prev : list UploadedFile) : list UploadedFile :=
  match filesToProcess with
  | [] => prev
  | uploadedFile :: rest =>
      extractEach rest responses (S k)
        (extractOne uploadedFile (responses k) prev)
  end.

(** [extractTextFromFiles], lines 177-219.  [uploadedFiles] is the array
    the callback closed over, [prev] the state the updates apply to. *)
Definition extractTextFromFiles (uploadedFiles : list UploadedFile)
    (responses : nat -> nat -> FetchResult ExtractPayload)
    (prev : list UploadedFile) : list UploadedFile :=
  extractEach (filter needsExtraction uploadedFiles) responses 0 prev.

(** One pass of the loop of [analyzeImages], lines 274-312. *)
Definition analyzeImageOne (uploadedFile : UploadedFile)
    (fetched : Outcome RouteResponse) (prev : list UploadedFile)
  : list UploadedFile :=
  let marked :=
    updateFile uploadedFile (set_isAnalyzingImage (Some true)) prev in
  match analyzeImage fetched with
  | Returned analysis =>
      updateFile uploadedFile
        (fun f => set_isAnalyzingImage (Some false)
                    (set_imageAnalysis (Some analysis) f))
        marked
  | Threw error =>
      updateFile uploadedFile
        (fun f => set_isAnalyzingImage (Some false)
                    (set_imageAnalysisError (Some (shownMessage error)) f))
        marked
  end.

(** One pass of the loop of [analyzeDocumentStructures], lines 324-366;
    [answer] is how the call of [analyzeDocumentStructure] ended. *)
Definition analyzeStructureOne (uploadedFile : UploadedFile)
    (answer : Outcome DocumentStructureAnalysis) (prev : list UploadedFile)
  : list UploadedFile :=
  let marked :=
    updateFile uploadedFile (set_isAnalyzingStructure (Some true)) prev in
  match answer with
  | Returned analysis =>
      updateFile uploadedFile
        (fun f => set_isAnalyzingStructure (Some false)
                    (set_documentStructure (Some analysis) f))
        marked
  | Threw error =>
      updateFile uploadedFile
        (fun f => set_isAnalyzingStructure (Some false)
                    (set_structureAnalysisError (Some (shownMessage error))
                       f))
        marked
  end.


(* ===================================================================== *)
(** * [validateTextForSummary] ([summary-generation.ts]) *)
(* ===================================================================== *)

(** The object [validateTextForSummary] returns. *)
Record TextValidation := mkTextValidation {
  text_isValid : bool;
  text_error : option string;
  text_wordCount : option Z
}.

(** [validateTextForSummary], lines 135-156. *)
Definition validateTextForSummary (text : string) : TextValidation :=
  if negb (Js.truthy text) then
    mkTextValidation false (Some "Text must be a non-empty string") None
  else
    let trimmedText := Js.trim text in
    if (String.length trimmedText =? 0)%nat then
      mkTextValidation false (Some "Text cannot be empty") None
    else
      let wordCount :=
        Z.of_nat
          (List.length
             (filter (fun word => (0 <? String.length word)%nat)
                     (Js.splitSpaces trimmedText))) in
      if (wordCount <? 10)%Z then
        mkTextValidation false
          (Some "Text must contain at least 10 words") (Some wordCount)
      else if (15000 <? wordCount)%Z then
        mkTextValidation false
          (Some "Text exceeds maximum length of 15,000 words")
          (Some wordCount)
      else mkTextValidation true None (Some wordCount).

(* ===================================================================== *)
(** * The other handlers of the page *)
(* ===================================================================== *)

(** [{ ...f, field: v }], for the fields of the remaining stages. *)
Definition set_generatedSummary (v : option GeneratedSummary)
    (f : UploadedFile)
  : UploadedFile :=
  mkUploadedFile (file f) (id f) (type f) (preview f) (extractedText f)
      (isExtracting f) (extractionError f) v (isSummarizing f)
      (summaryError f) (imageAnalysis f) (isAnalyzingImage f)
      (imageAnalysisError f) (documentStructure f) (isAnalyzingStructure f)
      (structureAnalysisError f) (documentQuality f) (isAnalyzingQuality f)
      (qualityAnalysisError f) (specializedAnalysis f)
      (isAnalyzingSpecialized f) (specializedAnalysisError f).

Definition set_isSummarizing (v : option bool) (f : UploadedFile)
  : UploadedFile :=
  mkUploadedFile (file f) (id f) (type f) (preview f) (extractedText f)
      (isExtracting f) (extractionError f) (generatedSummary f) v
      (summaryError f) (imageAnalysis f) (isAnalyzingImage f)
      (imageAnalysisError f) (documentStructure f) (isAnalyzingStructure f)
      (structureAnalysisError f) (documentQuality f) (isAnalyzingQuality f)
      (qualityAnalysisError f) (specializedAnalysis f)
      (isAnalyzingSpecialized f) (specializedAnalysisError f).

Definition set_summaryError (v : option string) (f : UploadedFile)
  : UploadedFile :=
  mkUploadedFile (file f) (id f) (type f) (preview f) (extractedText f)
      (isExtracting f) (extractionError f) (generatedSummary f)
      (isSummarizing f) v (imageAnalysis f) (isAnalyzingImage f)
      (imageAnalysisError f) (documentStructure f) (isAnalyzingStructure f)
      (structureAnalysisError f) (documentQuality f) (isAnalyzingQuality f)
      (qualityAnalysisError f) (specializedAnalysis f)
      (isAnalyzingSpecialized f) (specializedAnalysisError f).

Definition set_documentQuality (v : option DocumentQualityMetrics)
    (f : UploadedFile)
  : UploadedFile :=
  mkUploadedFile (file f) (id f) (type f) (preview f) (extractedText f)
      (isExtracting f) (extractionError f) (generatedSummary f)
      (isSummarizing f) (summaryError f) (imageAnalysis f)
      (isAnalyzingImage f) (imageAnalysisError f) (documentStructure f)
      (isAnalyzingStructure f) (structureAnalysisError f) v
      (isAnalyzingQuality f) (qualityAnalysisError f)
      (specializedAnalysis f) (isAnalyzingSpecialized f)
      (specializedAnalysisError f).

Definition set_isAnalyzingQuality (v : option bool) (f : UploadedFile)
  : UploadedFile :=
  mkUploadedFile (file f) (id f) (type f) (preview f) (extractedText f)
      (isExtracting f) (extractionError f) (generatedSummary f)
      (isSummarizing f) (summaryError f) (imageAnalysis f)
      (isAnalyzingImage f) (imageAnalysisError f) (documentStructure f)
      (isAnalyzingStructure f) (structureAnalysisError f)
      (documentQuality f) v (qualityAnalysisError f) (specializedAnalysis f)
      (isAnalyzingSpecialized f) (specializedAnalysisError f).

Definition set_qualityAnalysisError (v : option string) (f : UploadedFile)
  : UploadedFile :=
  mkUploadedFile (file f) (id f) (type f) (preview f) (extractedText f)
      (isExtracting f) (extractionError f) (generatedSummary f)
      (isSummarizing f) (summaryError f) (imageAnalysis f)
      (isAnalyzingImage f) (imageAnalysisError f) (documentStructure f)
      (isAnalyzingStructure f) (structureAnalysisError f)
      (documentQuality f) (isAnalyzingQuality f) v (specializedAnalysis f)
      (isAnalyzingSpecialized f) (specializedAnalysisError f).

Definition set_specializedAnalysis (v : option SpecializedDocumentAnalysis)
    (f : UploadedFile)
  : UploadedFile :=
  mkUploadedFile (file f) (id f) (type f) (preview f) (extractedText f)
      (isExtracting f) (extractionError f) (generatedSummary f)
      (isSummarizing f) (summaryError f) (imageAnalysis f)
      (isAnalyzingImage f) (imageAnalysisError f) (documentStructure f)
      (isAnalyzingStructure f) (structureAnalysisError f)
      (documentQuality f) (isAnalyzingQuality f) (qualityAnalysisError f) v
      (isAnalyzingSpecialized f) (specializedAnalysisError f).

Definition set_isAnalyzingSpecialized (v : option bool) (f : UploadedFile)
  : UploadedFile :=
  mkUploadedFile (file f) (id f) (type f) (preview f) (extractedText f)
      (isExtracting f) (extractionError f) (generatedSummary f)
      (isSummarizing f) (summaryError f) (imageAnalysis f)
      (isAnalyzingImage f) (imageAnalysisError f) (documentStructure f)
      (isAnalyzingStructure f) (structureAnalysisError f)
      (documentQuality f) (isAnalyzingQuality f) (qualityAnalysisError f)
      (specializedAnalysis f) v (specializedAnalysisError f).

Definition set_specializedAnalysisError (v : option string) (f : UploadedFile)
  : UploadedFile :=
  mkUploadedFile (file f) (id f) (type f) (preview f) (extractedText f)
      (isExtracting f) (extractionError f) (generatedSummary f)
      (isSummarizing f) (summaryError f) (imageAnalysis f)
      (isAnalyzingImage f) (imageAnalysisError f) (documentStructure f)
      (isAnalyzingStructure f) (structureAnalysisError f)
      (documentQuality f) (isAnalyzingQuality f) (qualityAnalysisError f)
      (specializedAnalysis f) (isAnalyzingSpecialized f) v.

(** [for (const uploadedFile of files) { ... }], where the pass for the
    file at position [k] turns the state [prev] into [step k uploadedFile
    prev]. *)
Fixpoint forEachFile
    (step : nat -> UploadedFile -> list UploadedFile -> list UploadedFile)
    (files : list UploadedFile) (k : nat) (prev : list UploadedFile)
  : list UploadedFile :=
  match files with
  | [] => prev
  | uploadedFile :: rest =>
      forEachFile step rest (S k) (step k uploadedFile prev)
  end.

(** [analyzeImages], lines 269-315; [fetched k] is what the [fetch] of the
    client did for the file at position [k] of [imagesToAnalyze]. *)
Definition analyzeImages (uploadedFiles : list UploadedFile)
    (fetched : nat -> Outcome RouteResponse) (prev : list UploadedFile)
  : list UploadedFile :=
  forEachFile (fun k uploadedFile => analyzeImageOne uploadedFile (fetched k))
    (filter needsImageAnalysis uploadedFiles) 0 prev.

(** [analyzeDocumentStructures], lines 317-369; [answers k] is how the
    call of [analyzeDocumentStructure] ended for the file at position
    [k]. *)
Definition analyzeDocumentStructures (uploadedFiles : list UploadedFile)
    (answers : nat -> Outcome DocumentStructureAnalysis)
    (prev : list UploadedFile) : list UploadedFile :=
  forEachFile
    (fun k uploadedFile st =>
       if negb (present (extractedText uploadedFile)) then st
       else analyzeStructureOne uploadedFile (answers k) st)
    (filter needsStructure uploadedFiles) 0 prev.

(** One pass of the loop of [analyzeDocumentQualities], lines 378-420. *)
Definition analyzeQualityOne (uploadedFile : UploadedFile)
    (answer : Outcome DocumentQualityMetrics) (prev : list UploadedFile)
  : list UploadedFile :=
  let marked :=
    updateFile uploadedFile (set_isAnalyzingQuality (Some true)) prev in
  match answer with
  | Returned quality =>
      updateFile uploadedFile
        (fun f => set_isAnalyzingQuality (Some false)
                    (set_documentQuality (Some quality) f))
        marked
  | Threw error =>
      updateFile uploadedFile
        (fun f => set_isAnalyzingQuality (Some false)
                    (set_qualityAnalysisError (Some (shownMessage error)) f))
        marked
  end.

(** [analyzeDocumentQualities], lines 371-423. *)
Definition analyzeDocumentQualities (uploadedFiles : list UploadedFile)
    (answers : nat -> Outcome DocumentQualityMetrics)
    (prev : list UploadedFile) : list UploadedFile :=
  forEachFile
    (fun k uploadedFile st =>
       if negb (present (extractedText uploadedFile)) then st
       else analyzeQualityOne uploadedFile (answers k) st)
    (filter needsQuality uploadedFiles) 0 prev.

(** One pass of the loop of [performSpecializedAnalyses], lines 437-485;
    [answer] is how the call of [performSpecializedAnalysis] ended. *)
Definition specializedOne (uploadedFile : UploadedFile)
    (answer : Outcome SpecializedDocumentAnalysis)
    (prev : list UploadedFile) : list UploadedFile :=
  let marked :=
    updateFile uploadedFile (set_isAnalyzingSpecialized (Some true)) prev in
  match answer with
  | Returned analysis =>
      updateFile uploadedFile
        (fun f => set_isAnalyzingSpecialized (Some false)
                    (set_specializedAnalysis (Some analysis) f))
        marked
  | Threw error =>
      updateFile uploadedFile
        (fun f => set_isAnalyzingSpecialized (Some false)
                    (set_specializedAnalysisError
                       (Some (shownMessage error)) f))
        marked
  end.

(** [performSpecializedAnalyses], lines 425-488. *)
Definition performSpecializedAnalyses (uploadedFiles : list UploadedFile)
    (answers : nat -> Outcome SpecializedDocumentAnalysis)
    (prev : list UploadedFile) : list UploadedFile :=
  forEachFile
    (fun k uploadedFile st =>
       if negb (present (extractedText uploadedFile))
          || negb (present (documentStructure uploadedFile)) then st
       else specializedOne uploadedFile (answers k) st)
    (filter needsSpecialized uploadedFiles) 0 prev.

(** One pass of the loop of [generateSummaries], lines 226-264, for a file
    with the extracted text [extracted]. *)
Definition summarizeOne (uploadedFile : UploadedFile)
    (extracted : ExtractedText) (len : SummaryLength)
    (answers : nat -> FetchResult SummaryPayload) (prev : list UploadedFile)
  : list UploadedFile :=
  let marked :=
    updateFile uploadedFile (set_isSummarizing (Some true)) prev in
  match outcome (generateSummary (text extracted)
                   (file_name (file uploadedFile)) len answers) with
  | Returned generated =>
      updateFile uploadedFile
        (fun f => set_isSummarizing (Some false)
                    (set_generatedSummary (Some generated) f))
        marked
  | Threw error =>
      updateFile uploadedFile
        (fun f => set_isSummarizing (Some false)
                    (set_summaryError (Some (shownMessage error)) f))
        marked
  end.

(** [generateSummaries], lines 221-267, with the length setting of the
    page. *)
Definition generateSummaries (uploadedFiles : list UploadedFile)
    (len : SummaryLength)
    (answers : nat -> nat -> FetchResult SummaryPayload)
    (prev : list UploadedFile) : list UploadedFile :=
  forEachFile
    (fun k uploadedFile st =>
       match extractedText uploadedFile with
       | None => st
       | Some extracted => summarizeOne uploadedFile extracted len (answers k) st
       end)
    (filter needsSummary uploadedFiles) 0 prev.

(** What the remote services do during one comprehensive run. *)
Record Services := mkServices {
  extraction : nat -> nat -> FetchResult ExtractPayload;
  imageFetches : nat -> Outcome RouteResponse;
  structureAnswers : nat -> Outcome DocumentStructureAnalysis;
  qualityAnswers : nat -> Outcome DocumentQualityMetrics;
  specializedAnswers : nat -> Outcome SpecializedDocumentAnalysis;
  summaryAnswers : nat -> nat -> FetchResult SummaryPayload
}.

(** [runComprehensiveAnalysis], lines 490-537.  The six callbacks it
    awaits were created by the rendering that created it, so all six
    filter the same array [uploadedFiles], the one of that rendering,
    while their updates apply to the current state.  None of the six
    throws, so the [catch] block is never entered. *)
Definition runComprehensiveAnalysis (uploadedFiles : list UploadedFile)
    (len : SummaryLength) (services : Services) (prev : list UploadedFile)
  : list UploadedFile :=
  let step1 := extractTextFromFiles uploadedFiles (extraction services) prev in
  let step2 := analyzeImages uploadedFiles (imageFetches services) step1 in
  let step3 :=
    analyzeDocumentStructures uploadedFiles (structureAnswers services)
      step2 in
  let step4 :=
    analyzeDocumentQualities uploadedFiles (qualityAnswers services) step3 in
  let step5 :=
    performSpecializedAnalyses uploadedFiles (specializedAnswers services)
      step4 in
  generateSummaries uploadedFiles len (summaryAnswers services) step5.

(** [removeFile], lines 173-175. *)
Definition removeFile (i : string) (prev : list UploadedFile)
  : list UploadedFile :=
  filter (fun f => negb (String.eqb (id f) i)) prev.

(** The branch [processFiles] takes for a file, lines 93-138: the kind it
    is added with, or [None] when it is refused with a toast. *)
Definition uploadKind (f : File) : option FileKind :=
  let fileType := file_type f in
  let fileName := Js.toLowerCase (file_name f) in
  if String.eqb fileType "application/pdf" || Js.endsWith fileName ".pdf"
  then Some pdf
  else if Js.startsWith fileType "image/"
          || Js.endsWith fileName ".jpg" || Js.endsWith fileName ".jpeg"
          || Js.endsWith fileName ".png" || Js.endsWith fileName ".gif"
          || Js.endsWith fileName ".bmp"
  then Some image
  else None.

(* ===================================================================== *)
(** * The summary route ([app/api/generate-summary/route.ts]) *)
(* ===================================================================== *)

(** The body of the request, as far as the handler reads it.  [text] may
    be missing; a missing length setting is ["medium"]. *)
Record SummaryRequest := mkSummaryRequest {
  request_text : option string;
  request_summaryLength : option SummaryLength;
  request_fileName : string
}.

(** What the route answers: [{ error }] with status 400, [{ error,
    success: false }] with status 500, or the summary with status 200,
    in which the compression ratio travels beside the fields the client
    reads. *)
Inductive SummaryAnswer :=
| SummaryRefused (error : string)
| SummaryFailed (error : string)
| SummaryDone (payload : SummaryPayload) (compressionRatio : number).

(** [s.split(/\s+/).filter((word) => word.length > 0)] *)
Definition wordsOf (s : string) : list string :=
  filter (fun word => (0 <? String.length word)%nat) (Js.splitSpaces s).

(** The [catch] block of the route, lines 101-123. *)
Definition summaryFailure (error : Thrown) : SummaryAnswer :=
  SummaryFailed
    match error with
    | ThrownError e =>
        if Js.includes (err_message e) "rate limit" then
          "Rate limit exceeded. Please wait a moment and try again."
        else if Js.includes (err_message e) "timeout" then
          "Request timed out. Please try with a shorter document."
        else if Js.includes (err_message e) "too short" then err_message e
        else "Failed to generate summary. Please try again."
    | ThrownOther _ => "Failed to generate summary. Please try again."
    end.

(** The handler [POST] of the summary route, lines 5-124.
      - [request]: what [request.json()] gives;
      - [summaryText], [keyPointsText]: how the two calls of
        [generateText] end (the second is only made when the first
        returns).
    The truncation of line 22 is assigned to a constant that is not used
    afterwards, and the prompts only go to the model: neither shows in
    the answer. *)
Definition summaryPOST (R : Rounding) (request : Outcome SummaryRequest)
    (summaryText keyPointsText : Outcome string) : SummaryAnswer :=
  match request with
  | Threw error => summaryFailure error
  | Returned req =>
      match request_text req with
      | None => SummaryRefused "No text provided for summarization"
      | Some text =>
          if negb (Js.truthy text)
             || (String.length (Js.trim text) =? 0)%nat then
            SummaryRefused "No text provided for summarization"
          else
            let cleanText := Js.trim text in
            let wordCount := Z.of_nat (List.length (wordsOf cleanText)) in
            if (wordCount <? 10)%Z then
              SummaryRefused "Text is too short to summarize effectively"
            else
              match summaryText with
              | Threw error => summaryFailure error
              | Returned generated =>
                  match keyPointsText with
                  | Threw error => summaryFailure error
                  | Returned points =>
                      let finalSummary := Js.trim generated in
                      let finalKeyPoints := Js.trim points in
                      if negb (Js.truthy finalSummary)
                         || (String.length finalSummary <? 20)%nat then
                        summaryFailure
                          (ThrownError (newError
                             "Generated summary is too short or empty"))
                      else
                        let summaryWordCount :=
                          Z.of_nat (List.length (wordsOf finalSummary)) in
                        SummaryDone
                          (mkSummaryPayload (Some finalSummary)
                             (Some finalKeyPoints)
                             match request_summaryLength req with
                             | Some len => len
                             | None => medium
                             end
                             (request_fileName req)
                             summaryWordCount wordCount)
                          (Number.round
                             (Number.mul R
                                (Number.sub R (Fin 1)
                                   (Number.div R
                                      (Fin (inject_Z summaryWordCount))
                                      (Fin (inject_Z wordCount))))
                                (Fin 100)))
                  end
              end
      end
  end.

(** The payload fields of a body that has none. *)
Definition absentSummary : SummaryPayload :=
  mkSummaryPayload None None medium "" 0 0.

(** The answer of the route as the [fetch] of the client receives it. *)
Definition summaryFetched (answer : SummaryAnswer)
  : FetchResult SummaryPayload :=
  match answer with
  | SummaryRefused e =>
      Responded false 400 (JsonValue (mkBody (Some e) false absentSummary))
  | SummaryFailed e =>
      Responded false 500 (JsonValue (mkBody (Some e) false absentSummary))
  | SummaryDone payload _ =>
      Responded true 200 (JsonValue (mkBody None true payload))
  end.

(* ===================================================================== *)
(** * The extraction route (part_001) *)
(* ===================================================================== *)

(** What [worker.recognize] gives. *)
Record Recognized := mkRecognized {
  recognized_text : string;
  recognized_confidence : number
}.

(** What the route answers: [{ error }] with a status, or the text with
    its counts and [success: true]. *)
Inductive ExtractAnswer :=
| ExtractRefused (status : nat) (error : string)
| ExtractDone (payload : ExtractPayload).

(** [s.replace(/\s/g, "")] *)
Fixpoint removeSpaces (s : string) : string :=
  match s with
  | EmptyString => EmptyString
  | String c s' =>
      if Js.isSpace c then removeSpaces s' else String c (removeSpaces s')
  end.

(** The line feed. *)
Definition lineFeed : string := String (ascii_of_nat 10) EmptyString.

(** The handler [POST] of the extraction route, lines 14-103.
      - [render]: how a template literal prints a rounded number;
      - [formData]: what [request.formData()] gives, and in it the
        entries ["file"] and ["type"];
      - [parsed]: how reading and parsing the PDF ends, with the text of
        the document;
      - [recognized]: how the steps of the OCR end. *)
Definition extractPOST (render : number -> string)
    (formData : Outcome (option File * string))
    (parsed : Outcome string) (recognized : Outcome Recognized)
  : ExtractAnswer :=
  let done (extractedText : string) :=
    ExtractDone
      (mkExtractPayload extractedText
         (Z.of_nat (List.length (wordsOf extractedText)))
         (Z.of_nat (String.length extractedText))) in
  match formData with
  | Threw _ =>
      ExtractRefused 500
        "An unexpected error occurred during text extraction. Please try again."
  | Returned (None, _) => ExtractRefused 400 "No file provided"
  | Returned (Some _, fileType) =>
      if String.eqb fileType "pdf" then
        match parsed with
        | Returned pdfText =>
            if Js.truthy (Js.trim pdfText) then done (Js.trim pdfText)
            else done "No readable text found in this PDF document."
        | Threw _ =>
            done
              "Failed to parse PDF. The document may be image-based or corrupted."
        end
      else if String.eqb fileType "image" then
        match recognized with
        | Threw _ =>
            ExtractRefused 500
              "Failed to extract text from image. Please ensure the image contains clear, readable text."
        | Returned r =>
            let trimmed := Js.trim (recognized_text r) in
            let noted :=
              if Number.ltb (recognized_confidence r) (Fin 30) then
                trimmed ++ lineFeed ++ lineFeed
                ++ "[Note: Low confidence OCR result ("
                ++ render (Number.round (recognized_confidence r))
                ++ "%). Text may be inaccurate.]"
              else trimmed in
            if negb (Js.truthy (removeSpaces noted)) then
              done "No readable text found in this image."
            else done noted
        end
      else done ""
  end.

(** The answer of the route as the [fetch] of the client receives it. *)
Definition extractFetched (answer : ExtractAnswer)
  : FetchResult ExtractPayload :=
  match answer with
  | ExtractRefused st e =>
      Responded (isOk st) st
        (JsonValue (mkBody (Some e) false (mkExtractPayload "" 0 0)))
  | ExtractDone payload =>
      Responded true 200 (JsonValue (mkBody None true payload))
  end.

(* ===================================================================== *)
(** * [preprocessTextForSummary] ([text-extraction.ts]) *)
(* ===================================================================== *)

(** [s.replace(re, " ")] for a global pattern that matches the maximal
    runs of the code units [inClass] holds of; [inRun] tells that the
    previous code unit was one. *)
Fixpoint replaceRuns (inClass : ascii -> bool) (inRun : bool) (s : string)
  : string :=
  match s with
  | EmptyString => EmptyString
  | String c s' =>
      if inClass c then
        if inRun then replaceRuns inClass true s'
        else String " "%char (replaceRuns inClass true s')
      else String c (replaceRuns inClass false s')
  end.

Definition isLineFeed (c : ascii) : bool := (nat_of_ascii c =? 10)%nat.

(** The class [[\w\s.,!?;:()-]]. *)
Definition isKept (c : ascii) : bool :=
  Js.isWordChar c || Js.isSpace c
  || existsb (Ascii.eqb c) (list_ascii_of_string ".,!?;:()-").

(** [s.replace(/[^\w\s.,!?;:()-]/g, "")] *)
Fixpoint removeSpecial (s : string) : string :=
  match s with
  | EmptyString => EmptyString
  | String c s' =>
      if isKept c then String c (removeSpecial s') else removeSpecial s'
  end.

(** [preprocessTextForSummary], lines 107-122.  The methods called in the
    [try] block do not throw on a string, so the [catch] block is never
    entered. *)
Definition preprocessTextForSummary (text : string) : Outcome string :=
  if negb (Js.truthy text) then
    Threw (ThrownError (newError "Invalid text input for preprocessing"))
  else
    Returned
      (Js.trim
         (removeSpecial
            (replaceRuns isLineFeed false
               (replaceRuns Js.isSpace false text)))).

(* ===================================================================== *)
(** * The insights on an image analysis ([getAnalysisInsights]) *)
(* ===================================================================== *)

(** [Array.prototype.sort] with a comparison function: a stable sort, as
    the language requires.  [x] goes before the first element it does not
    come after. *)
Fixpoint insertBy {A} (compare : A -> A -> Z) (x : A) (l : list A) : list A :=
  match l with
  | [] => [x]
  | y :: rest =>
      if (0 <? compare x y)%Z then y :: insertBy compare x rest
      else x :: l
  end.

Definition sortBy {A} (compare : A -> A -> Z) (l : list A) : list A :=
  fold_right (insertBy compare) [] l.

(** [Array.prototype.join] on strings. *)
Fixpoint join (separator : string) (l : list string) : string :=
  match l with
  | [] => ""
  | [x] => x
  | x :: rest => x ++ separator ++ join separator rest
  end.

(** The labels named by the first insight:
    [objects.sort((a, b) => b.confidence - a.confidence).slice(0, 3)]. *)
Definition topObjects (objs : list DetectedObject) : list DetectedObject :=
  firstn 3 (sortBy (fun a b => (confidence b - confidence a)%Z) objs).

(** [getAnalysisInsights], the returned array.  The sort is done in place
    on the array of the analysis; the order it leaves there is not part of
    this model. *)
Definition getAnalysisInsights (analysis : ImageAnalysisResult) : list string :=
  let detection := objectDetection analysis in
  let text := extractedText_of_image (textAnalysis analysis) in
  let colors := dominantColors (visualFeatures analysis) in
  let onObjects :=
    if (0 <? totalObjects detection)%nat then
      ["Detected " ++ Js.ofNat (totalObjects detection) ++ " objects: "
       ++ join ", " (map label (topObjects (objects detection)))]
    else [] in
  let onText :=
    if (0 <? String.length text)%nat then
      ["Contains " ++ Js.ofNat (List.length (Js.splitSpaces text))
       ++ " words of readable text"]
    else [] in
  let onColors :=
    if (0 <? List.length colors)%nat then
      ["Dominant colors: " ++ join ", " (firstn 3 colors)]
    else [] in
  let onKind :=
    if isPhoto (visualFeatures analysis) then
      ["Appears to be a photograph"]
    else if isDrawing (visualFeatures analysis) then
      ["Appears to be a drawing or illustration"]
    else [] in
  (onObjects ++ onText ++ onColors ++ onKind)%list.

(** ** Inputs used in the examples *)

Definition reportPdf : File := mkFile "report.pdf" "application/pdf" 2048.

Definition scanWebp : File := mkFile "scan.webp" "image/webp" 1024.

Definition photoPng : File := mkFile "photo.png" "image/png" 4096.

Definition twoWords : ExtractPayload := mkExtractPayload "hello world" 2 11.

(** A response that carries the extracted text. *)
Definition extracted : FetchResult ExtractPayload :=
  Responded true 200 (JsonValue (mkBody None true twoWords)).

(** A response with an error status and the given message. *)
Definition refused (st : nat) (msg : string) : FetchResult ExtractPayload :=
  Responded false st (JsonValue (mkBody (Some msg) false twoWords)).

(** A [fetch] cut off by the timer. *)
Definition timedOut {P} : FetchResult P := Rejected (ThrownError abortError).

(** The first attempt times out; the server would answer the next ones. *)
Definition timeoutThenText (attempt : nat) : FetchResult ExtractPayload :=
  match attempt with
  | 1 => timedOut
  | _ => extracted
  end.

(** A rate limit on the first attempt, another failure on the second, the
    text on the third. *)
Definition rateLimitThenFailure (attempt : nat)
  : FetchResult ExtractPayload :=
  match attempt with
  | 1 => refused 429 "rate limit exceeded"
  | 2 => refused 500 "Internal error"
  | _ => extracted
  end.

(** A failure, then a rate limit, then a failure again. *)
Definition rateLimitBetweenFailures (attempt : nat)
  : FetchResult ExtractPayload :=
  match attempt with
  | 2 => refused 429 "rate limit exceeded"
  | _ => refused 500 "Internal error"
  end.

(** Two failures, then the text. *)
Definition failsTwice (attempt : nat) : FetchResult ExtractPayload :=
  match attempt with
  | 1 | 2 => refused 500 "Internal error"
  | _ => extracted
  end.

(** The server itself refuses the file on the second attempt. *)
Definition refusedAsInvalid (attempt : nat) : FetchResult ExtractPayload :=
  match attempt with
  | 1 => refused 500 "Internal error"
  | _ => refused 400 "Invalid file contents"
  end.

Definition noSummary (attempt : nat) : FetchResult SummaryPayload :=
  Rejected (ThrownOther None).

Definition pendingReport : UploadedFile :=
  newUpload reportPdf "k3x9q2m1z" pdf None.

(** The pending report once its text is extracted and its structure is
    analysed as the given document type. *)
Definition analysedReport (documentType : string) : UploadedFile :=
  set_documentStructure
    (Some (mkDocumentStructureAnalysis documentType 90))
    (set_extractedText
       (Some (mkExtractedText "hello world" 2 11 "report.pdf" pdf))
       pendingReport).


(** The inference API answers 503 to the captioning call. *)
Definition captionUnavailable : Upstream (option string) :=
  UpstreamResponds false 503 "Service Unavailable"
    (JsonFails (mkError "SyntaxError" "Unexpected token"))%string.

Definition noObjects : Upstream (list DetectedObject) :=
  UpstreamRejects (ThrownError (mkError "TypeError" "fetch failed")).

(** Services that always answer. *)
Definition allAnswer : Services :=
  mkServices (fun _ _ => extracted)
    (fun _ => Threw (ThrownOther None))
    (fun _ => Returned (mkDocumentStructureAnalysis "invoice" 90))
    (fun _ => Returned (mkDocumentQualityMetrics "good"))
    (fun _ => Returned InvoiceAnalysis)
    (fun _ _ => Rejected (ThrownOther None)).

(** A file has none of the results that need an extracted text. *)
Definition noLaterResults (f : UploadedFile) : Prop :=
  generatedSummary f = None /\ documentStructure f = None
  /\ documentQuality f = None /\ specializedAnalysis f = None.

(** [f'] is [f] with other values in the three fields of the extraction
    stage, and nothing else changed. *)
Definition sameButExtraction (f f' : UploadedFile) : Prop :=
  f' = set_isExtracting (isExtracting f')
         (set_extractionError (extractionError f')
            (set_extractedText (extractedText f') f)).

(** The code units of a string. *)
Definition chars (s : string) : list ascii := list_ascii_of_string s.

(** A capital letter of Basic Latin. *)
Definition isCapital (c : ascii) : bool :=
  let n := nat_of_ascii c in ((65 <=? n) && (n <=? 90))%nat.

(** A tag is made of small letters, digits and underscores, is longer
    than two code units and is not one of the common words. *)
Definition wellFormedTag (tag : string) : Prop :=
  2 < String.length tag
  /\ ~ In tag commonWords
  /\ Forall (fun c => Js.isWordChar c = true /\ isCapital c = false)
            (chars tag).

(** The request carries no file the image route accepts: no file at all,
    a type that does not start with [image/], or more than 10 MB. *)
Definition refusedImage (file : option File) : bool :=
  match file with
  | None => true
  | Some f =>
      negb (Js.startsWith (file_type f) "image/")
      || (MAX_IMAGE_SIZE <? file_size f)%N
  end.

(** A string has a code unit that is not white space. *)
Definition hasWord (s : string) : Prop :=
  exists c, In c (chars s) /\ Js.isSpace c = false.

(** A text of ten words and the request the client sends for it. *)
Definition tenWords : string :=
  "one two three four five six seven eight nine ten".

Definition tenWordsRequest : SummaryRequest :=
  mkSummaryRequest (Some tenWords) (Some medium) "notes.pdf".

(** The OCR of the route fails on every attempt. *)
Definition ocrFails : Outcome Recognized := Threw (ThrownOther None).

(** The records of the page under the id of a file of [uploadedFiles]
    that has an extracted text have one too: the page is the array
    [uploadedFiles], or a later state of it. *)
Definition textsKept (uploadedFiles : list UploadedFile) (f : UploadedFile)
  : Prop :=
  (exists g, In g uploadedFiles /\ id g = id f
             /\ present (extractedText g) = true) ->
  present (extractedText f) = true.

(** Four objects as the detection model lists them. *)
Definition fourObjects : list DetectedObject :=
  [mkDetectedObject "leash" 61; mkDetectedObject "dog" 98;
   mkDetectedObject "bench" 74; mkDetectedObject "person" 98].

(** The server refuses the first attempt; the body of its second response
    never arrives. *)
Definition stallsOnSecond (attempt : nat)
  : Awaited (FetchResult ExtractPayload) :=
  match attempt with
  | 1 => Settles (refused 500 "Internal error")
  | _ => NeverSettles
  end.

(** ** Predicates used to state the properties *)

(** Attempt [j] fails and the [catch] block goes on to the count test. *)
Definition continuesAt {A} (P : Policy) (body : nat -> Outcome A) (j : nat)
  : bool :=
  match body j with
  | Returned _ => false
  | Threw t =>
      match onCatch P j t with
      | Continue _ => true
      | Rethrow _ => false
      end
  end.

(** Attempts 1 to [k - 1] all fail and are retried. *)
Definition retriedBefore {A} (P : Policy) (body : nat -> Outcome A) (k : nat)
  : bool :=
  forallb (continuesAt P body) (seq 1 (k - 1)).

(** Attempt [k] is cut off by the timer: its [fetch] rejects with an
    ["AbortError"]. *)
Definition abortedAt {A} (body : nat -> Outcome A) (k : nat) : bool :=
  match body k with
  | Threw (ThrownError e) => String.eqb (err_name e) "AbortError"
  | _ => false
  end.

(** Attempt [k] fails with an error the [catch] block takes for a
    validation error. *)
Definition validationAt {A} (P : Policy) (body : nat -> Outcome A) (k : nat)
  : bool :=
  match body k with
  | Threw (ThrownError e) =>
      negb (String.eqb (err_name e) "AbortError")
      && isValidationMessage P (err_message e)
  | _ => false
  end.

(** Attempt [j] fails with a rate limit: the [catch] block inserts the
    longer wait. *)
Definition rateLimitedAt {A} (P : Policy) (body : nat -> Outcome A) (j : nat)
  : bool :=
  match body j with
  | Threw t =>
      match onCatch P j t with
      | Continue (_ :: _) => true
      | _ => false
      end
  | Returned _ => false
  end.

(** Attempt [j] fails in another retried way: no wait but the backoff. *)
Definition transientAt {A} (P : Policy) (body : nat -> Outcome A) (j : nat)
  : bool :=
  match body j with
  | Threw t =>
      match onCatch P j t with
      | Continue [] => true
      | _ => false
      end
  | Returned _ => false
  end.

(** The wait attempt [j] leaves before the next attempt: the backoff, and
    before it the rate-limit wait when the failure was a rate limit. *)
Definition waitAfter {A} (P : Policy) (body : nat -> Outcome A) (j : nat)
  : Z :=
  ((if rateLimitedAt P body j
    then 2 ^ Z.of_nat j * rateLimitUnit P else 0) + backoff j)%Z.

(** A list of waits never goes down. *)
Fixpoint nondecreasing (l : list Z) : bool :=
  match l with
  | a :: (b :: _) as rest => (a <=? b)%Z && nondecreasing rest
  | _ => true
  end.

(** A failure of a call is one of the three the code produces: the error
    of a check before the loop, the timeout error, an error taken for a
    validation error, or the error thrown once the attempts are used up. *)
Definition classified (P : Policy) (rejected : option JsError) (t : Thrown)
  : Prop :=
  exists e, t = ThrownError e /\
    (rejected = Some e
     \/ e = newError (timeoutMessage P)
     \/ isValidationMessage P (err_message e) = true
     \/ exists last, t = exhausted P last).

(** A finished call made at most [maxRetries] remote calls, and either
    returned a value or failed with a classified error. *)
Definition settled {A} (P : Policy) (rejected : option JsError) (r : Run A)
  : Prop :=
  (remoteCalls (events r) <= maxRetries P)%nat /\
  ((exists a, outcome r = Returned a) \/
   (exists t, outcome r = Threw t /\ classified P rejected t)).

(** The call fails at attempt [k] with the validation error [e]: a check
    before the loop fails ([k] is 0), or the attempts before [k] are
    retried and attempt [k] fails with [e], taken for a validation error. *)
Definition failsValidationAt {A} (P : Policy) (rejected : option JsError)
    (body : nat -> Outcome A) (k : nat) (e : JsError) : Prop :=
  (rejected = Some e /\ k = 0%nat) \/
  (rejected = None /\ (1 <= k <= maxRetries P)%nat /\
   retriedBefore P body k = true /\
   body k = Threw (ThrownError e) /\ validationAt P body k = true).

(** A call ended as [settled] says, or it made at most [maxRetries]
    remote calls and is left waiting for the body of the response to the
    last of them, which never arrives. *)
Definition endsUnlessStalled {A R} (P : Policy) (rejected : option JsError)
    (responses : nat -> Awaited R) (c : Call A) : Prop :=
  match c with
  | Ended run => settled P rejected run
  | Pending done =>
      (remoteCalls done <= maxRetries P)%nat
      /\ exists k pre,
           (1 <= k <= maxRetries P)%nat
           /\ responses k = NeverSettles
           /\ done = (pre ++ [Fetch k])%list
  end.

(** A structure analysis is only ever stored for a file whose text was
    extracted. *)
Definition structureAfterText (f : UploadedFile) : Prop :=
  present (documentStructure f) = true -> present (extractedText f) = true.

(* ===================================================================== *)
(** * Properties of the retry loop *)
(* ===================================================================== *)

Local Open Scope list_scope.
Unset Implicit Arguments.

Section RetryLoop.

Context {A : Type}.
Variable P : Policy.
Variable body : nat -> Outcome A.

Lemma remoteCalls_app (l1 l2 : list Event) :
  remoteCalls (l1 ++ l2) = remoteCalls l1 + remoteCalls l2.
Proof.
  induction l1 as [|[a|ms] l1 IH]; simpl; auto.
Qed.

(** The waits the [catch] block inserts are at most one sleep. *)
Lemma onCatch_waits attempt t waits :
  onCatch P attempt t = Continue waits ->
  waits = [] \/
  waits = [Sleep (2 ^ Z.of_nat attempt * rateLimitUnit P)].
Proof.
  unfold onCatch. destruct t as [e|]; [|intros [= <-]; auto].
  destruct (String.eqb (err_name e) "AbortError"); [discriminate|].
  destruct (isValidationMessage P (err_message e)); [discriminate|].
  destruct (Js.includes (err_message e) "rate limit");
    intros [= <-]; auto.
Qed.

Lemma onCatch_no_call attempt t waits :
  onCatch P attempt t = Continue waits -> remoteCalls waits = 0.
Proof.
  intros H. destruct (onCatch_waits _ _ _ H) as [-> | ->]; reflexivity.
Qed.

(** One pass of the loop, case by case. *)
Lemma retryLoop_past fuel attempt lastError :
  maxRetries P < attempt ->
  retryLoop P body fuel attempt lastError
  = mkRun [] (Threw (exhausted P lastError)).
Proof.
  intros H. destruct fuel; simpl; auto.
  destruct (Nat.leb_spec attempt (maxRetries P)); [lia | reflexivity].
Qed.

Lemma retryLoop_returned fuel attempt lastError a :
  attempt <= maxRetries P -> body attempt = Returned a ->
  retryLoop P body (S fuel) attempt lastError
  = mkRun [Fetch attempt] (Returned a).
Proof.
  intros Hle Hb. simpl.
  destruct (Nat.leb_spec attempt (maxRetries P)); [|lia].
  rewrite Hb. reflexivity.
Qed.

Lemma retryLoop_rethrow fuel attempt lastError t t' :
  attempt <= maxRetries P -> body attempt = Threw t ->
  onCatch P attempt t = Rethrow t' ->
  retryLoop P body (S fuel) attempt lastError
  = mkRun [Fetch attempt] (Threw t').
Proof.
  intros Hle Hb Hc. simpl.
  destruct (Nat.leb_spec attempt (maxRetries P)); [|lia].
  rewrite Hb, Hc. reflexivity.
Qed.

Lemma retryLoop_last fuel lastError t waits :
  body (maxRetries P) = Threw t ->
  onCatch P (maxRetries P) t = Continue waits ->
  retryLoop P body (S fuel) (maxRetries P) lastError
  = mkRun (Fetch (maxRetries P) :: waits)
          (Threw (exhausted P (Some t))).
Proof.
  intros Hb Hc. simpl. rewrite Nat.leb_refl, Hb, Hc, Nat.eqb_refl.
  reflexivity.
Qed.

Lemma retryLoop_continue fuel attempt lastError t waits :
  attempt < maxRetries P -> body attempt = Threw t ->
  onCatch P attempt t = Continue waits ->
  retryLoop P body (S fuel) attempt lastError
  = let rest := retryLoop P body fuel (S attempt) (Some t) in
    mkRun (Fetch attempt :: waits ++ Sleep (backoff attempt) :: events rest)
          (outcome rest).
Proof.
  intros Hlt Hb Hc. simpl.
  destruct (Nat.leb_spec attempt (maxRetries P)); [|lia].
  rewrite Hb, Hc.
  destruct (Nat.eqb_spec attempt (maxRetries P)); [lia | reflexivity].
Qed.

(** The fuel is never what ends the loop: any amount that covers the
    attempts left gives the same run. *)
Lemma retryLoop_fuel fuel1 fuel2 attempt lastError :
  S (maxRetries P) - attempt <= fuel1 ->
  S (maxRetries P) - attempt <= fuel2 ->
  retryLoop P body fuel1 attempt lastError
  = retryLoop P body fuel2 attempt lastError.
Proof.
  revert fuel2 attempt lastError.
  induction fuel1 as [|fuel1 IH]; intros fuel2 attempt lastError H1 H2.
  - rewrite !retryLoop_past by lia. reflexivity.
  - destruct fuel2 as [|fuel2].
    { rewrite !retryLoop_past by lia. reflexivity. }
    simpl. destruct (Nat.leb_spec attempt (maxRetries P)); [|reflexivity].
    destruct (body attempt) as [a|t]; [reflexivity|].
    destruct (onCatch P attempt t); [reflexivity|].
    destruct (Nat.eqb_spec attempt (maxRetries P)); [reflexivity|].
    rewrite (IH fuel2) by lia. reflexivity.
Qed.

(** The loop makes at most one call per attempt left. *)
Lemma retryLoop_calls fuel attempt lastError :
  remoteCalls (events (retryLoop P body fuel attempt lastError))
  <= S (maxRetries P) - attempt.
Proof.
  revert attempt lastError.
  induction fuel as [|fuel IH]; intros attempt lastError;
    cbn [retryLoop events remoteCalls]; [lia|].
  destruct (Nat.leb_spec attempt (maxRetries P));
    cbn [events remoteCalls]; [|lia].
  destruct (body attempt) as [a|t]; cbn [events remoteCalls]; [lia|].
  destruct (onCatch P attempt t) as [t'|waits] eqn:Hc;
    cbn [events remoteCalls]; [lia|].
  pose proof (onCatch_no_call _ _ _ Hc) as Hw.
  destruct (Nat.eqb_spec attempt (maxRetries P)); cbn [events remoteCalls].
  - rewrite Hw. lia.
  - rewrite remoteCalls_app, Hw. cbn [remoteCalls].
    specialize (IH (S attempt) (Some t)). lia.
Qed.

(** A failure of the loop is classified. *)
Lemma retryLoop_classified fuel attempt lastError t :
  outcome (retryLoop P body fuel attempt lastError) = Threw t ->
  classified P None t.
Proof.
  revert attempt lastError.
  induction fuel as [|fuel IH]; intros attempt lastError; simpl.
  - intros [= <-]. eexists; split; [reflexivity|].
    right; right; right. eexists; reflexivity.
  - destruct (Nat.leb_spec attempt (maxRetries P)); simpl.
    2:{ intros [= <-]. eexists; split; [reflexivity|].
        right; right; right. eexists; reflexivity. }
    destruct (body attempt) as [a|t0]; simpl; [discriminate|].
    destruct (onCatch P attempt t0) as [t'|waits] eqn:Hc; simpl.
    + intros [= <-]. unfold onCatch in Hc.
      destruct t0 as [e|]; [|discriminate].
      destruct (String.eqb (err_name e) "AbortError").
      * injection Hc as <-. eexists; split; [reflexivity|]. auto.
      * destruct (isValidationMessage P (err_message e)) eqn:Hv.
        -- injection Hc as <-. eexists; split; [reflexivity|]. auto.
        -- destruct (Js.includes (err_message e) "rate limit");
             discriminate.
    + destruct (Nat.eqb_spec attempt (maxRetries P)); simpl.
      * intros [= <-]. eexists; split; [reflexivity|].
        right; right; right. eexists; reflexivity.
      * apply IH.
Qed.

(** When attempts [attempt] to [k - 1] are retried, the run up to
    attempt [k] is a prefix of the whole run: the calls before [k], and
    then what the loop does from [k] on. *)
Lemma retryLoop_reaches k :
  forall fuel attempt lastError,
    attempt <= k -> k <= maxRetries P -> S k - attempt <= fuel ->
    forallb (continuesAt P body) (seq attempt (k - attempt)) = true ->
    exists pre last,
      remoteCalls pre = k - attempt /\
      events (retryLoop P body fuel attempt lastError)
      = pre ++ events (retryLoop P body (fuel - (k - attempt)) k last) /\
      outcome (retryLoop P body fuel attempt lastError)
      = outcome (retryLoop P body (fuel - (k - attempt)) k last).
Proof.
  intros fuel attempt. revert fuel.
  remember (k - attempt) as d eqn:Hd. revert attempt Hd.
  induction d as [|d IH]; intros attempt Hd fuel lastError Hle Hk Hf Hall.
  - assert (attempt = k) by lia. subst attempt.
    exists [], lastError. rewrite Nat.sub_0_r. auto.
  - simpl in Hall. apply andb_true_iff in Hall as [Hc Hall].
    unfold continuesAt in Hc.
    destruct (body attempt) as [a|t] eqn:Hb; [discriminate|].
    destruct (onCatch P attempt t) as [t'|waits] eqn:Hoc; [discriminate|].
    destruct fuel as [|fuel]; [lia|].
    rewrite (retryLoop_continue fuel attempt lastError t waits)
      by (auto; lia).
    cbv zeta. simpl events. simpl outcome.
    destruct (IH (S attempt) ltac:(lia) fuel (Some t)
                ltac:(lia) Hk ltac:(lia) Hall)
      as (pre & last & Hcalls & Hev & Hout).
    exists (Fetch attempt :: waits ++ Sleep (backoff attempt) :: pre), last.
    replace (S fuel - S d) with (fuel - d) by lia.
    replace (k - S attempt) with d in * by lia.
    repeat split.
    + simpl. rewrite remoteCalls_app. simpl.
      rewrite (onCatch_no_call _ _ _ Hoc), Hcalls. lia.
    + rewrite Hev. simpl. rewrite <- app_assoc. reflexivity.
    + exact Hout.
Qed.

End RetryLoop.

(* ===================================================================== *)
(** * Properties of a whole call *)
(* ===================================================================== *)

Section Execute.

Context {A : Type}.
Variable P : Policy.
Variable body : nat -> Outcome A.

Lemma execute_settled rejected : settled P rejected (execute P rejected body).
Proof.
  unfold settled, execute. destruct rejected as [e|]; cbn [events outcome].
  - split; [simpl; lia|]. right. eexists; split; [reflexivity|].
    exists e; auto.
  - split.
    + pose proof (retryLoop_calls P body (maxRetries P) 1 None). lia.
    + destruct (outcome (retryLoop P body (maxRetries P) 1 None))
        as [a|t] eqn:Ho.
      * left; eauto.
      * right. exists t; split; [reflexivity|].
        apply (retryLoop_classified P body _ _ _ _ Ho).
Qed.

(** When the attempts before [k] are retried and the [catch] block
    throws at attempt [k], the call ends there: [k] remote calls, the
    last event is the call of attempt [k]. *)
Lemma execute_stops_at k t t' :
  1 <= k <= maxRetries P ->
  retriedBefore P body k = true ->
  body k = Threw t -> onCatch P k t = Rethrow t' ->
  outcome (execute P None body) = Threw t' /\
  remoteCalls (events (execute P None body)) = k /\
  exists pre, events (execute P None body) = pre ++ [Fetch k].
Proof.
  intros Hk Hall Hb Hc. unfold execute, retriedBefore in *.
  destruct (retryLoop_reaches P body k (maxRetries P) 1 None)
    as (pre & last & Hcalls & Hev & Hout); try lia; auto.
  rewrite Hev, Hout.
  replace (maxRetries P - (k - 1)) with (S (maxRetries P - k)) by lia.
  rewrite (retryLoop_rethrow P body _ k last t t')
    by (auto; lia).
  cbn [events outcome]. repeat split.
  - rewrite remoteCalls_app, Hcalls. simpl. lia.
  - exists pre; reflexivity.
Qed.

(** A timer that fires at attempt [k] ends the call with the timeout
    error. *)
Lemma execute_aborted k :
  1 <= k <= maxRetries P ->
  retriedBefore P body k = true ->
  abortedAt body k = true ->
  outcome (execute P None body)
  = Threw (ThrownError (newError (timeoutMessage P)))
  /\ remoteCalls (events (execute P None body)) = k
  /\ exists pre, events (execute P None body) = pre ++ [Fetch k].
Proof.
  intros Hk Hall Hab. unfold abortedAt in Hab.
  destruct (body k) as [a|[e|]] eqn:Hb; try discriminate.
  apply (execute_stops_at k _ _ Hk Hall Hb).
  unfold onCatch. rewrite Hab. reflexivity.
Qed.

End Execute.

(** The two stage clients are calls of [execute]. *)
Lemma extractTextFromFile_execute f type responses :
  extractTextFromFile (Some f) type responses
  = execute (extractPolicy type) (extractTextFromFile_checks (Some f) type)
      (fun attempt => extractAttempt f type (responses attempt)).
Proof. reflexivity. Qed.

Lemma generateSummary_execute text fileName len responses :
  generateSummary text fileName len responses
  = execute summaryPolicy (generateSummary_checks text fileName)
      (fun attempt => summaryAttempt (responses attempt)).
Proof. reflexivity. Qed.

(** A file or a text the checks reject costs no remote call. *)
Lemma extractTextFromFile_rejected file type responses e :
  extractTextFromFile_checks file type = Some e ->
  extractTextFromFile file type responses
  = mkRun [] (Threw (ThrownError e)).
Proof.
  intros H. unfold extractTextFromFile, execute.
  destruct file; rewrite H; reflexivity.
Qed.

Lemma generateSummary_rejected text fileName len responses e :
  generateSummary_checks text fileName = Some e ->
  generateSummary text fileName len responses
  = mkRun [] (Threw (ThrownError e)).
Proof.
  intros H. unfold generateSummary, execute. rewrite H. reflexivity.
Qed.

(** The loop with a [try] block that may wait for ever is the loop of
    [retryLoop] as long as the blocks it enters end; otherwise it stops,
    pending, at the call of the first attempt whose block does not end. *)
Lemma awaitLoop_cases {A} (P : Policy) (body : nat -> Awaited (Outcome A))
    (settledBody : nat -> Outcome A) :
  (forall a o, body a = Settles o -> settledBody a = o) ->
  forall fuel attempt lastError,
    awaitLoop P body fuel attempt lastError
    = Ended (retryLoop P settledBody fuel attempt lastError)
    \/ exists k pre,
         awaitLoop P body fuel attempt lastError = Pending (pre ++ [Fetch k])
         /\ attempt <= k <= maxRetries P
         /\ body k = NeverSettles
         /\ remoteCalls (pre ++ [Fetch k]) <= S (maxRetries P) - attempt.
Proof.
  intros Hbody.
  induction fuel as [|fuel IH]; intros attempt lastError;
    cbn [awaitLoop retryLoop]; [left; reflexivity|].
  destruct (Nat.leb_spec attempt (maxRetries P)) as [Hle|Hgt];
    [|left; reflexivity].
  destruct (body attempt) as [o|] eqn:Hb.
  - rewrite (Hbody attempt o Hb).
    destruct o as [a|t]; [left; reflexivity|].
    destruct (onCatch P attempt t) as [t'|waits] eqn:Hc; [left; reflexivity|].
    destruct (Nat.eqb_spec attempt (maxRetries P)) as [Heq|Hne];
      [left; reflexivity|].
    destruct (IH (S attempt) (Some t)) as [-> | (k & pre & -> & Hk & Hs & Hn)].
    + left. cbn [thenCall]. f_equal. f_equal.
      cbn [app]. rewrite <- app_assoc. reflexivity.
    + right.
      exists k, (Fetch attempt :: waits ++ [Sleep (backoff attempt)] ++ pre).
      cbn [thenCall]. split.
      { f_equal. cbn [app]. rewrite <- !app_assoc. reflexivity. }
      split; [lia|]. split; [exact Hs|].
      cbn [app remoteCalls]. rewrite !remoteCalls_app in *.
      rewrite (onCatch_no_call P _ _ _ Hc). cbn [remoteCalls] in *. lia.
  - right. exists attempt, []. cbn [app remoteCalls].
    repeat split; try lia. exact Hb.
Qed.

Lemma awaitExecute_settled {A} (P : Policy) (rejected : option JsError)
    (body : nat -> Outcome A) :
  awaitExecute P rejected (fun a => Settles (body a))
  = Ended (execute P rejected body).
Proof.
  unfold awaitExecute, execute. destruct rejected as [e|]; [reflexivity|].
  destruct (awaitLoop_cases P (fun a => Settles (body a)) body
              ltac:(intros a o [= <-]; reflexivity) (maxRetries P) 1 None)
    as [H | (k & pre & _ & _ & Hs & _)]; [exact H | discriminate Hs].
Qed.

Lemma awaitExecute_endsUnlessStalled {A R} (P : Policy)
    (rejected : option JsError) (attempt : R -> Outcome A)
    (responses : nat -> Awaited R) :
  endsUnlessStalled P rejected responses
    (awaitExecute P rejected (fun a => whenSettled attempt (responses a))).
Proof.
  unfold awaitExecute. destruct rejected as [e|].
  { exact (execute_settled P (fun _ => Threw (ThrownOther None)) (Some e)). }
  set (settledBody := fun a =>
         match responses a with
         | Settles r => attempt r
         | NeverSettles => Threw (ThrownOther None)
         end).
  destruct (awaitLoop_cases P (fun a => whenSettled attempt (responses a))
              settledBody
              ltac:(intros a o; unfold settledBody;
                    destruct (responses a); cbn [whenSettled];
                    [intros [= <-]; reflexivity | discriminate])
              (maxRetries P) 1 None)
    as [-> | (k & pre & -> & Hk & Hs & Hn)].
  - exact (execute_settled P settledBody None).
  - cbn [endsUnlessStalled]. split; [lia|].
    exists k, pre. split; [lia|]. split; [|reflexivity].
    destruct (responses k); [discriminate Hs | reflexivity].
Qed.

(** C5, as the code has it.  Every call of [extractTextFromFile] and of
    [generateSummary] makes at most three remote calls, and it ends, with
    the value it returns or with a classified error (the error of a check,
    the timeout error, a validation error, or the error thrown after the
    third attempt), unless the body of a response never arrives: the timer
    is cleared before the body is read, so the call is then left waiting
    after the remote call of that attempt.  When every body arrives the
    call is the run of [extractTextFromFile] or [generateSummary] on the
    answers, which is settled.  The bound does not come from the fuel of
    the model: allowing the loop more passes than [MAX_RETRIES] never
    changes the run. *)
Theorem executors_end_unless_a_body_never_arrives :
  forall (file : option File) (type : FileKind)
         (responses : nat -> Awaited (FetchResult ExtractPayload))
         (arrived : nat -> FetchResult ExtractPayload)
         (text fileName : string) (len : SummaryLength)
         (answers : nat -> Awaited (FetchResult SummaryPayload))
         (answered : nat -> FetchResult SummaryPayload),
    (endsUnlessStalled (extractPolicy type)
       (extractTextFromFile_checks file type) responses
       (extractTextFromFile_awaiting file type responses)
     /\ maxRetries (extractPolicy type) = 3)
    /\ (endsUnlessStalled summaryPolicy
          (generateSummary_checks text fileName) answers
          (generateSummary_awaiting text fileName len answers)
        /\ maxRetries summaryPolicy = 3)
    /\ (extractTextFromFile_awaiting file type (fun a => Settles (arrived a))
        = Ended (extractTextFromFile file type arrived)
        /\ settled (extractPolicy type) (extractTextFromFile_checks file type)
             (extractTextFromFile file type arrived))
    /\ (generateSummary_awaiting text fileName len
          (fun a => Settles (answered a))
        = Ended (generateSummary text fileName len answered)
        /\ settled summaryPolicy (generateSummary_checks text fileName)
             (generateSummary text fileName len answered))
    /\ (forall (P : Policy) (B : Type) (body : nat -> Outcome B)
               (extra : nat),
           retryLoop P body (maxRetries P + extra) 1 None
           = execute P None body).
Proof.
  intros file type responses arrived text fileName len answers answered.
  split; [|split; [|split; [|split]]].
  - split; [|reflexivity].
    unfold extractTextFromFile_awaiting. destruct file as [f|].
    + apply awaitExecute_endsUnlessStalled.
    + cbn [extractTextFromFile_checks awaitExecute endsUnlessStalled].
      exact (execute_settled (extractPolicy type)
               (fun _ => Threw (ThrownOther None))
               (extractTextFromFile_checks None type)).
  - split; [|reflexivity]. apply awaitExecute_endsUnlessStalled.
  - split.
    + unfold extractTextFromFile_awaiting, extractTextFromFile.
      destruct file as [f|].
      * exact (awaitExecute_settled _ _
                 (fun a => extractAttempt f type (arrived a))).
      * reflexivity.
    + unfold extractTextFromFile. destruct file; apply execute_settled.
  - split.
    + exact (awaitExecute_settled _ _ (fun a => summaryAttempt (answered a))).
    + apply execute_settled.
  - intros P B body extra. unfold execute.
    apply retryLoop_fuel; lia.
Qed.

(** A response whose body never arrives leaves the call waiting: after a
    refused first attempt and the backoff, the second remote call is the
    last thing [extractTextFromFile] does, and it neither returns nor
    throws; [generateSummary] is left in the same way after its first
    call. *)
Lemma stalled_body_leaves_the_call_pending :
  extractTextFromFile_awaiting (Some reportPdf) pdf stallsOnSecond
  = Pending [Fetch 1; Sleep 1000; Fetch 2]
  /\ generateSummary_awaiting tenWords "notes.pdf" medium
       (fun _ => NeverSettles)
     = Pending [Fetch 1].
Proof. split; reflexivity. Qed.

(** C1, as the code has it.  A validation failure ends the call at once,
    whatever [MAX_RETRIES] is: when a check before the loop fails (empty
    file, file over the size limit, unsupported format, text of fewer
    than 10 or more than 15,000 words) no remote call is made at all; when
    the failure of a remote attempt is taken for a validation error, that
    attempt is the last event of the call: no wait and no further attempt
    follow it, and the error is thrown unchanged. *)
Theorem validation_failure_is_never_retried :
  forall (A : Type) (P : Policy) (rejected : option JsError)
         (body : nat -> Outcome A) (k : nat) (e : JsError),
    failsValidationAt P rejected body k e ->
    outcome (execute P rejected body) = Threw (ThrownError e)
    /\ remoteCalls (events (execute P rejected body)) = k
    /\ exists pre,
         events (execute P rejected body)
         = pre ++ match k with 0 => [] | _ => [Fetch k] end.
Proof.
  intros A P rejected body k e [[-> ->] | (-> & Hk & Hall & Hb & Hv)].
  - cbn. repeat split. exists []; reflexivity.
  - unfold validationAt in Hv. rewrite Hb in Hv.
    apply andb_true_iff in Hv as [Hname Hmsg].
    apply negb_true_iff in Hname.
    assert (Hc : onCatch P k (ThrownError e) = Rethrow (ThrownError e)).
    { unfold onCatch. rewrite Hname, Hmsg. reflexivity. }
    destruct (execute_stops_at P body k _ _ Hk Hall Hb Hc) as (Ho & Hn & pre & Hev).
    repeat split; auto. exists pre. rewrite Hev.
    destruct k; [lia | reflexivity].
Qed.

(** C2, as the code has it.  When the timer of an attempt fires, the
    [fetch] is aborted and the call ends at once with the timeout error:
    the attempt is the last event of the call, no backoff wait and no
    further attempt follow, also when attempts are left. *)
Theorem timeout_ends_the_call :
  forall (A : Type) (P : Policy) (body : nat -> Outcome A) (k : nat),
    1 <= k <= maxRetries P ->
    retriedBefore P body k = true ->
    abortedAt body k = true ->
    outcome (execute P None body)
    = Threw (ThrownError (newError (timeoutMessage P)))
    /\ remoteCalls (events (execute P None body)) = k
    /\ exists pre, events (execute P None body) = pre ++ [Fetch k].
Proof.
  intros A P body k Hk Hall Hab.
  apply execute_aborted; assumption.
Qed.

(** ** The waits between the attempts *)

Section Waits.

Context {A : Type}.
Variable P : Policy.
Variable body : nat -> Outcome A.

Hypothesis unit_nonneg : (0 <= rateLimitUnit P)%Z.

(** No rate limit is followed by a retried failure of another kind: a
    failure of the last attempt is not retried, and may be of any kind. *)
Hypothesis no_relief :
  forall j, 1 <= j -> S j < maxRetries P ->
    rateLimitedAt P body j = true -> transientAt P body (S j) = false.

Lemma backoff_S a : 1 <= a -> backoff (S a) = (2 * backoff a)%Z.
Proof.
  intros Ha. unfold backoff.
  replace (Z.of_nat (S a) - 1)%Z with (Z.succ (Z.of_nat a - 1))%Z by lia.
  rewrite Z.pow_succ_r by lia. ring.
Qed.

Lemma backoff_pos a : (0 <= backoff a)%Z.
Proof.
  unfold backoff. pose proof (Z.pow_nonneg 2 (Z.of_nat a - 1)). lia.
Qed.

Lemma rateLimitWait_S a :
  (2 ^ Z.of_nat a * rateLimitUnit P
   <= 2 ^ Z.of_nat (S a) * rateLimitUnit P)%Z.
Proof.
  rewrite Nat2Z.inj_succ, Z.pow_succ_r by lia.
  pose proof (Z.pow_nonneg 2 (Z.of_nat a)). nia.
Qed.

Lemma nondecreasing_cons lo l :
  (match l with [] => True | x :: _ => (lo <= x)%Z end) ->
  nondecreasing l = true -> nondecreasing (lo :: l) = true.
Proof.
  destruct l as [|x l]; intros Hlo Hl; [reflexivity|].
  cbn [nondecreasing]. apply andb_true_iff. split; [lia | exact Hl].
Qed.

Lemma nondecreasing_tl l : nondecreasing l = true -> nondecreasing (tl l) = true.
Proof.
  destruct l as [|a [|b l]]; cbn; auto.
  intros H. apply andb_true_iff in H. apply H.
Qed.

(** The waits of the loop from attempt [a] on, when [slept] is the wait
    before attempt [a]: they never go down, provided [slept] is at most
    what attempt [a] itself would add. *)
Lemma retryLoop_waits fuel :
  forall a lastError slept,
    1 <= a ->
    ((slept <= backoff a)%Z \/
     ((slept <= 2 ^ Z.of_nat a * rateLimitUnit P + backoff a)%Z /\
      (a < maxRetries P -> transientAt P body a = false))) ->
    let ws := waitsBeforeCalls slept
                (events (retryLoop P body fuel a lastError)) in
    nondecreasing ws = true /\
    match ws with [] => True | x :: _ => x = slept end.
Proof.
  induction fuel as [|fuel IH]; intros a lastError slept Ha Hs;
    cbn [retryLoop]; [cbn; auto|].
  destruct (Nat.leb_spec a (maxRetries P)) as [Hle|Hgt]; [|cbn; auto].
  destruct (body a) as [r|t] eqn:Hb; [cbn; auto|].
  destruct (onCatch P a t) as [t'|waits] eqn:Hc; [cbn; auto|].
  destruct (Nat.eqb_spec a (maxRetries P)) as [Heq|Hneq].
  - cbn [events waitsBeforeCalls].
    destruct (onCatch_waits P a t waits Hc) as [-> | ->]; cbn; auto.
  - cbn [events waitsBeforeCalls]. cbv zeta.
    set (rest := retryLoop P body fuel (S a) (Some t)).
    assert (Hnext :
      exists w, (slept <= w)%Z /\
        waitsBeforeCalls 0 (waits ++ Sleep (backoff a) :: events rest)
        = waitsBeforeCalls w (events rest) /\
        ((w <= backoff (S a))%Z \/
         ((w <= 2 ^ Z.of_nat (S a) * rateLimitUnit P + backoff (S a))%Z /\
          (S a < maxRetries P -> transientAt P body (S a) = false)))).
    { pose proof (backoff_S a Ha) as HbS.
      pose proof (backoff_pos a) as Hb0.
      pose proof (rateLimitWait_S a) as Hr.
      pose proof (Z.pow_nonneg 2 (Z.of_nat a) ltac:(lia)) as Hp.
      destruct (onCatch_waits P a t waits Hc) as [-> | ->].
      - exists (backoff a). cbn [app waitsBeforeCalls].
        split; [|split; [reflexivity | left; lia]].
        destruct Hs as [Hs | [_ Hs]]; [exact Hs|].
        specialize (Hs ltac:(lia)).
        unfold transientAt in Hs. rewrite Hb, Hc in Hs. discriminate.
      - exists (2 ^ Z.of_nat a * rateLimitUnit P + backoff a)%Z.
        cbn [app waitsBeforeCalls].
        split; [|split; [f_equal; lia|]].
        + destruct Hs as [Hs | [Hs _]]; nia.
        + right. split; [lia|].
          intros Hlt. apply no_relief; [lia | exact Hlt |].
          unfold rateLimitedAt. rewrite Hb, Hc. reflexivity. }
    destruct Hnext as (w & Hsw & -> & Hw).
    destruct (IH (S a) (Some t) w ltac:(lia) Hw) as [Hnd Hhead].
    fold rest in Hnd, Hhead. cbv zeta in Hnd, Hhead.
    split; [|reflexivity].
    apply nondecreasing_cons; [|exact Hnd].
    destruct (waitsBeforeCalls w (events rest)); [exact I | lia].
Qed.

Lemma execute_waits rejected :
  nondecreasing (retryWaits (events (execute P rejected body))) = true.
Proof.
  unfold execute, retryWaits. destruct rejected; [reflexivity|].
  apply nondecreasing_tl.
  apply (retryLoop_waits (maxRetries P) 1 None 0%Z); [lia|].
  left. unfold backoff. simpl. lia.
Qed.

End Waits.

(** Two failures and then the text: three remote calls, with waits of
    1000 ms and 2000 ms between them. *)
Example two_failures_then_text :
  events (extractTextFromFile (Some reportPdf) pdf failsTwice)
  = [Fetch 1; Sleep 1000; Fetch 2; Sleep 2000; Fetch 3]
  /\ outcome (extractTextFromFile (Some reportPdf) pdf failsTwice)
     = Returned (mkExtractedText "hello world" 2 11 "report.pdf" pdf).
Proof. split; reflexivity. Qed.

(** A rate limit on the last attempt is still waited for before the call
    gives up. *)
Example rate_limit_on_last_attempt :
  events (extractTextFromFile (Some reportPdf) pdf
            (fun _ => refused 429 "rate limit exceeded"))
  = [Fetch 1; Sleep 2000; Sleep 1000; Fetch 2; Sleep 4000; Sleep 2000;
     Fetch 3; Sleep 8000]
  /\ outcome (extractTextFromFile (Some reportPdf) pdf
                (fun _ => refused 429 "rate limit exceeded"))
     = Threw (ThrownError
                (newError "Failed after 3 attempts: rate limit exceeded")).
Proof. split; reflexivity. Qed.

(** C6, as the code has it.  Within one call the wait before attempt
    [k + 1] never goes down as [k] grows, as long as no rate-limited
    failure is followed by a retried failure of another kind; a failure of
    the last attempt is not retried and may be of any kind.  (The wait
    after a rate limit is the rate-limit wait and the backoff together, so
    the wait after a later failure that is not a rate limit is
    shorter.) *)
Theorem waits_never_go_down_without_relief :
  forall (A : Type) (P : Policy) (rejected : option JsError)
         (body : nat -> Outcome A),
    (0 <= rateLimitUnit P)%Z ->
    (forall j, 1 <= j -> S j < maxRetries P ->
       rateLimitedAt P body j = true -> transientAt P body (S j) = false) ->
    nondecreasing (retryWaits (events (execute P rejected body))) = true.
Proof.
  intros A P rejected body Hunit Hrelief.
  apply execute_waits; assumption.
Qed.

(** A failure, then a rate limit, then a failure that is not retried: the
    waits are 1000 ms and 6000 ms. *)
Lemma waits_never_go_down_witness :
  (0 <= rateLimitUnit (extractPolicy pdf))%Z
  /\ (forall j, 1 <= j -> S j < maxRetries (extractPolicy pdf) ->
        rateLimitedAt (extractPolicy pdf)
          (fun a => extractAttempt reportPdf pdf (rateLimitBetweenFailures a))
          j = true ->
        transientAt (extractPolicy pdf)
          (fun a => extractAttempt reportPdf pdf (rateLimitBetweenFailures a))
          (S j) = false)
  /\ transientAt (extractPolicy pdf)
       (fun a => extractAttempt reportPdf pdf (rateLimitBetweenFailures a)) 3
     = true
  /\ retryWaits
       (events (extractTextFromFile (Some reportPdf) pdf
                  rateLimitBetweenFailures))
     = [1000; 6000]%Z
  /\ nondecreasing
       (retryWaits
          (events
             (extractTextFromFile (Some reportPdf) pdf
                rateLimitBetweenFailures)))
     = true.
Proof.
  assert (Hunit : (0 <= rateLimitUnit (extractPolicy pdf))%Z)
    by (vm_compute; discriminate).
  assert (Hrelief :
    forall j, 1 <= j -> S j < maxRetries (extractPolicy pdf) ->
      rateLimitedAt (extractPolicy pdf)
        (fun a => extractAttempt reportPdf pdf (rateLimitBetweenFailures a)) j
      = true ->
      transientAt (extractPolicy pdf)
        (fun a => extractAttempt reportPdf pdf (rateLimitBetweenFailures a))
        (S j) = false).
  { intros j Hlo Hhi Hrate. cbn in Hhi.
    destruct j as [|[|j]];
      [lia | vm_compute in Hrate; discriminate Hrate | lia]. }
  split; [exact Hunit|]. split; [exact Hrelief|].
  split; [reflexivity|]. split; [reflexivity|].
  exact (waits_never_go_down_without_relief ExtractedText (extractPolicy pdf)
           (extractTextFromFile_checks (Some reportPdf) pdf)
           (fun a => extractAttempt reportPdf pdf (rateLimitBetweenFailures a))
           Hunit Hrelief).
Defined.

(** C6 fails as stated: a rate limit on the first attempt and another
    failure on the second make [extractTextFromFile] wait 3000 ms before
    the second attempt and 2000 ms before the third. *)
Lemma wait_shrinks_after_rate_limit :
  retryWaits
    (events (extractTextFromFile (Some reportPdf) pdf rateLimitThenFailure))
  = [3000; 2000]%Z
  /\ nondecreasing
       (retryWaits
          (events (extractTextFromFile (Some reportPdf) pdf
                     rateLimitThenFailure)))
     = false.
Proof. split; reflexivity. Qed.

(** C1 fails as stated: a text of five words is rejected by the checks of
    [generateSummary] before any remote call, so the validation failure
    costs no remote call, not one. *)
Lemma short_text_costs_no_remote_call :
  outcome (generateSummary "one two three four five" "notes.pdf" medium
             noSummary)
  = Threw (ThrownError (newError
      "Text too short: Minimum 10 words required for summarization"))
  /\ remoteCalls
       (events (generateSummary "one two three four five" "notes.pdf"
                  medium noSummary)) = 0
  /\ remoteCalls
       (events (generateSummary "one two three four five" "notes.pdf"
                  medium noSummary)) <> 1.
Proof. repeat split. vm_compute. discriminate. Qed.

(** The server refuses the file as invalid on the second attempt: two
    remote calls, the second is the last event. *)
Lemma validation_failure_witness :
  failsValidationAt (extractPolicy pdf)
    (extractTextFromFile_checks (Some reportPdf) pdf)
    (fun a => extractAttempt reportPdf pdf (refusedAsInvalid a)) 2
    (newError "Invalid file contents")
  /\ outcome (extractTextFromFile (Some reportPdf) pdf refusedAsInvalid)
     = Threw (ThrownError (newError "Invalid file contents"))
  /\ remoteCalls
       (events (extractTextFromFile (Some reportPdf) pdf refusedAsInvalid))
     = 2
  /\ exists pre,
       events (extractTextFromFile (Some reportPdf) pdf refusedAsInvalid)
       = pre ++ [Fetch 2].
Proof.
  assert (H : failsValidationAt (extractPolicy pdf)
                (extractTextFromFile_checks (Some reportPdf) pdf)
                (fun a => extractAttempt reportPdf pdf (refusedAsInvalid a)) 2
                (newError "Invalid file contents")).
  { right. split; [reflexivity|]. split; [cbn; lia|].
    repeat split; reflexivity. }
  split; [exact H|].
  exact (validation_failure_is_never_retried ExtractedText
           (extractPolicy pdf)
           (extractTextFromFile_checks (Some reportPdf) pdf)
           (fun a => extractAttempt reportPdf pdf (refusedAsInvalid a)) 2
           (newError "Invalid file contents") H).
Defined.

(** C2 fails as stated: the first of three attempts times out and the
    call ends there, without the backoff wait and without the second
    attempt, which the server would have answered. *)
Lemma timeout_on_first_attempt_ends_the_call :
  events (extractTextFromFile (Some reportPdf) pdf timeoutThenText)
  = [Fetch 1]
  /\ outcome (extractTextFromFile (Some reportPdf) pdf timeoutThenText)
     = Threw (ThrownError (newError
         "Timeout: PDF parsing took too long. Try with a smaller file."))
  /\ ~ In (Sleep (backoff 1))
          (events (extractTextFromFile (Some reportPdf) pdf timeoutThenText))
  /\ ~ In (Fetch 2)
          (events (extractTextFromFile (Some reportPdf) pdf timeoutThenText)).
Proof.
  repeat split; vm_compute; intros [H|[]]; discriminate H.
Qed.

(** The first attempt of an extraction times out. *)
Lemma timeout_ends_the_call_witness :
  1 <= 1 <= maxRetries (extractPolicy pdf)
  /\ retriedBefore (extractPolicy pdf)
       (fun a => extractAttempt reportPdf pdf (timeoutThenText a)) 1 = true
  /\ abortedAt (fun a => extractAttempt reportPdf pdf (timeoutThenText a)) 1
     = true
  /\ outcome (extractTextFromFile (Some reportPdf) pdf timeoutThenText)
     = Threw (ThrownError (newError (timeoutMessage (extractPolicy pdf))))
  /\ remoteCalls
       (events (extractTextFromFile (Some reportPdf) pdf timeoutThenText))
     = 1
  /\ exists pre,
       events (extractTextFromFile (Some reportPdf) pdf timeoutThenText)
       = pre ++ [Fetch 1].
Proof.
  assert (Hk : 1 <= 1 <= maxRetries (extractPolicy pdf)) by (cbn; lia).
  split; [exact Hk|]. split; [reflexivity|]. split; [reflexivity|].
  exact (timeout_ends_the_call ExtractedText (extractPolicy pdf)
           (fun a => extractAttempt reportPdf pdf (timeoutThenText a)) 1
           Hk eq_refl eq_refl).
Defined.

(* ===================================================================== *)
(** * Properties of the page *)
(* ===================================================================== *)

Lemma memString_In x l : memString x l = true <-> In x l.
Proof.
  unfold memString. rewrite existsb_exists. split.
  - intros (y & Hy & Heq). apply String.eqb_eq in Heq. now subst.
  - intros H. exists x. split; [exact H | apply String.eqb_refl].
Qed.

Lemma updateFile_In uploadedFile change prev f :
  In f prev -> id f = id uploadedFile ->
  In (change f) (updateFile uploadedFile change prev).
Proof.
  intros Hin Hid. unfold updateFile.
  apply in_map_iff. exists f. split; [|exact Hin].
  rewrite Hid, String.eqb_refl. reflexivity.
Qed.

(** Two updates of the same file in a row are one update, when the first
    leaves the id alone. *)
Lemma updateFile_twice uploadedFile g h prev :
  (forall f, id (h f) = id f) ->
  updateFile uploadedFile g (updateFile uploadedFile h prev)
  = updateFile uploadedFile (fun f => g (h f)) prev.
Proof.
  intros Hid. unfold updateFile. rewrite map_map.
  apply map_ext. intros f.
  destruct (String.eqb (id f) (id uploadedFile)) eqn:E.
  - rewrite Hid, E. reflexivity.
  - rewrite E. reflexivity.
Qed.

Lemma updateFile_Forall (Q : UploadedFile -> Prop) uploadedFile change prev :
  Forall Q prev ->
  (forall f, In f prev -> id f = id uploadedFile -> Q f -> Q (change f)) ->
  Forall Q (updateFile uploadedFile change prev).
Proof.
  intros Hall Hch. unfold updateFile. apply Forall_forall.
  intros g Hg. apply in_map_iff in Hg as (f & <- & Hin).
  rewrite Forall_forall in Hall.
  destruct (String.eqb (id f) (id uploadedFile)) eqn:E; auto.
  apply String.eqb_eq in E. auto.
Qed.

Lemma timeoutMessage_truthy type :
  Js.truthy (timeoutMessage (extractPolicy type)) = true.
Proof. destruct type; reflexivity. Qed.

(** What [extractOne] does to the page when the call throws. *)
Lemma extractOne_threw uploadedFile responses prev t :
  outcome (extractTextFromFile (Some (file uploadedFile))
             (type uploadedFile) responses) = Threw t ->
  extractOne uploadedFile responses prev
  = updateFile uploadedFile
      (fun f => set_isExtracting (Some false)
                  (set_extractionError (Some (shownMessage t))
                     (set_isExtracting (Some true) f)))
      prev.
Proof.
  intros Ho. unfold extractOne. rewrite Ho.
  rewrite (updateFile_twice _ _ (set_isExtracting (Some true)))
    by reflexivity.
  reflexivity.
Qed.

(** The handlers keep [structureAfterText]. *)
Lemma newUpload_structureAfterText f i t p :
  structureAfterText (newUpload f i t p).
Proof. unfold structureAfterText. cbn. discriminate. Qed.

Lemma extractOne_structureAfterText uploadedFile responses prev :
  Forall structureAfterText prev ->
  Forall structureAfterText (extractOne uploadedFile responses prev).
Proof.
  intros H. unfold extractOne.
  destruct (outcome _) as [x|t];
    repeat apply updateFile_Forall; auto;
    intros f _ _ Hf; unfold structureAfterText in *; cbn in *; auto.
Qed.

Lemma analyzeImageOne_structureAfterText uploadedFile fetched prev :
  Forall structureAfterText prev ->
  Forall structureAfterText (analyzeImageOne uploadedFile fetched prev).
Proof.
  intros H. unfold analyzeImageOne.
  destruct (analyzeImage fetched) as [x|t];
    repeat apply updateFile_Forall; auto;
    intros f _ _ Hf; unfold structureAfterText in *; cbn in *; auto.
Qed.

(** A structure analysis is stored under the id of a file that passed the
    filter of line 320, which asks for an extracted text; extracted texts
    are never removed, so the records under that id still have one. *)
Lemma analyzeStructureOne_structureAfterText uploadedFile answer prev :
  (forall f, In f prev -> id f = id uploadedFile ->
             present (extractedText f) = true) ->
  Forall structureAfterText prev ->
  Forall structureAfterText (analyzeStructureOne uploadedFile answer prev).
Proof.
  intros Htext H. unfold analyzeStructureOne.
  destruct answer as [x|t].
  - rewrite (updateFile_twice _ _ (set_isAnalyzingStructure (Some true)))
      by reflexivity.
    apply updateFile_Forall; [exact H|].
    intros f Hin Hid _. unfold structureAfterText. cbn. auto.
  - rewrite (updateFile_twice _ _ (set_isAnalyzingStructure (Some true)))
      by reflexivity.
    apply updateFile_Forall; [exact H|].
    intros f _ _ Hf. unfold structureAfterText in *. cbn in *. auto.
Qed.

(** C3, as the code has it.  The only abort signal is the timer of an
    attempt.  When it fires while a file is being extracted, the file does
    not go back to not-started: [extractTextFromFile] throws the timeout
    error, and the page stores its message as the file's
    [extractionError] and clears [isExtracting], which is the failed
    state. *)
Theorem timeout_leaves_the_file_failed :
  forall (uploadedFile : UploadedFile)
         (responses : nat -> FetchResult ExtractPayload)
         (prev : list UploadedFile) (k : nat) (f : UploadedFile),
    extractTextFromFile_checks (Some (file uploadedFile)) (type uploadedFile)
    = None ->
    1 <= k <= maxRetries (extractPolicy (type uploadedFile)) ->
    retriedBefore (extractPolicy (type uploadedFile))
      (fun a => extractAttempt (file uploadedFile) (type uploadedFile)
                  (responses a)) k = true ->
    abortedAt
      (fun a => extractAttempt (file uploadedFile) (type uploadedFile)
                  (responses a)) k = true ->
    In f prev -> id f = id uploadedFile -> needsExtraction f = true ->
    let during := set_isExtracting (Some true) f in
    let after :=
      set_isExtracting (Some false)
        (set_extractionError
           (Some (timeoutMessage (extractPolicy (type uploadedFile))))
           during) in
    extractionState during = InProgress
    /\ In after (extractOne uploadedFile responses prev)
    /\ extractionState after
       = Failed (timeoutMessage (extractPolicy (type uploadedFile)))
    /\ extractionState after <> NotStarted.
Proof.
  intros uploadedFile responses prev k f Hchecks Hk Hall Hab Hin Hid Hneed
         during after.
  destruct (execute_aborted (extractPolicy (type uploadedFile)) _ k
              Hk Hall Hab) as (Ho & _ & _).
  assert (Hrun :
    outcome (extractTextFromFile (Some (file uploadedFile))
               (type uploadedFile) responses)
    = Threw (ThrownError
               (newError (timeoutMessage (extractPolicy (type uploadedFile)))))).
  { unfold extractTextFromFile. rewrite Hchecks. exact Ho. }
  unfold needsExtraction in Hneed.
  apply andb_true_iff in Hneed as [Htext Herr].
  apply negb_true_iff in Htext, Herr.
  destruct (extractedText f) as [x|] eqn:Ex; [discriminate|].
  assert (Hfailed :
    extractionState after
    = Failed (timeoutMessage (extractPolicy (type uploadedFile)))).
  { unfold extractionState, after, during.
    cbn [extractedText isExtracting extractionError
         set_isExtracting set_extractionError].
    rewrite Ex. cbn [stageState].
    rewrite timeoutMessage_truthy. reflexivity. }
  repeat split.
  - unfold extractionState, during.
    cbn [extractedText isExtracting extractionError set_isExtracting].
    rewrite Ex.
    destruct (extractionError f) as [e|]; cbn in *; [|reflexivity].
    rewrite Herr. reflexivity.
  - rewrite (extractOne_threw _ _ _ _ Hrun).
    exact (updateFile_In uploadedFile
             (fun g => set_isExtracting (Some false)
                         (set_extractionError
                            (Some (timeoutMessage
                                     (extractPolicy (type uploadedFile))))
                            (set_isExtracting (Some true) g)))
             prev f Hin Hid).
  - exact Hfailed.
  - rewrite Hfailed. discriminate.
Qed.

(** The pending report, when its first attempt times out. *)
Lemma timeout_leaves_the_file_failed_witness :
  extractTextFromFile_checks (Some (file pendingReport)) (type pendingReport)
  = None
  /\ 1 <= 1 <= maxRetries (extractPolicy (type pendingReport))
  /\ In pendingReport [pendingReport]
  /\ needsExtraction pendingReport = true
  /\ extractionState (set_isExtracting (Some true) pendingReport) = InProgress
  /\ In (set_isExtracting (Some false)
           (set_extractionError
              (Some (timeoutMessage (extractPolicy (type pendingReport))))
              (set_isExtracting (Some true) pendingReport)))
        (extractOne pendingReport timeoutThenText [pendingReport])
  /\ extractionState
       (set_isExtracting (Some false)
          (set_extractionError
             (Some (timeoutMessage (extractPolicy (type pendingReport))))
             (set_isExtracting (Some true) pendingReport)))
     = Failed (timeoutMessage (extractPolicy (type pendingReport)))
  /\ extractionState
       (set_isExtracting (Some false)
          (set_extractionError
             (Some (timeoutMessage (extractPolicy (type pendingReport))))
             (set_isExtracting (Some true) pendingReport)))
     <> NotStarted.
Proof.
  assert (Hk : 1 <= 1 <= maxRetries (extractPolicy (type pendingReport)))
    by (cbn; lia).
  assert (Hin : In pendingReport [pendingReport]) by (left; reflexivity).
  split; [reflexivity|]. split; [exact Hk|]. split; [exact Hin|].
  split; [reflexivity|].
  exact (timeout_leaves_the_file_failed pendingReport timeoutThenText
           [pendingReport] 1 pendingReport eq_refl Hk eq_refl eq_refl
           Hin eq_refl eq_refl).
Defined.

(** C3 fails as stated: a pending file whose first attempt is cut off by
    the timer ends failed, with the timeout message, not not-started. *)
Lemma timed_out_file_is_not_reverted :
  map extractionState
    (extractTextFromFiles [pendingReport] (fun _ => timeoutThenText)
       [pendingReport])
  = [Failed "Timeout: PDF parsing took too long. Try with a smaller file."]
  /\ map extractionState
       (extractTextFromFiles [pendingReport] (fun _ => timeoutThenText)
          [pendingReport])
     <> [NotStarted].
Proof. split; [reflexivity | vm_compute; discriminate]. Qed.

Lemma structureState_succeeded f d :
  structureState f = Succeeded d <-> documentStructure f = Some d.
Proof.
  unfold structureState, stageState.
  destruct (documentStructure f) as [x|].
  - split; intros [= ->]; reflexivity.
  - split; [|discriminate].
    destruct (structureAnalysisError f) as [e|];
      [destruct (Js.truthy e)|];
      destruct (isAnalyzingStructure f) as [[|]|]; discriminate.
Qed.

(** Whatever else holds of a file, a structure of another document type
    keeps it out of the specialized analysis. *)
Lemma other_types_are_not_specialized f d :
  documentStructure f = Some d ->
  ~ In (documentType d) specializedTypes ->
  needsSpecialized f = false.
Proof.
  intros Hd Hnot. unfold needsSpecialized. rewrite Hd.
  destruct (memString (documentType d) specializedTypes) eqn:E.
  - apply memString_In in E. contradiction.
  - apply andb_false_r.
Qed.

(** The route of the specialized analysis refuses exactly the document
    types the page never sends. *)
Lemma specializedPOST_unsupported text documentType generated :
  Js.truthy text = true -> Js.truthy documentType = true ->
  (specializedPOST text documentType generated
   = SpecializedError 400
       "Unsupported document type for specialized analysis"%string
   <-> ~ In documentType specializedTypes).
Proof.
  intros Ht Hd. unfold specializedPOST, specializedTypes.
  rewrite Ht, Hd. cbn [negb orb].
  destruct (String.eqb_spec documentType "invoice") as [->|H1].
  { split; [destruct generated; discriminate | intros H; exfalso; apply H].
    left; reflexivity. }
  destruct (String.eqb_spec documentType "contract") as [->|H2].
  { split; [destruct generated; discriminate | intros H; exfalso; apply H].
    right; left; reflexivity. }
  destruct (String.eqb_spec documentType "resume") as [->|H3].
  { split; [destruct generated; discriminate | intros H; exfalso; apply H].
    right; right; left; reflexivity. }
  split; [|reflexivity].
  intros _ [H|[H|[H|[]]]]; congruence.
Qed.

(** C4.  A file whose specialized analysis has neither a result nor an
    error passes the filter of [performSpecializedAnalyses] if and only if
    its structure analysis has succeeded with a document type among
    invoice, contract and resume; with any other document type it does
    not pass. *)
Theorem specialized_runnable_iff_structure_type :
  forall f : UploadedFile,
    structureAfterText f ->
    specializedAnalysis f = None ->
    Js.truthyOpt (specializedAnalysisError f) = false ->
    (eligible StageAnalyzeSpecialized f = true <->
     exists d, structureState f = Succeeded d
               /\ In (documentType d) specializedTypes)
    /\ (forall d, structureState f = Succeeded d ->
                  ~ In (documentType d) specializedTypes ->
                  eligible StageAnalyzeSpecialized f = false).
Proof.
  intros f Hinv Hres Herr. split.
  - cbn [eligible]. unfold needsSpecialized. rewrite Hres, Herr.
    unfold structureAfterText in Hinv.
    destruct (documentStructure f) as [d|] eqn:Hd.
    + rewrite (Hinv eq_refl). cbn [present negb andb].
      rewrite memString_In. split.
      * intros H. exists d. split; [|exact H].
        apply structureState_succeeded. exact Hd.
      * intros (d' & Hs & Hin). apply structureState_succeeded in Hs.
        rewrite Hd in Hs. injection Hs as ->. exact Hin.
    + rewrite !andb_false_r. split; [discriminate|].
      intros (d' & Hs & _). apply structureState_succeeded in Hs.
      rewrite Hd in Hs. discriminate.
  - intros d Hs Hnot. apply structureState_succeeded in Hs.
    exact (other_types_are_not_specialized f d Hs Hnot).
Qed.

(** The report analysed as an invoice is eligible, as a letter it is
    not. *)
Lemma specialized_runnable_witness :
  structureAfterText (analysedReport "invoice")
  /\ specializedAnalysis (analysedReport "invoice") = None
  /\ Js.truthyOpt (specializedAnalysisError (analysedReport "invoice")) = false
  /\ eligible StageAnalyzeSpecialized (analysedReport "invoice") = true
  /\ eligible StageAnalyzeSpecialized (analysedReport "letter") = false
  /\ ((eligible StageAnalyzeSpecialized (analysedReport "invoice") = true <->
       exists d, structureState (analysedReport "invoice") = Succeeded d
                 /\ In (documentType d) specializedTypes)
      /\ (forall d, structureState (analysedReport "invoice") = Succeeded d ->
                    ~ In (documentType d) specializedTypes ->
                    eligible StageAnalyzeSpecialized (analysedReport "invoice")
                    = false)).
Proof.
  assert (Hinv : structureAfterText (analysedReport "invoice"))
    by (intros _; reflexivity).
  split; [exact Hinv|]. split; [reflexivity|]. split; [reflexivity|].
  split; [reflexivity|]. split; [reflexivity|].
  exact (specialized_runnable_iff_structure_type (analysedReport "invoice")
           Hinv eq_refl eq_refl).
Defined.

(** What [runnableWork] returns: the pairs of the id of a file and a stage
    the file is eligible for. *)
Lemma runnableWork_spec uploadedFiles i st :
  In (i, st) (fst (runnableWork uploadedFiles)) <->
  exists f, In f uploadedFiles /\ id f = i /\ eligible st f = true.
Proof.
  unfold runnableWork, workOf, filterFiles, bind, ret. cbn [fst].
  rewrite !in_app_iff, !in_map_iff.
  split.
  - intros H.
    repeat (destruct H as [H|H]);
      destruct H as (f & [= <- <-] & Hf);
      apply filter_In in Hf as [Hin He]; exists f; auto.
  - intros (f & Hin & <- & He).
    assert (Hf : In f (filter (eligible st) uploadedFiles))
      by (apply filter_In; auto).
    destruct st;
      [left | right; left | do 2 right; left | do 3 right; left
       | do 4 right; left | do 5 right];
      exists f; auto.
Qed.

(** C7.  Evaluating the eligibility predicates reads the files and leaves
    them as they are, so evaluating them again on the state the first
    evaluation leaves gives the same runnable pairs (and the same six
    [can...] flags). *)
Theorem runnableWork_twice :
  forall uploadedFiles : list UploadedFile,
    snd (runnableWork uploadedFiles) = uploadedFiles
    /\ fst (runnableWork (snd (runnableWork uploadedFiles)))
       = fst (runnableWork uploadedFiles)
    /\ snd (canRun uploadedFiles) = uploadedFiles
    /\ fst (canRun (snd (canRun uploadedFiles))) = fst (canRun uploadedFiles).
Proof.
  intros uploadedFiles.
  assert (H1 : snd (runnableWork uploadedFiles) = uploadedFiles)
    by reflexivity.
  assert (H2 : snd (canRun uploadedFiles) = uploadedFiles) by reflexivity.
  rewrite H1, H2. repeat split.
Qed.

(* ===================================================================== *)
(** * Properties of the image analysis route *)
(* ===================================================================== *)



(* ===================================================================== *)
(** * The two validations of a file *)
(* ===================================================================== *)

(** For a PDF the two validations accept the same files. *)
Lemma validations_agree_on_pdf (file : option File) :
  isValid (validateFile file pdf) = true
  <-> extractTextFromFile_checks file pdf = None.
Proof.
  unfold validateFile, extractTextFromFile_checks.
  destruct file as [f|]; [|split; discriminate].
  destruct (file_size f =? 0)%N; [split; discriminate|].
  destruct (MAX_FILE_SIZE <? file_size f)%N; [split; discriminate|].
  cbn [andb].
  destruct (negb (Js.includes (file_type f) "pdf")
            && negb (Js.endsWith (Js.toLowerCase (file_name f)) ".pdf"));
    cbn; split; intros; try discriminate; reflexivity.
Qed.

(** C9 fails on the code.  A WebP image of 1024 bytes, named
    [scan.webp] and of type [image/webp], is refused by [validateFile] and
    passes the checks of [extractTextFromFile], which only ask for a type
    that starts with [image/]. *)
Theorem validations_disagree_on_webp :
  isValid (validateFile (Some scanWebp) image) = false
  /\ error (validateFile (Some scanWebp) image)
     = Some "File is not a supported image format"%string
  /\ extractTextFromFile_checks (Some scanWebp) image = None
  /\ ~ (isValid (validateFile (Some scanWebp) image) = true
        <-> extractTextFromFile_checks (Some scanWebp) image = None).
Proof.
  repeat split; try reflexivity.
  intros [_ H]. specialize (H eq_refl). discriminate H.
Qed.

(* ===================================================================== *)
(** * Properties of [calculateCompressionRatio] *)
(* ===================================================================== *)

Section Ratio.

Variable R : Rounding.

Local Open Scope Q_scope.

(** A rounding keeps a number between two integers between them. *)
Lemma rnd_between (lo hi : Z) (x : Q) :
  (Z.abs lo <= 2 ^ 53)%Z -> (Z.abs hi <= 2 ^ 53)%Z ->
  inject_Z lo <= x <= inject_Z hi ->
  inject_Z lo <= R x <= inject_Z hi.
Proof.
  intros Hlo Hhi [H1 H2]. split.
  - rewrite <- (rnd_int R lo Hlo). apply rnd_mono. exact H1.
  - rewrite <- (rnd_int R hi Hhi). apply rnd_mono. exact H2.
Qed.

Lemma rnd_unit (x : Q) : 0 <= x <= 1 -> 0 <= R x <= 1.
Proof.
  intros H. apply (rnd_between 0 1 x); [vm_compute | vm_compute | exact H];
    discriminate.
Qed.

Lemma rnd_hundred (x : Q) : 0 <= x <= 100 -> 0 <= R x <= 100.
Proof.
  intros H.
  apply (rnd_between 0 100 x); [vm_compute | vm_compute | exact H];
    discriminate.
Qed.

Lemma zero_isPercentage : isPercentage (Fin 0).
Proof. exists 0%Z. split; [lia | reflexivity]. Qed.

Lemma round_isPercentage (m : Q) :
  0 <= m <= 100 -> isPercentage (Number.round (Fin m)).
Proof.
  intros [H0 H100]. exists (Qfloor (m + (1 # 2))).
  split; [|reflexivity]. split.
  - change 0%Z with (Qfloor 0). apply Qfloor_resp_le. lra.
  - change 100%Z with (Qfloor (100 + (1 # 2))). apply Qfloor_resp_le. lra.
Qed.

(** The value the last branch rounds, for a quotient between 0 and 1. *)
Lemma scaled_complement_range (q : Q) :
  0 <= q <= 1 -> 0 <= R (R (1 - q) * 100) <= 100.
Proof.
  intros Hq. apply rnd_hundred.
  assert (Hc : 0 <= R (1 - q) <= 1) by (apply rnd_unit; lra).
  lra.
Qed.

Lemma quotient_range (a b : Q) : 0 < a -> 0 <= b -> b <= a -> 0 <= b / a <= 1.
Proof.
  intros Ha Hb Hba. split.
  - apply Qle_shift_div_l; [exact Ha | lra].
  - apply Qle_shift_div_r; [exact Ha | lra].
Qed.

Lemma ratio_isPercentage (o s : number) :
  ~ (o = PosInf /\ s = PosInf) ->
  isPercentage (calculateCompressionRatio R o s).
Proof.
  intros Hnot. unfold calculateCompressionRatio.
  destruct (negb (Number.truthy o) || negb (Number.truthy s)
            || Number.leb o (Fin 0) || Number.ltb s (Fin 0)) eqn:Hguard;
    [apply zero_isPercentage|].
  destruct (Number.gtb s o) eqn:Hgt; [apply zero_isPercentage|].
  repeat (apply orb_false_iff in Hguard as [Hguard ?]).
  destruct o as [| | |a]; try discriminate;
    destruct s as [| | |b]; try discriminate.
  - exfalso. apply Hnot. split; reflexivity.
  - (* an infinite original count: the quotient is 0 *)
    cbn [Number.div Number.sub Number.mul].
    apply round_isPercentage. apply scaled_complement_range. lra.
  - (* two finite counts *)
    cbn [Number.truthy Number.leb Number.ltb Number.gtb] in *.
    assert (Ha : 0 < a).
    { apply Qnot_le_lt. intros Hle. apply Qle_bool_iff in Hle. congruence. }
    assert (Hb : 0 <= b).
    { apply Qle_bool_iff. now apply negb_false_iff. }
    assert (Hba : b <= a).
    { apply Qle_bool_iff. now apply negb_false_iff. }
    cbn [Number.div].
    assert (Hz : Qeq_bool a 0 = false).
    { destruct (Qeq_bool a 0); [discriminate Hguard | reflexivity]. }
    rewrite Hz. cbn [Number.sub Number.mul].
    apply round_isPercentage. apply scaled_complement_range.
    apply rnd_unit. apply quotient_range; assumption.
Qed.

Lemma ratio_zero (o s : number) :
  Number.gtb s o = true \/ Number.leb o (Fin 0) = true
  \/ Number.truthy o = false \/ Number.truthy s = false ->
  calculateCompressionRatio R o s = Fin 0.
Proof.
  intros H. unfold calculateCompressionRatio.
  destruct (negb (Number.truthy o) || negb (Number.truthy s)
            || Number.leb o (Fin 0) || Number.ltb s (Fin 0)) eqn:Hguard;
    [reflexivity|].
  repeat (apply orb_false_iff in Hguard as [Hguard ?]).
  destruct H as [-> | [H | [H | H]]]; [reflexivity | congruence | |].
  - rewrite H in Hguard. discriminate.
  - rewrite H in *. discriminate.
Qed.

End Ratio.

(** C10, as the code has it.  For every pair of numbers other than the
    pair of two positive infinities, [calculateCompressionRatio] returns
    an integer from 0 to 100; it returns 0 whenever the summary count is
    greater than the original count, the original count is zero or less,
    or either count is zero or [NaN].  This holds for whatever rounding
    the arithmetic applies. *)
Theorem compression_ratio_is_a_percentage :
  forall (R : Rounding) (originalWordCount summaryWordCount : number),
    ~ (originalWordCount = PosInf /\ summaryWordCount = PosInf) ->
    isPercentage
      (calculateCompressionRatio R originalWordCount summaryWordCount)
    /\ (Number.gtb summaryWordCount originalWordCount = true
        \/ Number.leb originalWordCount (Fin 0) = true
        \/ Number.truthy originalWordCount = false
        \/ Number.truthy summaryWordCount = false ->
        calculateCompressionRatio R originalWordCount summaryWordCount
        = Fin 0).
Proof.
  intros R o s Hnot. split.
  - apply ratio_isPercentage. exact Hnot.
  - apply ratio_zero.
Qed.

(** A summary of 250 words for a text of 1000 words: 75. *)
Lemma compression_ratio_witness :
  ~ (Fin 1000 = PosInf /\ Fin 250 = PosInf)
  /\ calculateCompressionRatio exactRounding (Fin 1000) (Fin 250) = Fin 75
  /\ isPercentage (calculateCompressionRatio exactRounding (Fin 1000) (Fin 250)).
Proof.
  assert (H : ~ (Fin 1000 = PosInf /\ Fin 250 = PosInf))
    by (intros [H _]; discriminate H).
  split; [exact H|]. split; [reflexivity|].
  exact (proj1 (compression_ratio_is_a_percentage exactRounding
                  (Fin 1000) (Fin 250) H)).
Defined.

(** C10 fails as stated: for two infinite counts no guard applies, the
    quotient of the two infinities is [NaN], and so is the result. *)
Lemma compression_ratio_of_infinities :
  calculateCompressionRatio exactRounding PosInf PosInf = NaN
  /\ ~ isPercentage (calculateCompressionRatio exactRounding PosInf PosInf).
Proof.
  split; [reflexivity|].
  intros (n & _ & H). discriminate H.
Qed.


(* ===================================================================== *)
(** * More on the two stage clients *)
(* ===================================================================== *)

Section MoreOnExecute.

Context {A : Type}.
Variable P : Policy.
Variable body : nat -> Outcome A.

(** The first attempt that succeeds ends the call with its value. *)
Lemma execute_returns_at k a :
  1 <= k <= maxRetries P ->
  retriedBefore P body k = true ->
  body k = Returned a ->
  outcome (execute P None body) = Returned a /\
  remoteCalls (events (execute P None body)) = k /\
  exists pre, events (execute P None body) = pre ++ [Fetch k].
Proof.
  intros Hk Hall Hb. unfold execute, retriedBefore in *.
  destruct (retryLoop_reaches P body k (maxRetries P) 1 None)
    as (pre & last & Hcalls & Hev & Hout); try lia; auto.
  rewrite Hev, Hout.
  replace (maxRetries P - (k - 1)) with (S (maxRetries P - k)) by lia.
  rewrite (retryLoop_returned P body _ k last a) by (auto; lia).
  cbn [events outcome]. repeat split.
  - rewrite remoteCalls_app, Hcalls. simpl. lia.
  - exists pre; reflexivity.
Qed.

(** When every attempt fails and is retried, the call gives up after
    [maxRetries] calls with the message of the last failure. *)
Lemma execute_gives_up t :
  1 <= maxRetries P ->
  retriedBefore P body (maxRetries P) = true ->
  continuesAt P body (maxRetries P) = true ->
  body (maxRetries P) = Threw t ->
  outcome (execute P None body) = Threw (exhausted P (Some t)) /\
  remoteCalls (events (execute P None body)) = maxRetries P.
Proof.
  intros Hmax Hall Hc Hb. unfold execute, retriedBefore in *.
  destruct (retryLoop_reaches P body (maxRetries P) (maxRetries P) 1 None)
    as (pre & last & Hcalls & Hev & Hout); try lia; auto.
  rewrite Hev, Hout.
  replace (maxRetries P - (maxRetries P - 1)) with 1 by lia.
  unfold continuesAt in Hc. rewrite Hb in Hc.
  destruct (onCatch P (maxRetries P) t) as [t'|waits] eqn:Hoc;
    [discriminate|].
  rewrite (retryLoop_last P body 0 last t waits Hb Hoc).
  cbn [events outcome]. split; [reflexivity|].
  rewrite remoteCalls_app, Hcalls. cbn [remoteCalls].
  rewrite (onCatch_no_call P _ _ _ Hoc). lia.
Qed.

(** The waits of the loop from attempt [a] to the attempt [k] that ends
    it. *)
Lemma retryLoop_waits_exact k :
  forall fuel a lastError slept,
    1 <= a <= k -> k <= maxRetries P -> S k - a <= fuel ->
    forallb (continuesAt P body) (seq a (k - a)) = true ->
    continuesAt P body k = false \/ k = maxRetries P ->
    waitsBeforeCalls slept (events (retryLoop P body fuel a lastError))
    = slept :: map (waitAfter P body) (seq a (k - a)).
Proof.
  intros fuel a. revert fuel.
  remember (k - a) as d eqn:Hd. revert a Hd.
  induction d as [|d IH]; intros a Hd fuel lastError slept Ha Hk Hf Hall Hend.
  - assert (a = k) by lia. subst a.
    destruct fuel as [|fuel]; [lia|]. cbn [retryLoop seq map].
    destruct (Nat.leb_spec k (maxRetries P)); [|lia].
    unfold continuesAt in Hend.
    destruct (body k) as [r|t] eqn:Hb; [reflexivity|].
    destruct (onCatch P k t) as [t'|waits] eqn:Hoc; [reflexivity|].
    destruct Hend as [Hend | ->]; [discriminate|].
    rewrite Nat.eqb_refl. cbn [events waitsBeforeCalls].
    destruct (onCatch_waits P _ _ _ Hoc) as [-> | ->]; reflexivity.
  - cbn [seq forallb] in Hall. apply andb_true_iff in Hall as [Hc Hall].
    destruct fuel as [|fuel]; [lia|].
    pose proof Hc as Hc'. unfold continuesAt in Hc'.
    destruct (body a) as [r|t] eqn:Hb; [discriminate|].
    destruct (onCatch P a t) as [t'|waits] eqn:Hoc; [discriminate|].
    rewrite (retryLoop_continue P body fuel a lastError t waits)
      by (auto; lia).
    cbv zeta. cbn [events waitsBeforeCalls seq map]. f_equal.
    assert (Hw :
      waitsBeforeCalls 0
        (waits ++ Sleep (backoff a)
           :: events (retryLoop P body fuel (S a) (Some t)))
      = waitsBeforeCalls (waitAfter P body a)
          (events (retryLoop P body fuel (S a) (Some t)))).
    { unfold waitAfter, rateLimitedAt. rewrite Hb, Hoc.
      destruct (onCatch_waits P _ _ _ Hoc) as [-> | ->];
        cbn [app waitsBeforeCalls]; f_equal; lia. }
    rewrite Hw.
    apply (IH (S a)); auto; lia.
Qed.

(** The wait before attempt [j + 1] is [waitAfter j], for each attempt
    [j] before the one that ends the call. *)
Lemma execute_waits_exact k :
  1 <= k <= maxRetries P ->
  retriedBefore P body k = true ->
  continuesAt P body k = false \/ k = maxRetries P ->
  retryWaits (events (execute P None body))
  = map (waitAfter P body) (seq 1 (k - 1)).
Proof.
  intros Hk Hall Hend. unfold execute, retryWaits.
  rewrite (retryLoop_waits_exact k (maxRetries P) 1 None 0%Z);
    auto; try lia.
Qed.

(** A message that contains a non-empty text is not empty. *)
Lemma includes_truthy s sub :
  Js.truthy sub = true -> Js.includes s sub = true -> Js.truthy s = true.
Proof.
  destruct s; [|reflexivity].
  destruct sub; [discriminate|]. cbn. discriminate.
Qed.

End MoreOnExecute.

Lemma append_truthy s1 s2 :
  Js.truthy s1 = true -> Js.truthy (s1 ++ s2)%string = true.
Proof. destruct s1; [discriminate | reflexivity]. Qed.

Lemma orElse_truthy o d : Js.truthy d = true -> Js.truthy (Js.orElse o d) = true.
Proof.
  intros Hd. unfold Js.orElse. destruct o as [s|]; [|exact Hd].
  destruct (Js.truthy s) eqn:E; [exact E | exact Hd].
Qed.

(** Every error a call can end with has a message that is not empty,
    provided the messages the policy and the checks supply are not. *)
Lemma classified_truthy P rejected t :
  (forall e, rejected = Some e -> Js.truthy (err_message e) = true) ->
  Js.truthy (timeoutMessage P) = true ->
  Js.truthy (exhaustedPrefix P) = true ->
  (forall m, isValidationMessage P m = true -> Js.truthy m = true) ->
  classified P rejected t ->
  Js.truthy (shownMessage t) = true.
Proof.
  intros Hrej Htime Hpre Hval (e & -> & [H | [-> | [H | (last & H)]]]);
    cbn [shownMessage]; auto.
  injection H as ->. cbn [exhausted newError err_message].
  apply append_truthy. exact Hpre.
Qed.

Lemma extractTextFromFile_checks_truthy file type e :
  extractTextFromFile_checks file type = Some e ->
  Js.truthy (err_message e) = true.
Proof.
  unfold extractTextFromFile_checks.
  destruct file as [f|]; [|intros [= <-]; reflexivity].
  repeat match goal with
         | |- context [if ?c then _ else _] => destruct c
         end; intros [= <-]; reflexivity.
Qed.

Lemma generateSummary_checks_truthy text fileName e :
  generateSummary_checks text fileName = Some e ->
  Js.truthy (err_message e) = true.
Proof.
  unfold generateSummary_checks.
  repeat match goal with
         | |- context [if ?c then _ else _] => destruct c
         end; intros [= <-]; reflexivity.
Qed.

(** X1.  [extractTextFromFile] returns the text of the first attempt the
    server answers with success: after exactly that many remote calls,
    with the name of the file and the kind it was asked for. *)
Theorem extraction_returns_the_first_text :
  forall (f : File) (type : FileKind)
         (responses : nat -> FetchResult ExtractPayload)
         (k st : nat) (err : option string) (p : ExtractPayload),
    extractTextFromFile_checks (Some f) type = None ->
    1 <= k <= 3 ->
    retriedBefore (extractPolicy type)
      (fun a => extractAttempt f type (responses a)) k = true ->
    responses k = Responded true st (JsonValue (mkBody err true p)) ->
    outcome (extractTextFromFile (Some f) type responses)
    = Returned (mkExtractedText (result_text p) (result_wordCount p)
                  (result_characterCount p) (file_name f) type)
    /\ remoteCalls (events (extractTextFromFile (Some f) type responses)) = k.
Proof.
  intros f type responses k st err p Hchecks Hk Hall Hresp.
  rewrite extractTextFromFile_execute, Hchecks.
  destruct (execute_returns_at (extractPolicy type)
              (fun a => extractAttempt f type (responses a)) k
              (mkExtractedText (result_text p) (result_wordCount p)
                 (result_characterCount p) (file_name f) type)
              Hk Hall) as (Ho & Hn & _).
  - cbv beta. rewrite Hresp. reflexivity.
  - split; assumption.
Qed.

(** The text arrives on the third attempt. *)
Lemma extraction_returns_the_first_text_witness :
  extractTextFromFile_checks (Some reportPdf) pdf = None
  /\ 1 <= 3 <= 3
  /\ retriedBefore (extractPolicy pdf)
       (fun a => extractAttempt reportPdf pdf (failsTwice a)) 3 = true
  /\ outcome (extractTextFromFile (Some reportPdf) pdf failsTwice)
     = Returned (mkExtractedText "hello world" 2 11 "report.pdf" pdf)
  /\ remoteCalls (events (extractTextFromFile (Some reportPdf) pdf failsTwice))
     = 3.
Proof.
  assert (Hk : 1 <= 3 <= 3) by lia.
  split; [reflexivity|]. split; [exact Hk|]. split; [reflexivity|].
  exact (extraction_returns_the_first_text reportPdf pdf failsTwice 3 200
           None twoWords eq_refl Hk eq_refl eq_refl).
Defined.

(** X2.  When every attempt fails in a way that is retried, the call ends
    after exactly [MAX_RETRIES] remote calls with the error whose message
    is the prefix of the client, the count, and the message of the last
    failure, read from whatever was thrown, an [Error] or not, or
    "Unknown error" when that value has no message. *)
Theorem retried_failures_use_up_the_attempts :
  forall (A : Type) (P : Policy) (body : nat -> Outcome A) (t : Thrown),
    1 <= maxRetries P ->
    retriedBefore P body (maxRetries P) = true ->
    continuesAt P body (maxRetries P) = true ->
    body (maxRetries P) = Threw t ->
    outcome (execute P None body) = Threw (exhausted P (Some t))
    /\ remoteCalls (events (execute P None body)) = maxRetries P.
Proof.
  intros A P body t. apply execute_gives_up.
Qed.

(** The server refuses three times. *)
Lemma retried_failures_witness :
  1 <= maxRetries (extractPolicy pdf)
  /\ outcome (extractTextFromFile (Some reportPdf) pdf
                (fun _ => refused 500 "Internal error"))
     = Threw (ThrownError
                (newError "Failed after 3 attempts: Internal error"))
  /\ remoteCalls
       (events (extractTextFromFile (Some reportPdf) pdf
                  (fun _ => refused 500 "Internal error"))) = 3.
Proof.
  assert (Hmax : 1 <= maxRetries (extractPolicy pdf)) by (cbn; lia).
  split; [exact Hmax|].
  exact (retried_failures_use_up_the_attempts ExtractedText
           (extractPolicy pdf)
           (fun a => extractAttempt reportPdf pdf
                       (refused 500 "Internal error"))
           (ThrownError (newError "Internal error"))
           Hmax eq_refl eq_refl eq_refl).
Defined.

(** The message of a thrown value that is not an [Error] is reported
    too. *)
Example message_of_a_value_that_is_no_error :
  outcome (extractTextFromFile (Some reportPdf) pdf
             (fun _ => Rejected (ThrownOther (Some "boom"))))
  = Threw (ThrownError (newError "Failed after 3 attempts: boom"))
  /\ outcome (extractTextFromFile (Some reportPdf) pdf
                (fun _ => Rejected (ThrownOther None)))
     = Threw (ThrownError (newError "Failed after 3 attempts: Unknown error")).
Proof. split; reflexivity. Qed.

(** X3.  In a call that ends at attempt [k], the wait before attempt
    [j + 1] is, for every [j] below [k], the backoff
    [2 ^ (j - 1) * 1000], preceded by the wait [2 ^ j] times the unit of
    the client when failure [j] was a rate limit. *)
Theorem waits_are_backoff_plus_rate_limit :
  forall (A : Type) (P : Policy) (body : nat -> Outcome A) (k : nat),
    1 <= k <= maxRetries P ->
    retriedBefore P body k = true ->
    continuesAt P body k = false \/ k = maxRetries P ->
    retryWaits (events (execute P None body))
    = map (waitAfter P body) (seq 1 (k - 1)).
Proof.
  intros A P body k. apply execute_waits_exact.
Qed.

(** Two plain failures, then the text: 1000 ms and 2000 ms. *)
Lemma waits_are_backoff_witness :
  1 <= 3 <= maxRetries (extractPolicy pdf)
  /\ retryWaits (events (extractTextFromFile (Some reportPdf) pdf failsTwice))
     = [1000; 2000]%Z.
Proof.
  assert (Hk : 1 <= 3 <= maxRetries (extractPolicy pdf)) by (cbn; lia).
  split; [exact Hk|].
  exact (waits_are_backoff_plus_rate_limit ExtractedText (extractPolicy pdf)
           (fun a => extractAttempt reportPdf pdf (failsTwice a)) 3
           Hk eq_refl (or_introl eq_refl)).
Defined.

Lemma extractTextFromFile_message file type responses t :
  outcome (extractTextFromFile file type responses) = Threw t ->
  Js.truthy (shownMessage t) = true.
Proof.
  intros H.
  assert (Hs : settled (extractPolicy type)
                 (extractTextFromFile_checks file type)
                 (extractTextFromFile file type responses)).
  { unfold extractTextFromFile. destruct file; apply execute_settled. }
  destruct Hs as [_ [(a & Ha) | (t' & Ht & Hc)]]; [congruence|].
  assert (t' = t) by congruence. subst t'.
  apply (classified_truthy (extractPolicy type)
           (extractTextFromFile_checks file type));
    [ intros e; apply extractTextFromFile_checks_truthy
    | apply timeoutMessage_truthy
    | reflexivity
    | intros m Hm
    | exact Hc ].
  cbn in Hm. apply orb_true_iff in Hm as [Hm | Hm];
    eapply includes_truthy; try exact Hm; reflexivity.
Qed.

Lemma generateSummary_message text fileName len answers t :
  outcome (generateSummary text fileName len answers) = Threw t ->
  Js.truthy (shownMessage t) = true.
Proof.
  intros H.
  pose proof (execute_settled summaryPolicy
                (fun a => summaryAttempt (answers a))
                (generateSummary_checks text fileName)) as Hs.
  fold (generateSummary text fileName len answers) in Hs.
  destruct Hs as [_ [(a & Ha) | (t' & Ht & Hc)]]; [congruence|].
  assert (t' = t) by congruence. subst t'.
  apply (classified_truthy summaryPolicy
           (generateSummary_checks text fileName));
    [ intros e; apply generateSummary_checks_truthy
    | reflexivity
    | reflexivity
    | intros m Hm
    | exact Hc ].
  cbn in Hm.
  apply orb_true_iff in Hm as [Hm | Hm];
    [apply orb_true_iff in Hm as [Hm | Hm]|];
    eapply includes_truthy; try exact Hm; reflexivity.
Qed.

(** X4.  Whatever the file, the text and the server do, an error thrown
    by [extractTextFromFile] or by [generateSummary] has a message that is
    not empty. *)
Theorem stage_errors_have_a_message :
  forall (file : option File) (type : FileKind)
         (responses : nat -> FetchResult ExtractPayload)
         (text fileName : string) (len : SummaryLength)
         (answers : nat -> FetchResult SummaryPayload) (t : Thrown),
    (outcome (extractTextFromFile file type responses) = Threw t
     \/ outcome (generateSummary text fileName len answers) = Threw t) ->
    Js.truthy (shownMessage t) = true.
Proof.
  intros file type responses text fileName len answers t [H | H].
  - exact (extractTextFromFile_message file type responses t H).
  - exact (generateSummary_message text fileName len answers t H).
Qed.

(** The timeout of the first attempt. *)
Lemma stage_errors_have_a_message_witness :
  outcome (extractTextFromFile (Some reportPdf) pdf timeoutThenText)
  = Threw (ThrownError (newError (timeoutMessage (extractPolicy pdf))))
  /\ Js.truthy
       (shownMessage
          (ThrownError (newError (timeoutMessage (extractPolicy pdf)))))
     = true.
Proof.
  split; [reflexivity|].
  exact (stage_errors_have_a_message (Some reportPdf) pdf timeoutThenText
           "" "" medium noSummary
           (ThrownError (newError (timeoutMessage (extractPolicy pdf))))
           (or_introl eq_refl)).
Defined.

(** X5.  [generateSummary] passes its checks exactly for the texts
    [validateTextForSummary] accepts, given a file name that is not
    empty; an accepted text comes with its word count, which lies between
    10 and 15,000. *)
Theorem summary_checks_match_the_validator :
  forall text fileName : string,
    (generateSummary_checks text fileName = None <->
     text_isValid (validateTextForSummary text) = true
     /\ Js.truthy fileName = true)
    /\ (text_isValid (validateTextForSummary text) = false
        \/ (text_wordCount (validateTextForSummary text)
            = Some (countWords text)
            /\ (10 <= countWords text <= 15000)%Z)).
Proof.
  intros text fileName.
  unfold generateSummary_checks, validateTextForSummary.
  fold (countWords text).
  destruct (Js.truthy text); cbn [negb orb].
  2:{ split; [split; [discriminate | intros [H _]; discriminate H]
             | left; reflexivity]. }
  destruct (String.length (Js.trim text) =? 0)%nat.
  { split; [split; [discriminate | intros [H _]; discriminate H]
           | left; reflexivity]. }
  destruct (Z.ltb_spec (countWords text) 10).
  { cbn. split; [split|left; reflexivity].
    - destruct (Js.truthy fileName); discriminate.
    - intros [H0 _]; discriminate H0. }
  destruct (Z.ltb_spec 15000 (countWords text)).
  { cbn. split; [split|left; reflexivity].
    - destruct (Js.truthy fileName); discriminate.
    - intros [H1 _]; discriminate H1. }
  cbn. split.
  - destruct (Js.truthy fileName); cbn; split; auto; try discriminate.
    intros [_ Hf]; discriminate Hf.
  - right. split; [reflexivity | lia].
Qed.

(* ===================================================================== *)
(** * More on the two validations of a file *)
(* ===================================================================== *)

(** X6.  [validateFile] and the checks of [extractTextFromFile] accept the
    same files in every case but one: for a PDF they always agree, and
    for an image they agree whenever the MIME type starts with [image/]
    exactly when it contains one of the five listed image types. *)
Theorem validations_differ_only_on_image_types :
  forall (file : option File) (type : FileKind),
    (forall f, file = Some f -> type = image ->
       Js.startsWith (file_type f) "image/"
       = existsb (fun t => Js.includes (file_type f) t) validImageTypes) ->
    (isValid (validateFile file type) = true
     <-> extractTextFromFile_checks file type = None).
Proof.
  intros file [|] Hmime; [apply validations_agree_on_pdf|].
  unfold validateFile, extractTextFromFile_checks.
  destruct file as [f|]; [|split; discriminate].
  destruct (file_size f =? 0)%N; [split; discriminate|].
  destruct (MAX_FILE_SIZE <? file_size f)%N; [split; discriminate|].
  cbn [andb]. rewrite (Hmime f eq_refl eq_refl).
  change (existsb
            (fun ext => Js.endsWith (Js.toLowerCase (file_name f)) ext)
            validExtensions)
    with (matchesImageExtension (Js.toLowerCase (file_name f))).
  destruct (negb (existsb (fun t => Js.includes (file_type f) t)
                    validImageTypes)
            && negb (matchesImageExtension (Js.toLowerCase (file_name f))));
    cbn; split; intros; try discriminate; reflexivity.
Qed.

(** A PNG photo. *)
Lemma validations_differ_only_witness :
  (forall f, Some photoPng = Some f -> image = image ->
     Js.startsWith (file_type f) "image/"
     = existsb (fun t => Js.includes (file_type f) t) validImageTypes)
  /\ isValid (validateFile (Some photoPng) image) = true
  /\ extractTextFromFile_checks (Some photoPng) image = None.
Proof.
  assert (H : forall f, Some photoPng = Some f -> image = image ->
     Js.startsWith (file_type f) "image/"
     = existsb (fun t => Js.includes (file_type f) t) validImageTypes)
    by (intros f [= <-] _; reflexivity).
  split; [exact H|]. split; [reflexivity|].
  exact (proj1 (validations_differ_only_on_image_types (Some photoPng) image
                  H) eq_refl).
Defined.

(** X11.  A file [processFiles] adds to the page, with a size that is not
    zero and at most 50 MB, passes the checks of [extractTextFromFile]
    for the kind it was added with. *)
Theorem uploads_pass_the_extraction_checks :
  forall (f : File) (kind : FileKind),
    uploadKind f = Some kind ->
    (0 < file_size f <= MAX_FILE_SIZE)%N ->
    extractTextFromFile_checks (Some f) kind = None.
Proof.
  intros f kind Hkind [Hpos Hmax].
  unfold extractTextFromFile_checks.
  destruct (N.eqb_spec (file_size f) 0) as [E|_]; [lia|].
  destruct (N.ltb_spec MAX_FILE_SIZE (file_size f)) as [E|_]; [lia|].
  unfold uploadKind in Hkind. cbv zeta in Hkind.
  destruct (String.eqb (file_type f) "application/pdf"
            || Js.endsWith (Js.toLowerCase (file_name f)) ".pdf") eqn:Hpdf.
  - injection Hkind as <-. cbn [andb].
    apply orb_true_iff in Hpdf as [Ht | Hn].
    + apply String.eqb_eq in Ht. rewrite Ht. reflexivity.
    + rewrite Hn.
      destruct (Js.includes (file_type f) "pdf"); reflexivity.
  - destruct (Js.startsWith (file_type f) "image/"
              || Js.endsWith (Js.toLowerCase (file_name f)) ".jpg"
              || Js.endsWith (Js.toLowerCase (file_name f)) ".jpeg"
              || Js.endsWith (Js.toLowerCase (file_name f)) ".png"
              || Js.endsWith (Js.toLowerCase (file_name f)) ".gif"
              || Js.endsWith (Js.toLowerCase (file_name f)) ".bmp") eqn:Himg;
      [|discriminate].
    injection Hkind as <-. cbn [andb].
    unfold matchesImageExtension. cbn [existsb append].
    destruct (Js.startsWith (file_type f) "image/"); [reflexivity|].
    destruct (Js.endsWith (Js.toLowerCase (file_name f)) ".jpg");
      [reflexivity|].
    destruct (Js.endsWith (Js.toLowerCase (file_name f)) ".jpeg");
      [reflexivity|].
    destruct (Js.endsWith (Js.toLowerCase (file_name f)) ".png");
      [reflexivity|].
    destruct (Js.endsWith (Js.toLowerCase (file_name f)) ".gif");
      [reflexivity|].
    destruct (Js.endsWith (Js.toLowerCase (file_name f)) ".bmp");
      [reflexivity | discriminate Himg].
Qed.

(** The report and the photo. *)
Lemma uploads_pass_the_extraction_checks_witness :
  uploadKind photoPng = Some image
  /\ (0 < file_size photoPng <= MAX_FILE_SIZE)%N
  /\ extractTextFromFile_checks (Some photoPng) image = None.
Proof.
  assert (Hsz : (0 < file_size photoPng <= MAX_FILE_SIZE)%N)
    by (split; vm_compute; [reflexivity | discriminate]).
  split; [reflexivity|]. split; [exact Hsz|].
  exact (uploads_pass_the_extraction_checks photoPng image eq_refl Hsz).
Defined.

(* ===================================================================== *)
(** * More on the page *)
(* ===================================================================== *)

(** What [extractOne] does to the page when the call returns. *)
Lemma extractOne_returned uploadedFile responses prev extracted :
  outcome (extractTextFromFile (Some (file uploadedFile))
             (type uploadedFile) responses) = Returned extracted ->
  extractOne uploadedFile responses prev
  = updateFile uploadedFile
      (fun f => set_isExtracting (Some false)
                  (set_extractedText (Some extracted)
                     (set_isExtracting (Some true) f)))
      prev.
Proof.
  intros Ho. unfold extractOne. rewrite Ho.
  rewrite (updateFile_twice _ _ (set_isExtracting (Some true)))
    by reflexivity.
  reflexivity.
Qed.

(** [extractOne] is one update of the dispatched file, which keeps the
    id, only writes the fields of the extraction stage, and leaves the
    file settled. *)
Lemma extractOne_update uploadedFile responses prev :
  exists change,
    extractOne uploadedFile responses prev
    = updateFile uploadedFile change prev
    /\ (forall f, id (change f) = id f)
    /\ (forall f, sameButExtraction f (change f))
    /\ (forall f, needsExtraction (change f) = false).
Proof.
  destruct (outcome (extractTextFromFile (Some (file uploadedFile))
                       (type uploadedFile) responses)) as [x|t] eqn:Ho.
  - eexists. split; [exact (extractOne_returned _ _ _ _ Ho)|].
    split; [intros f; reflexivity|].
    split; [intros f; destruct f; reflexivity|].
    intros f; reflexivity.
  - eexists. split; [exact (extractOne_threw _ _ _ _ Ho)|].
    split; [intros f; reflexivity|].
    split; [intros f; destruct f; reflexivity|].
    intros f. unfold needsExtraction.
    cbn [extractedText extractionError set_isExtracting
         set_extractionError Js.truthyOpt].
    rewrite (extractTextFromFile_message _ _ _ _ Ho).
    apply andb_false_r.
Qed.

Lemma sameButExtraction_refl f : sameButExtraction f f.
Proof. destruct f; reflexivity. Qed.

(** X7.  One pass of [extractTextFromFiles] changes nothing but the three
    extraction fields of the records that carry the id of the dispatched
    file: the page keeps its files in place, every other record is left
    as it was, and in the records of that id the results, flags and
    errors of the other five stages are untouched, whether the extraction
    succeeds or fails. *)
Theorem extraction_touches_one_file_and_one_stage :
  forall (uploadedFile : UploadedFile)
         (responses : nat -> FetchResult ExtractPayload)
         (prev : list UploadedFile),
    Forall2
      (fun f f' =>
         id f' = id f
         /\ (id f <> id uploadedFile -> f' = f)
         /\ sameButExtraction f f')
      prev (extractOne uploadedFile responses prev).
Proof.
  intros uploadedFile responses prev.
  destruct (extractOne_update uploadedFile responses prev)
    as (change & -> & Hid & Hsame & _).
  unfold updateFile.
  induction prev as [|f prev IH]; cbn [map]; constructor; [|exact IH].
  destruct (String.eqb_spec (id f) (id uploadedFile)) as [E|E].
  - split; [apply Hid|]. split; [contradiction | apply Hsame].
  - split; [reflexivity|]. split; [reflexivity | apply sameButExtraction_refl].
Qed.

(** [extractEach] settles every file that is settled already or shares
    its id with a file of the list. *)
Lemma extractEach_settles filesToProcess responses :
  forall k prev,
    Forall (fun f => needsExtraction f = false
                     \/ exists g, In g filesToProcess /\ id g = id f) prev ->
    Forall (fun f => needsExtraction f = false)
           (extractEach filesToProcess responses k prev).
Proof.
  induction filesToProcess as [|uploadedFile rest IH]; intros k prev Hprev;
    cbn [extractEach].
  - eapply Forall_impl; [|exact Hprev].
    intros f [H | (g & [] & _)]. exact H.
  - apply IH.
    destruct (extractOne_update uploadedFile (responses k) prev)
      as (change & -> & Hid & _ & Hsettled).
    unfold updateFile. apply Forall_forall.
    intros f' Hf'. apply in_map_iff in Hf' as (f & <- & Hin).
    rewrite Forall_forall in Hprev. specialize (Hprev f Hin).
    destruct (String.eqb_spec (id f) (id uploadedFile)) as [E|E].
    + left. apply Hsettled.
    + destruct Hprev as [H | (g & [<- | Hg] & Hgid)];
        [left; exact H | congruence |].
      right. exists g. split; [exact Hg | exact Hgid].
Qed.

(** X8.  After [extractTextFromFiles] no file is left for it: every file
    that was selected, or that shares its id with a selected file, has a
    text or an error message that is not empty, so [canExtractText] is
    false and a second run selects nothing and leaves the page as it
    is. *)
Theorem extraction_settles_every_file :
  forall (uploadedFiles : list UploadedFile)
         (responses later : nat -> nat -> FetchResult ExtractPayload)
         (prev : list UploadedFile),
    (forall f, In f prev -> needsExtraction f = true ->
       exists g, In g uploadedFiles /\ needsExtraction g = true
                 /\ id g = id f) ->
    let after := extractTextFromFiles uploadedFiles responses prev in
    Forall (fun f => needsExtraction f = false) after
    /\ fst (canExtractText after) = false
    /\ extractTextFromFiles after later after = after.
Proof.
  intros uploadedFiles responses later prev Hprev after.
  assert (Hall : Forall (fun f => needsExtraction f = false) after).
  { unfold after, extractTextFromFiles. apply extractEach_settles.
    apply Forall_forall. intros f Hin.
    destruct (needsExtraction f) eqn:E; [right | left; reflexivity].
    destruct (Hprev f Hin E) as (g & Hg & Hneed & Hid).
    exists g. split; [|exact Hid]. apply filter_In. auto. }
  assert (Hnone : filter needsExtraction after = []).
  { clear -Hall. induction Hall as [|f l Hf _ IH]; cbn; [reflexivity|].
    rewrite Hf. exact IH. }
  split; [exact Hall|]. split.
  - unfold canExtractText, someFile. cbn [fst].
    clear -Hall. induction Hall as [|f l Hf _ IH]; cbn; [reflexivity|].
    rewrite Hf. exact IH.
  - unfold extractTextFromFiles. rewrite Hnone. reflexivity.
Qed.

(** The pending report, whichever way its extraction ends. *)
Lemma extraction_settles_every_file_witness :
  (forall f, In f [pendingReport] -> needsExtraction f = true ->
     exists g, In g [pendingReport] /\ needsExtraction g = true
               /\ id g = id f)
  /\ Forall (fun f => needsExtraction f = false)
       (extractTextFromFiles [pendingReport] (fun _ => timeoutThenText)
          [pendingReport])
  /\ fst (canExtractText
            (extractTextFromFiles [pendingReport] (fun _ => timeoutThenText)
               [pendingReport])) = false.
Proof.
  assert (H : forall f, In f [pendingReport] -> needsExtraction f = true ->
     exists g, In g [pendingReport] /\ needsExtraction g = true
               /\ id g = id f).
  { intros f Hin Hneed. exists f. auto. }
  split; [exact H|].
  pose proof (extraction_settles_every_file [pendingReport]
                (fun _ => timeoutThenText) (fun _ => timeoutThenText)
                [pendingReport] H) as (H1 & H2 & _).
  split; [exact H1 | exact H2].
Defined.

(** X9.  When [extractTextFromFile] returns a text for the file that
    [extractTextFromFiles] dispatched, the page holds, for each record of
    that id, the record with this text and [isExtracting] cleared.  That
    record is no longer selected for extraction and is selected at once
    for the summary, the structure analysis and the quality analysis,
    provided none of these has a result or an error yet; it is not
    selected for the specialized analysis as long as it has no structure
    analysis, and whether it is selected for the image analysis does not
    change. *)
Theorem successful_extraction_unlocks_three_stages :
  forall (uploadedFile : UploadedFile)
         (responses : nat -> FetchResult ExtractPayload)
         (prev : list UploadedFile) (extracted : ExtractedText)
         (f : UploadedFile),
    outcome (extractTextFromFile (Some (file uploadedFile))
               (type uploadedFile) responses) = Returned extracted ->
    In f prev -> id f = id uploadedFile ->
    generatedSummary f = None -> Js.truthyOpt (summaryError f) = false ->
    documentStructure f = None ->
    Js.truthyOpt (structureAnalysisError f) = false ->
    documentQuality f = None ->
    Js.truthyOpt (qualityAnalysisError f) = false ->
    let after :=
      set_isExtracting (Some false)
        (set_extractedText (Some extracted)
           (set_isExtracting (Some true) f)) in
    In after (extractOne uploadedFile responses prev)
    /\ eligible StageExtract after = false
    /\ eligible StageSummarize after = true
    /\ eligible StageAnalyzeStructure after = true
    /\ eligible StageAnalyzeQuality after = true
    /\ eligible StageAnalyzeSpecialized after = false
    /\ eligible StageAnalyzeImage after = eligible StageAnalyzeImage f.
Proof.
  intros uploadedFile responses prev extracted f Ho Hin Hid
         Hs Hse Hd Hde Hq Hqe after.
  split.
  { rewrite (extractOne_returned _ _ _ _ Ho).
    exact (updateFile_In uploadedFile
             (fun g => set_isExtracting (Some false)
                         (set_extractedText (Some extracted)
                            (set_isExtracting (Some true) g)))
             prev f Hin Hid). }
  unfold after, eligible, needsExtraction, needsSummary, needsStructure,
    needsQuality, needsSpecialized, needsImageAnalysis.
  cbn [extractedText extractionError generatedSummary summaryError
       documentStructure structureAnalysisError documentQuality
       qualityAnalysisError specializedAnalysis specializedAnalysisError
       imageAnalysis imageAnalysisError type
       set_isExtracting set_extractedText present].
  rewrite Hs, Hse, Hd, Hde, Hq, Hqe. cbn. repeat split.
Qed.

(** The pending report, extracted at the first attempt. *)
Lemma successful_extraction_witness :
  outcome (extractTextFromFile (Some (file pendingReport))
             (type pendingReport) (fun _ => extracted))
  = Returned (mkExtractedText "hello world" 2 11 "report.pdf" pdf)
  /\ map (fun st => eligible st pendingReport) allStages
     = [true; false; false; false; false; false]
  /\ In (set_isExtracting (Some false)
           (set_extractedText
              (Some (mkExtractedText "hello world" 2 11 "report.pdf" pdf))
              (set_isExtracting (Some true) pendingReport)))
        (extractOne pendingReport (fun _ => extracted) [pendingReport])
  /\ map (fun st =>
            eligible st
              (set_isExtracting (Some false)
                 (set_extractedText
                    (Some (mkExtractedText "hello world" 2 11 "report.pdf"
                             pdf))
                    (set_isExtracting (Some true) pendingReport))))
         allStages
     = [false; true; false; true; true; false].
Proof.
  split; [reflexivity|]. split; [reflexivity|].
  pose proof (successful_extraction_unlocks_three_stages pendingReport
                (fun _ => extracted) [pendingReport]
                (mkExtractedText "hello world" 2 11 "report.pdf" pdf)
                pendingReport eq_refl (or_introl eq_refl) eq_refl
                eq_refl eq_refl eq_refl eq_refl eq_refl eq_refl)
    as (H0 & H1 & H2 & H3 & H4 & H5 & H6).
  split; [exact H0|].
  cbn [map allStages]. rewrite H1, H2, H3, H4, H5, H6. reflexivity.
Defined.

Lemma filter_none {X} (p : X -> bool) (l : list X) :
  Forall (fun x => p x = false) l -> filter p l = [].
Proof.
  induction 1 as [|x l Hx _ IH]; cbn; [reflexivity|].
  rewrite Hx. exact IH.
Qed.

Lemma updateFile_noLaterResults uploadedFile change prev :
  (forall f, noLaterResults f -> noLaterResults (change f)) ->
  Forall noLaterResults prev ->
  Forall noLaterResults (updateFile uploadedFile change prev).
Proof.
  intros Hch Hall. apply updateFile_Forall; [exact Hall|]. auto.
Qed.

Lemma extractOne_noLaterResults uploadedFile responses prev :
  Forall noLaterResults prev ->
  Forall noLaterResults (extractOne uploadedFile responses prev).
Proof.
  intros H. unfold extractOne.
  destruct (outcome _) as [x|t];
    repeat apply updateFile_noLaterResults; auto;
    intros f Hf; exact Hf.
Qed.

Lemma analyzeImageOne_noLaterResults uploadedFile fetched prev :
  Forall noLaterResults prev ->
  Forall noLaterResults (analyzeImageOne uploadedFile fetched prev).
Proof.
  intros H. unfold analyzeImageOne.
  destruct (analyzeImage fetched) as [x|t];
    repeat apply updateFile_noLaterResults; auto;
    intros f Hf; exact Hf.
Qed.

Lemma extractEach_noLaterResults files responses :
  forall k prev,
    Forall noLaterResults prev ->
    Forall noLaterResults (extractEach files responses k prev).
Proof.
  induction files as [|uf rest IH]; intros k prev H; cbn [extractEach];
    [exact H|].
  apply IH. apply extractOne_noLaterResults. exact H.
Qed.

Lemma analyzeImages_noLaterResults files fetched :
  forall k prev,
    Forall noLaterResults prev ->
    Forall noLaterResults
      (forEachFile (fun j uf => analyzeImageOne uf (fetched j)) files k prev).
Proof.
  induction files as [|uf rest IH]; intros k prev H; cbn [forEachFile];
    [exact H|].
  apply IH. apply analyzeImageOne_noLaterResults. exact H.
Qed.

(** X10.  A comprehensive run started on files none of which has an
    extracted text only extracts the texts and analyses the images: the
    four later steps filter the array the run was started with, in which
    no file has a text, and select nothing.  So the run leaves every file
    without summary, structure, quality and specialized result, whatever
    the services answer. *)
Theorem comprehensive_run_on_new_files_stops_after_two_steps :
  forall (uploadedFiles : list UploadedFile) (len : SummaryLength)
         (services : Services) (prev : list UploadedFile),
    Forall (fun f => extractedText f = None) uploadedFiles ->
    runComprehensiveAnalysis uploadedFiles len services prev
    = analyzeImages uploadedFiles (imageFetches services)
        (extractTextFromFiles uploadedFiles (extraction services) prev)
    /\ (Forall noLaterResults prev ->
        Forall noLaterResults
          (runComprehensiveAnalysis uploadedFiles len services prev)).
Proof.
  intros uploadedFiles len services prev Hnew.
  assert (Heq :
    runComprehensiveAnalysis uploadedFiles len services prev
    = analyzeImages uploadedFiles (imageFetches services)
        (extractTextFromFiles uploadedFiles (extraction services) prev)).
  { unfold runComprehensiveAnalysis, analyzeDocumentStructures,
      analyzeDocumentQualities, performSpecializedAnalyses,
      generateSummaries.
    cbv zeta.
    rewrite (filter_none needsSummary), (filter_none needsSpecialized),
      (filter_none needsQuality), (filter_none needsStructure);
      [reflexivity | | | |];
      (eapply Forall_impl; [|exact Hnew]); intros f Hf; cbv beta in Hf;
      unfold needsStructure, needsQuality, needsSpecialized, needsSummary;
      rewrite Hf; reflexivity. }
  split; [exact Heq|].
  intros Hprev. rewrite Heq.
  unfold analyzeImages, extractTextFromFiles.
  apply analyzeImages_noLaterResults. apply extractEach_noLaterResults.
  exact Hprev.
Qed.

(** The pending report, with services that always answer. *)
Lemma comprehensive_run_witness :
  Forall (fun f => extractedText f = None) [pendingReport]
  /\ map structureState
       (runComprehensiveAnalysis [pendingReport] medium allAnswer
          [pendingReport])
     = [NotStarted]
  /\ runComprehensiveAnalysis [pendingReport] medium allAnswer [pendingReport]
     = analyzeImages [pendingReport] (imageFetches allAnswer)
         (extractTextFromFiles [pendingReport] (extraction allAnswer)
            [pendingReport]).
Proof.
  assert (H : Forall (fun f => extractedText f = None) [pendingReport])
    by (repeat constructor).
  split; [exact H|]. split; [reflexivity|].
  exact (proj1 (comprehensive_run_on_new_files_stops_after_two_steps
                  [pendingReport] medium allAnswer [pendingReport] H)).
Defined.

(* ===================================================================== *)
(** * Strings *)
(* ===================================================================== *)

Lemma chars_append s1 s2 : chars (s1 ++ s2)%string = chars s1 ++ chars s2.
Proof.
  induction s1 as [|c s1 IH]; cbn; [reflexivity|].
  unfold chars in IH. rewrite IH. reflexivity.
Qed.

Lemma chars_rev s : chars (Js.rev s) = List.rev (chars s).
Proof.
  induction s as [|c s IH]; cbn; [reflexivity|].
  fold (chars s). rewrite <- IH.
  change (list_ascii_of_string (Js.rev s ++ String c EmptyString))
    with (chars (Js.rev s ++ String c EmptyString)).
  rewrite chars_append. reflexivity.
Qed.

Lemma chars_toLowerCase s : chars (Js.toLowerCase s) = map Js.lowerChar (chars s).
Proof.
  induction s as [|c s IH]; cbn; [reflexivity|].
  unfold chars in IH. rewrite IH. reflexivity.
Qed.

Lemma lowerChar_not_capital c : isCapital (Js.lowerChar c) = false.
Proof.
  destruct c as [[|] [|] [|] [|] [|] [|] [|] [|]]; reflexivity.
Qed.

(** The pieces of a split are made of code units of the string (or of the
    piece under way) that are not white space. *)
Lemma splitSpacesFrom_chars (Q : ascii -> Prop) s :
  forall cur inSep,
    Forall Q (chars cur) ->
    Forall (fun c => Js.isSpace c = false -> Q c) (chars s) ->
    Forall (fun piece => Forall Q (chars piece))
           (Js.splitSpacesFrom cur inSep s).
Proof.
  induction s as [|c s IH]; intros cur inSep Hcur Hs; cbn.
  - constructor; [|constructor].
    rewrite chars_rev. apply Forall_rev. exact Hcur.
  - cbn in Hs. apply Forall_cons_iff in Hs as [Hc Hs].
    destruct (Js.isSpace c) eqn:Hsp.
    + destruct inSep.
      * apply IH; assumption.
      * constructor.
        -- rewrite chars_rev. apply Forall_rev. exact Hcur.
        -- apply IH; [constructor | exact Hs].
    + apply IH; [|exact Hs]. cbn. constructor; auto.
Qed.

Lemma keepWordsAndSpaces_chars (Q : ascii -> Prop) s :
  Forall Q (chars s) ->
  Forall (fun c => (Js.isWordChar c || Js.isSpace c = true) /\ Q c)
         (chars (keepWordsAndSpaces s)).
Proof.
  induction s as [|c s IH]; cbn; intros H; [constructor|].
  apply Forall_cons_iff in H as [Hc H].
  destruct (Js.isWordChar c || Js.isSpace c) eqn:E; cbn; auto.
Qed.

Lemma uniqueFrom_spec words :
  forall seen,
    NoDup (uniqueFrom seen words)
    /\ (forall w, In w (uniqueFrom seen words) -> In w words /\ ~ In w seen).
Proof.
  induction words as [|w rest IH]; intros seen; cbn.
  - split; [constructor | intros w []].
  - destruct (memString w seen) eqn:E.
    + destruct (IH seen) as [Hnd Hin]. split; [exact Hnd|].
      intros x Hx. destruct (Hin x Hx). auto.
    + destruct (IH (w :: seen)) as [Hnd Hin]. split.
      * constructor; [|exact Hnd].
        intros Hw. destruct (Hin w Hw) as [_ Hnot]. apply Hnot. left.
        reflexivity.
      * intros x [<- | Hx].
        -- split; [left; reflexivity|].
           intros Hs. apply memString_In in Hs. congruence.
        -- destruct (Hin x Hx) as [H1 H2]. split; [right; exact H1|].
           intros Hs. apply H2. right. exact Hs.
Qed.

Lemma firstn_In {X} n (l : list X) x : In x (firstn n l) -> In x l.
Proof.
  revert n. induction l as [|y l IH]; intros [|n]; cbn;
    try (intros []; fail).
  intros [H | H]; [left; exact H | right; exact (IH n H)].
Qed.

Lemma NoDup_firstn {X} n (l : list X) : NoDup l -> NoDup (firstn n l).
Proof.
  revert n. induction l as [|x l IH]; intros [|n] H; cbn; try constructor.
  - inversion H as [|? ? Hx Hl]; subst. intros Hin. apply Hx.
    exact (firstn_In n l x Hin).
  - inversion H; subst. auto.
Qed.

(** X12.  Whatever the description, [extractTagsFromDescription] returns
    at most five tags, all different, each longer than two code units,
    none a common word, and each made of small letters, digits and
    underscores only. *)
Theorem tags_are_few_distinct_and_clean :
  forall description : string,
    List.length (extractTagsFromDescription description) <= 5
    /\ NoDup (extractTagsFromDescription description)
    /\ Forall wellFormedTag (extractTagsFromDescription description).
Proof.
  intros description. unfold extractTagsFromDescription.
  set (words := filter _ _).
  destruct (uniqueFrom_spec words []) as [Hnd Hin].
  split; [apply firstn_le_length|].
  split; [apply NoDup_firstn; exact Hnd|].
  apply Forall_forall. intros tag Htag.
  apply firstn_In in Htag. apply Hin in Htag as [Htag _].
  unfold words in Htag. apply filter_In in Htag as [Hpiece Hok].
  apply andb_true_iff in Hok as [Hlen Hcommon].
  apply Nat.ltb_lt in Hlen. apply negb_true_iff in Hcommon.
  split; [exact Hlen|]. split.
  { intros Hc. apply memString_In in Hc. congruence. }
  assert (Hall :
    Forall (fun piece =>
              Forall (fun c => Js.isWordChar c = true /\ isCapital c = false)
                     (chars piece))
           (Js.splitSpaces (keepWordsAndSpaces (Js.toLowerCase description)))).
  { unfold Js.splitSpaces. apply splitSpacesFrom_chars; [constructor|].
    pose proof (keepWordsAndSpaces_chars
                  (fun c => isCapital c = false)
                  (Js.toLowerCase description)) as Hk.
    eapply Forall_impl; [|apply Hk].
    - intros c [Hw Hcap] Hsp. rewrite Hsp, orb_false_r in Hw. auto.
    - rewrite chars_toLowerCase. apply Forall_map.
      apply Forall_forall. intros c _. apply lowerChar_not_capital. }
  rewrite Forall_forall in Hall. exact (Hall tag Hpiece).
Qed.

(* ===================================================================== *)
(** * More on the image analysis route *)
(* ===================================================================== *)

(** X13.  For an image the route accepts and whose bytes it can read, no
    behaviour of the two inference calls makes the route or its client
    fail: the route answers 200 with [success: true], the client returns
    the analysis, which lists at most ten objects, never more than
    [totalObjects], and reports the type and the size of the file. *)
Theorem image_route_absorbs_inference_failures :
  forall (f : File) (caption : Upstream (option string))
         (detection : Upstream (list DetectedObject)) (now : string),
    Js.startsWith (file_type f) "image/" = true ->
    (file_size f <= MAX_IMAGE_SIZE)%N ->
    exists analysis warning,
      POST (Returned (Some f)) (Returned tt) caption detection now
      = mkRouteResponse 200 (AnalysisBody true analysis warning)
      /\ analyzeImage
           (Returned (POST (Returned (Some f)) (Returned tt) caption
                        detection now))
         = Returned analysis
      /\ List.length (objects (objectDetection analysis)) <= 10
      /\ List.length (objects (objectDetection analysis))
         <= totalObjects (objectDetection analysis)
      /\ format (metadata analysis) = file_type f
      /\ fileSize (metadata analysis) = file_size f.
Proof.
  intros f caption detection now Hty Hsz.
  unfold POST. rewrite Hty. cbn [negb].
  destruct (N.ltb_spec MAX_IMAGE_SIZE (file_size f)) as [Hbig|_]; [lia|].
  destruct (analyzeImageWithHuggingFace caption) as [description|apiError].
  - eexists. eexists. split; [reflexivity|].
    split; [reflexivity|].
    cbn [fullAnalysis objectDetection objects totalObjects metadata format
         fileSize].
    split; [apply firstn_le_length|].
    split; [|split; reflexivity].
    rewrite length_firstn. apply Nat.le_min_r.
  - eexists. eexists. split; [reflexivity|].
    split; [reflexivity|].
    cbn. repeat split; lia.
Qed.

(** A PNG photo, a captioning call that fails and a detection call that
    fails. *)
Lemma image_route_absorbs_witness :
  Js.startsWith (file_type photoPng) "image/" = true
  /\ (file_size photoPng <= MAX_IMAGE_SIZE)%N
  /\ exists analysis warning,
       POST (Returned (Some photoPng)) (Returned tt) captionUnavailable
         noObjects "2024-05-01T10:00:00.000Z"
       = mkRouteResponse 200 (AnalysisBody true analysis warning).
Proof.
  assert (Hsz : (file_size photoPng <= MAX_IMAGE_SIZE)%N)
    by (vm_compute; discriminate).
  split; [reflexivity|]. split; [exact Hsz|].
  destruct (image_route_absorbs_inference_failures photoPng
              captionUnavailable noObjects "2024-05-01T10:00:00.000Z"
              eq_refl Hsz) as (analysis & warning & H & _).
  exists analysis, warning. exact H.
Defined.

(** X14.  The image route answers 400 exactly when the request has no
    file, a file whose type does not start with [image/], or a file of
    more than 10 MB, whatever the inference API would do.  The client then
    throws an error with the message of the route, which is not empty, and
    the page stores that message as the file's [imageAnalysisError]. *)
Theorem image_route_refusals :
  forall (file : option File) (arrayBuffer : Outcome unit)
         (caption : Upstream (option string))
         (detection : Upstream (list DetectedObject)) (now : string)
         (uploadedFile : UploadedFile) (prev : list UploadedFile),
    (status (POST (Returned file) arrayBuffer caption detection now) = 400
     <-> refusedImage file = true)
    /\ (refusedImage file = false
        \/ exists msg,
             Js.truthy msg = true
             /\ analyzeImage
                  (Returned (POST (Returned file) arrayBuffer caption
                               detection now))
                = Threw (ThrownError (newError msg))
             /\ analyzeImageOne uploadedFile
                  (Returned (POST (Returned file) arrayBuffer caption
                               detection now)) prev
                = updateFile uploadedFile
                    (fun g => set_isAnalyzingImage (Some false)
                                (set_imageAnalysisError (Some msg)
                                   (set_isAnalyzingImage (Some true) g)))
                    prev).
Proof.
  intros file arrayBuffer caption detection now uploadedFile prev.
  assert (Hstore : forall response msg,
    analyzeImage (Returned response) = Threw (ThrownError (newError msg)) ->
    analyzeImageOne uploadedFile (Returned response) prev
    = updateFile uploadedFile
        (fun g => set_isAnalyzingImage (Some false)
                    (set_imageAnalysisError (Some msg)
                       (set_isAnalyzingImage (Some true) g)))
        prev).
  { intros response msg H. unfold analyzeImageOne. rewrite H.
    rewrite (updateFile_twice _ _ (set_isAnalyzingImage (Some true)))
      by reflexivity.
    reflexivity. }
  unfold refusedImage.
  destruct file as [f|].
  2:{ split; [split; reflexivity|]. right.
      exists "No file provided"%string.
      split; [reflexivity|]. split; [reflexivity|].
      apply Hstore. reflexivity. }
  unfold POST.
  destruct (Js.startsWith (file_type f) "image/"); cbn [negb orb].
  2:{ split; [split; reflexivity|]. right.
      exists "File must be an image"%string.
      split; [reflexivity|]. split; [reflexivity|].
      apply Hstore. reflexivity. }
  destruct (MAX_IMAGE_SIZE <? file_size f)%N.
  { split; [split; reflexivity|]. right.
    exists "Image file too large. Maximum size is 10MB."%string.
    split; [reflexivity|]. split; [reflexivity|].
    apply Hstore. reflexivity. }
  split; [|left; reflexivity].
  destruct arrayBuffer as [u|t]; [|split; discriminate].
  destruct (analyzeImageWithHuggingFace caption); split; discriminate.
Qed.

(* ===================================================================== *)
(** * Trimming and counting words *)
(* ===================================================================== *)

Lemma append_empty_r s : (s ++ "")%string = s.
Proof. induction s as [|c s IH]; cbn; [reflexivity | now rewrite IH]. Qed.

Lemma append_assoc s1 s2 s3 :
  ((s1 ++ s2) ++ s3)%string = (s1 ++ (s2 ++ s3))%string.
Proof. induction s1 as [|c s1 IH]; cbn; [reflexivity | now rewrite IH]. Qed.

Lemma rev_append s1 s2 :
  Js.rev (s1 ++ s2)%string = (Js.rev s2 ++ Js.rev s1)%string.
Proof.
  induction s1 as [|c s1 IH]; cbn.
  - now rewrite append_empty_r.
  - rewrite IH. apply append_assoc.
Qed.

Lemma rev_involutive s : Js.rev (Js.rev s) = s.
Proof.
  induction s as [|c s IH]; cbn; [reflexivity|].
  rewrite rev_append, IH. reflexivity.
Qed.

(** What is left of a string trimmed at its start is empty or starts with
    a code unit that is not white space. *)
Lemma trimStart_head s :
  Js.trimStart s = EmptyString
  \/ exists c rest, Js.trimStart s = String c rest /\ Js.isSpace c = false.
Proof.
  induction s as [|c s IH]; cbn; [left; reflexivity|].
  destruct (Js.isSpace c) eqn:E; [exact IH|].
  right. exists c, s. auto.
Qed.

Lemma trimStart_fixed s :
  s = EmptyString \/ (exists c rest, s = String c rest /\ Js.isSpace c = false) ->
  Js.trimStart s = s.
Proof.
  intros [-> | (c & rest & -> & Hc)]; cbn; [reflexivity|].
  rewrite Hc. reflexivity.
Qed.

Lemma trimStart_idempotent s : Js.trimStart (Js.trimStart s) = Js.trimStart s.
Proof. apply trimStart_fixed. apply trimStart_head. Qed.

(** Trimming the start stops at the latest at a last code unit that is
    not white space. *)
Lemma trimStart_last s c :
  Js.isSpace c = false ->
  exists rest,
    Js.trimStart (s ++ String c EmptyString)
    = (rest ++ String c EmptyString)%string.
Proof.
  intros Hc. induction s as [|d s IH]; cbn.
  - rewrite Hc. exists EmptyString. reflexivity.
  - destruct (Js.isSpace d); [exact IH|].
    exists (String d s). reflexivity.
Qed.

Lemma trimEnd_fixed s : Js.trimStart (Js.rev s) = Js.rev s -> Js.trimEnd s = s.
Proof.
  intros H. unfold Js.trimEnd. rewrite H. apply rev_involutive.
Qed.

(** Trimming twice is trimming once. *)
Lemma trim_idempotent s : Js.trim (Js.trim s) = Js.trim s.
Proof.
  unfold Js.trim.
  set (x := Js.trimStart s).
  assert (Hend : Js.trimEnd (Js.trimEnd x) = Js.trimEnd x).
  { apply trimEnd_fixed. unfold Js.trimEnd. rewrite rev_involutive.
    apply trimStart_idempotent. }
  assert (Hstart : Js.trimStart (Js.trimEnd x) = Js.trimEnd x).
  { apply trimStart_fixed.
    destruct (trimStart_head s) as [E | (c & rest & E & Hc)]; fold x in E.
    - left. rewrite E. reflexivity.
    - right. rewrite E. unfold Js.trimEnd. cbn [Js.rev].
      destruct (trimStart_last (Js.rev rest) c Hc) as (r & ->).
      rewrite rev_append. cbn. exists c, (Js.rev r). auto. }
  rewrite Hstart. exact Hend.
Qed.

Lemma trimStart_chars (Q : ascii -> Prop) s :
  Forall Q (chars s) -> Forall Q (chars (Js.trimStart s)).
Proof.
  induction s as [|c s IH]; cbn; intros H; [constructor|].
  destruct (Js.isSpace c); [|exact H].
  apply IH. now apply Forall_cons_iff in H.
Qed.

Lemma trim_chars (Q : ascii -> Prop) s :
  Forall Q (chars s) -> Forall Q (chars (Js.trim s)).
Proof.
  intros H. unfold Js.trim, Js.trimEnd.
  rewrite chars_rev. apply Forall_rev. apply trimStart_chars.
  rewrite chars_rev. apply Forall_rev. apply trimStart_chars. exact H.
Qed.

(** A trimmed string that is not empty has a code unit that is not white
    space. *)
Lemma trim_hasWord s : Js.truthy (Js.trim s) = true -> hasWord (Js.trim s).
Proof.
  unfold Js.trim, Js.trimEnd.
  destruct (trimStart_head (Js.rev (Js.trimStart s)))
    as [E | (c & rest & E & Hc)]; rewrite E.
  - discriminate.
  - intros _. exists c. split; [|exact Hc].
    rewrite chars_rev. apply in_rev. rewrite List.rev_involutive.
    left. reflexivity.
Qed.

Lemma length_append s1 s2 :
  String.length (s1 ++ s2)%string = String.length s1 + String.length s2.
Proof. induction s1 as [|c s1 IH]; cbn; [reflexivity | now rewrite IH]. Qed.

Lemma length_rev s : String.length (Js.rev s) = String.length s.
Proof.
  induction s as [|c s IH]; cbn; [reflexivity|].
  rewrite length_append, IH. cbn. lia.
Qed.

Lemma splitSpacesFrom_piece s :
  forall cur inSep,
    cur <> EmptyString \/ hasWord s ->
    exists piece,
      In piece (Js.splitSpacesFrom cur inSep s) /\ 0 < String.length piece.
Proof.
  induction s as [|c s IH]; intros cur inSep H; cbn.
  - destruct H as [H | (c & [] & _)].
    exists (Js.rev cur). split; [left; reflexivity|].
    rewrite length_rev. destruct cur; [congruence | cbn; lia].
  - destruct (Js.isSpace c) eqn:Hsp.
    + assert (Hs : cur <> EmptyString \/ hasWord s).
      { destruct H as [H | (d & [<- | Hd] & Hnot)];
          [left; exact H | congruence | right; exists d; auto]. }
      destruct inSep; [exact (IH cur true Hs)|].
      destruct Hs as [Hcur | Hw].
      * exists (Js.rev cur). split; [left; reflexivity|].
        rewrite length_rev. destruct cur; [congruence | cbn; lia].
      * destruct (IH EmptyString true (or_intror Hw)) as (piece & Hin & Hl).
        exists piece. split; [right; exact Hin | exact Hl].
    + apply IH. left. discriminate.
Qed.

(** A string with a code unit that is not white space has a word. *)
Lemma wordsOf_hasWord s : hasWord s -> 1 <= List.length (wordsOf s).
Proof.
  intros H.
  destruct (splitSpacesFrom_piece s EmptyString false (or_intror H))
    as (piece & Hin & Hl).
  assert (Hf : In piece (wordsOf s)).
  { unfold wordsOf. apply filter_In. split; [exact Hin|].
    now apply Nat.ltb_lt. }
  destruct (wordsOf s); [destruct Hf | cbn; lia].
Qed.

Lemma removeSpaces_hasWord s :
  Js.truthy (removeSpaces s) = true -> hasWord s.
Proof.
  induction s as [|c s IH]; cbn; [discriminate|].
  destruct (Js.isSpace c) eqn:E.
  - intros H. destruct (IH H) as (d & Hd & Hnot).
    exists d. split; [right; exact Hd | exact Hnot].
  - intros _. exists c. split; [left; reflexivity | exact E].
Qed.

Lemma truthy_length s : Js.truthy s = negb (String.length s =? 0)%nat.
Proof. destruct s; reflexivity. Qed.

(* ===================================================================== *)
(** * Properties of the summary route and of its client *)
(* ===================================================================== *)

(** The message of a failure of the route is not empty and never contains
    "rate limit"; it is one of three fixed messages or contains "too
    short". *)
Lemma summaryFailure_message error :
  exists e,
    summaryFailure error = SummaryFailed e
    /\ Js.truthy e = true
    /\ Js.includes e "rate limit" = false.
Proof.
  unfold summaryFailure. destruct error as [err|].
  2:{ eexists. split; [reflexivity|]. split; reflexivity. }
  destruct (Js.includes (err_message err) "rate limit") eqn:Hr.
  { eexists. split; [reflexivity|]. split; reflexivity. }
  destruct (Js.includes (err_message err) "timeout").
  { eexists. split; [reflexivity|]. split; reflexivity. }
  destruct (Js.includes (err_message err) "too short") eqn:Hs.
  - eexists. split; [reflexivity|]. split; [|exact Hr].
    apply (includes_truthy _ "too short"); [reflexivity | exact Hs].
  - eexists. split; [reflexivity|]. split; reflexivity.
Qed.

(** An error answer of the route is never taken for a rate limit by the
    client. *)
Lemma failed_answer_is_no_rate_limit e :
  Js.truthy e = true -> Js.includes e "rate limit" = false ->
  forall st j,
    match summaryAttempt
            (Responded false st
               (JsonValue (mkBody (Some e) false absentSummary))) with
    | Returned _ => True
    | Threw t =>
        t = ThrownError (newError e)
        /\ match onCatch summaryPolicy j t with
           | Continue (_ :: _) => False
           | _ => True
           end
    end.
Proof.
  intros Ht Hr st j. cbn [summaryAttempt negb]. unfold notOkError.
  cbn [body_error]. unfold Js.orElse. rewrite Ht. split; [reflexivity|].
  unfold onCatch. cbn [err_name err_message newError].
  change (String.eqb "Error" "AbortError") with false. cbv iota.
  destruct (isValidationMessage summaryPolicy e); [exact I|].
  rewrite Hr. exact I.
Qed.

Lemma summary_answer_is_no_rate_limit R request summaryText keyPointsText j :
  rateLimitedAt summaryPolicy
    (fun _ => summaryAttempt
                (summaryFetched
                   (summaryPOST R request summaryText keyPointsText))) j
  = false.
Proof.
  unfold rateLimitedAt.
  assert (Hfail : forall error,
    match summaryAttempt (summaryFetched (summaryFailure error)) with
    | Returned _ => false
    | Threw t =>
        match onCatch summaryPolicy j t with
        | Continue (_ :: _) => true
        | _ => false
        end
    end = false).
  { intros error.
    destruct (summaryFailure_message error) as (e & -> & Ht & Hr).
    cbn [summaryFetched].
    pose proof (failed_answer_is_no_rate_limit e Ht Hr 500 j) as H.
    destruct (summaryAttempt _) as [x|t]; [reflexivity|].
    destruct H as [_ H].
    destruct (onCatch summaryPolicy j t) as [t'|[|w ws]];
      [reflexivity | reflexivity | destruct H]. }
  unfold summaryPOST.
  destruct request as [req|error]; [|apply Hfail].
  destruct (request_text req) as [text|]; [|reflexivity].
  destruct (negb (Js.truthy text)
            || (String.length (Js.trim text) =? 0)%nat); [reflexivity|].
  cbv zeta.
  destruct (Z.of_nat (List.length (wordsOf (Js.trim text))) <? 10)%Z;
    [reflexivity|].
  destruct summaryText as [generated|error]; [|apply Hfail].
  destruct keyPointsText as [points|error]; [|apply Hfail].
  destruct (negb (Js.truthy (Js.trim generated))
            || (String.length (Js.trim generated) <? 20)%nat) eqn:Hshort;
    [apply Hfail|].
  apply orb_false_iff in Hshort as [Htruthy _].
  apply negb_false_iff in Htruthy.
  cbn [summaryFetched summaryAttempt negb body_success body_payload
       result_summary result_keyPoints].
  rewrite Htruthy. cbn [andb].
  destruct (Js.truthy (Js.trim points)); reflexivity.
Qed.

(** X15.  Whatever the requests and the language model do, no answer of
    the summary route is taken for a rate limit by [generateSummary]: the
    route replaces a rate-limit error of the model by a message that
    starts with a capital letter, which the test of the client does not
    match.  So [generateSummary], served by the route, never inserts the
    rate-limit wait: each wait is the plain backoff. *)
Theorem summary_route_answers_are_never_rate_limits :
  forall (R : Rounding) (requests : nat -> Outcome SummaryRequest)
         (summaries points : nat -> Outcome string) (j : nat),
    rateLimitedAt summaryPolicy
      (fun a => summaryAttempt
                  (summaryFetched
                     (summaryPOST R (requests a) (summaries a) (points a))))
      j = false
    /\ waitAfter summaryPolicy
         (fun a => summaryAttempt
                     (summaryFetched
                        (summaryPOST R (requests a) (summaries a)
                           (points a))))
         j = backoff j.
Proof.
  intros R requests summaries points j.
  assert (H :
    rateLimitedAt summaryPolicy
      (fun a => summaryAttempt
                  (summaryFetched
                     (summaryPOST R (requests a) (summaries a) (points a))))
      j = false).
  { exact (summary_answer_is_no_rate_limit R (requests j) (summaries j)
             (points j) j). }
  split; [exact H|].
  unfold waitAfter. rewrite H. lia.
Qed.

(** A text that passes the checks of the client passes those of the
    route, which counts the same words. *)
Lemma client_text_passes_the_route text fileName :
  generateSummary_checks text fileName = None ->
  Js.truthy (Js.trim text) = true
  /\ (String.length (Js.trim (Js.trim text)) =? 0)%nat = false
  /\ Z.of_nat (List.length (wordsOf (Js.trim (Js.trim text))))
     = countWords text
  /\ (10 <= countWords text)%Z.
Proof.
  unfold generateSummary_checks.
  destruct (Js.truthy text); [|discriminate]. cbn [negb orb].
  destruct (String.length (Js.trim text) =? 0)%nat eqn:Hlen; [discriminate|].
  destruct (Js.truthy fileName); [|discriminate]. cbn [negb].
  destruct (Z.ltb_spec (countWords text) 10); [discriminate|].
  intros _. rewrite trim_idempotent.
  split; [rewrite truthy_length, Hlen; reflexivity|].
  split; [exact Hlen|]. split; [reflexivity | assumption].
Qed.

(** X16.  A request [generateSummary] sends after its checks passed is
    never refused by the route as empty or too short: the route either
    fails with status 500 or answers the summary, and then the original
    word count it reports is the count the client computed. *)
Theorem summary_route_never_refuses_a_checked_text :
  forall (R : Rounding) (text fileName : string) (req : SummaryRequest)
         (summaryText keyPointsText : Outcome string),
    generateSummary_checks text fileName = None ->
    request_text req = Some (Js.trim text) ->
    match summaryPOST R (Returned req) summaryText keyPointsText with
    | SummaryRefused _ => False
    | SummaryFailed _ => True
    | SummaryDone payload _ =>
        result_originalWordCount payload = countWords text
    end.
Proof.
  intros R text fileName req summaryText keyPointsText Hchecks Hreq.
  destruct (client_text_passes_the_route text fileName Hchecks)
    as (Htruthy & Hlen & Hcount & Hten).
  unfold summaryPOST. rewrite Hreq, Htruthy, Hlen. cbn [negb orb].
  cbv zeta. rewrite Hcount.
  destruct (Z.ltb_spec (countWords text) 10); [lia|].
  assert (Hfail : forall error,
    match summaryFailure error with
    | SummaryRefused _ => False
    | SummaryFailed _ => True
    | SummaryDone payload _ =>
        result_originalWordCount payload = countWords text
    end) by (intros error; exact I).
  destruct summaryText as [generated|error]; [|apply Hfail].
  destruct keyPointsText as [points|error]; [|apply Hfail].
  destruct (negb (Js.truthy (Js.trim generated))
            || (String.length (Js.trim generated) <? 20)%nat);
    [apply Hfail | reflexivity].
Qed.

(** The request of the ten words, with a model that answers. *)
Lemma summary_route_never_refuses_witness :
  generateSummary_checks tenWords "notes.pdf" = None
  /\ request_text tenWordsRequest = Some (Js.trim tenWords)
  /\ match summaryPOST exactRounding (Returned tenWordsRequest)
             (Returned "Ten small numbers, counted in order.")
             (Returned "numbers") with
     | SummaryRefused _ => False
     | SummaryFailed _ => True
     | SummaryDone payload _ =>
         result_originalWordCount payload = countWords tenWords
     end.
Proof.
  split; [reflexivity|]. split; [reflexivity|].
  exact (summary_route_never_refuses_a_checked_text exactRounding tenWords
           "notes.pdf" tenWordsRequest
           (Returned "Ten small numbers, counted in order.")
           (Returned "numbers") eq_refl eq_refl).
Defined.

(** X17.  When the summary the model returns has fewer than 20 code units
    once trimmed, the route fails with "Generated summary is too short or
    empty", and [generateSummary] takes that message for a validation
    error: it throws it after this single remote call and does not try
    again, whatever later attempts would bring. *)
Theorem short_generated_summary_is_not_retried :
  forall (R : Rounding) (text fileName : string) (len : SummaryLength)
         (req : SummaryRequest) (generated points : string)
         (later : nat -> FetchResult SummaryPayload),
    generateSummary_checks text fileName = None ->
    request_text req = Some (Js.trim text) ->
    String.length (Js.trim generated) < 20 ->
    let responses :=
      fun a =>
        match a with
        | 1 => summaryFetched
                 (summaryPOST R (Returned req) (Returned generated)
                    (Returned points))
        | _ => later a
        end in
    outcome (generateSummary text fileName len responses)
    = Threw (ThrownError
               (newError "Generated summary is too short or empty"))
    /\ remoteCalls (events (generateSummary text fileName len responses)) = 1.
Proof.
  intros R text fileName len req generated points later Hchecks Hreq Hshort
         responses.
  destruct (client_text_passes_the_route text fileName Hchecks)
    as (Htruthy & Hlen & Hcount & Hten).
  assert (Hroute :
    summaryPOST R (Returned req) (Returned generated) (Returned points)
    = SummaryFailed "Generated summary is too short or empty").
  { unfold summaryPOST. rewrite Hreq, Htruthy, Hlen. cbn [negb orb].
    cbv zeta. rewrite Hcount.
    destruct (Z.ltb_spec (countWords text) 10); [lia|].
    apply Nat.ltb_lt in Hshort. rewrite Hshort, orb_true_r. reflexivity. }
  rewrite generateSummary_execute, Hchecks.
  destruct (execute_stops_at summaryPolicy
              (fun attempt => summaryAttempt (responses attempt)) 1
              (ThrownError
                 (newError "Generated summary is too short or empty"))
              (ThrownError
                 (newError "Generated summary is too short or empty")))
    as (Ho & Hn & _).
  - cbn. lia.
  - reflexivity.
  - unfold responses. rewrite Hroute. reflexivity.
  - reflexivity.
  - split; assumption.
Qed.

(** The model answers "Too short.". *)
Lemma short_generated_summary_witness :
  generateSummary_checks tenWords "notes.pdf" = None
  /\ request_text tenWordsRequest = Some (Js.trim tenWords)
  /\ String.length (Js.trim "Too short.") < 20
  /\ remoteCalls
       (events
          (generateSummary tenWords "notes.pdf" medium
             (fun a =>
                match a with
                | 1 => summaryFetched
                         (summaryPOST exactRounding (Returned tenWordsRequest)
                            (Returned "Too short.") (Returned "numbers"))
                | _ => noSummary a
                end))) = 1.
Proof.
  assert (Hlen : String.length (Js.trim "Too short.") < 20)
    by (vm_compute; repeat constructor).
  split; [reflexivity|]. split; [reflexivity|]. split; [exact Hlen|].
  exact (proj2 (short_generated_summary_is_not_retried exactRounding tenWords
                  "notes.pdf" medium tenWordsRequest "Too short." "numbers"
                  noSummary eq_refl eq_refl Hlen)).
Defined.

Lemma Qeq_bool_inject a b : Qeq_bool (inject_Z a) (inject_Z b) = (a =? b)%Z.
Proof. unfold Qeq_bool, inject_Z. cbn. now rewrite !Z.mul_1_r. Qed.

Lemma Qle_bool_inject a b : Qle_bool (inject_Z a) (inject_Z b) = (a <=? b)%Z.
Proof. unfold Qle_bool, inject_Z. cbn. now rewrite !Z.mul_1_r. Qed.

(** X18.  In every successful answer of the route the original count is
    at least 10 and the summary count at least 1.  When the summary has no
    more words than the original, the compression ratio of the answer is
    the ratio [calculateCompressionRatio] gives for the two word counts of
    that answer, an integer from 0 to 100.  Otherwise the summary is
    longer than the original and [calculateCompressionRatio] gives 0 for
    the two counts, whatever the route computed. *)
Theorem route_ratio_is_the_client_ratio :
  forall (R : Rounding) (request : Outcome SummaryRequest)
         (summaryText keyPointsText : Outcome string)
         (payload : SummaryPayload) (ratio : number),
    summaryPOST R request summaryText keyPointsText
    = SummaryDone payload ratio ->
    (10 <= result_originalWordCount payload)%Z
    /\ (1 <= result_summaryWordCount payload)%Z
    /\ (((result_summaryWordCount payload
          <= result_originalWordCount payload)%Z
         /\ ratio
            = calculateCompressionRatio R
                (Fin (inject_Z (result_originalWordCount payload)))
                (Fin (inject_Z (result_summaryWordCount payload)))
         /\ isPercentage ratio)
        \/ ((result_originalWordCount payload
             < result_summaryWordCount payload)%Z
            /\ calculateCompressionRatio R
                 (Fin (inject_Z (result_originalWordCount payload)))
                 (Fin (inject_Z (result_summaryWordCount payload)))
               = Fin 0)).
Proof.
  intros R request summaryText keyPointsText payload ratio Hdone.
  unfold summaryPOST in Hdone.
  assert (Hfail : forall error, summaryFailure error <> SummaryDone payload ratio).
  { intros error. unfold summaryFailure. discriminate. }
  destruct request as [req|error]; [|now apply Hfail in Hdone].
  destruct (request_text req) as [text|]; [|discriminate].
  destruct (negb (Js.truthy text)
            || (String.length (Js.trim text) =? 0)%nat); [discriminate|].
  cbv zeta in Hdone.
  destruct (Z.ltb_spec (Z.of_nat (List.length (wordsOf (Js.trim text)))) 10)
    as [|Hten]; [discriminate|].
  destruct summaryText as [generated|error]; [|now apply Hfail in Hdone].
  destruct keyPointsText as [points|error]; [|now apply Hfail in Hdone].
  destruct (negb (Js.truthy (Js.trim generated))
            || (String.length (Js.trim generated) <? 20)%nat) eqn:Hshort;
    [now apply Hfail in Hdone|].
  apply orb_false_iff in Hshort as [Htruthy _].
  apply negb_false_iff in Htruthy.
  pose proof (wordsOf_hasWord _ (trim_hasWord generated Htruthy)) as Hone.
  injection Hdone as <- <-.
  cbn [result_summaryWordCount result_originalWordCount] in *.
  set (s := Z.of_nat (List.length (wordsOf (Js.trim generated)))) in *.
  set (o := Z.of_nat (List.length (wordsOf (Js.trim text)))) in *.
  assert (Hs : (1 <= s)%Z) by (unfold s; lia).
  split; [exact Hten|]. split; [exact Hs|].
  destruct (Z.le_gt_cases s o) as [Hle|Hgt].
  - left. split; [exact Hle|].
    assert (Heq :
      Number.round
        (Number.mul R
           (Number.sub R (Fin 1)
              (Number.div R (Fin (inject_Z s)) (Fin (inject_Z o))))
           (Fin 100))
      = calculateCompressionRatio R (Fin (inject_Z o)) (Fin (inject_Z s))).
    { unfold calculateCompressionRatio.
      cbn [Number.truthy Number.leb Number.ltb Number.gtb].
      change 0%Q with (inject_Z 0).
      rewrite !Qeq_bool_inject, !Qle_bool_inject.
      destruct (Z.eqb_spec o 0); [lia|].
      destruct (Z.eqb_spec s 0); [lia|].
      destruct (Z.leb_spec o 0); [lia|].
      destruct (Z.leb_spec 0 s); [|lia].
      destruct (Z.leb_spec s o); [|lia].
      reflexivity. }
    split; [exact Heq|].
    change (isPercentage
              (Number.round
                 (Number.mul R
                    (Number.sub R (Fin 1)
                       (Number.div R (Fin (inject_Z s)) (Fin (inject_Z o))))
                    (Fin 100)))).
    rewrite Heq. apply ratio_isPercentage. intros [H _]. discriminate H.
  - right. split; [exact Hgt|].
    unfold calculateCompressionRatio.
    cbn [Number.truthy Number.leb Number.ltb Number.gtb].
    change 0%Q with (inject_Z 0).
    rewrite !Qeq_bool_inject, !Qle_bool_inject.
    destruct (Z.eqb_spec o 0); [lia|].
    destruct (Z.eqb_spec s 0); [lia|].
    destruct (Z.leb_spec o 0); [lia|].
    destruct (Z.leb_spec 0 s); [|lia].
    destruct (Z.leb_spec s o); [lia|].
    reflexivity.
Qed.

(** The ten words, summarised in six. *)
Lemma route_ratio_witness :
  summaryPOST exactRounding (Returned tenWordsRequest)
    (Returned "Ten small numbers, counted in order.") (Returned "numbers")
  = SummaryDone
      (mkSummaryPayload (Some "Ten small numbers, counted in order.")
         (Some "numbers") medium "notes.pdf" 6 10)
      (Fin 40)
  /\ (10 <= 10)%Z
  /\ (1 <= 6)%Z
  /\ (((6 <= 10)%Z
       /\ Fin 40
          = calculateCompressionRatio exactRounding (Fin (inject_Z 10))
              (Fin (inject_Z 6))
       /\ isPercentage (Fin 40))
      \/ ((10 < 6)%Z
          /\ calculateCompressionRatio exactRounding (Fin (inject_Z 10))
               (Fin (inject_Z 6))
             = Fin 0)).
Proof.
  split; [reflexivity|].
  exact (route_ratio_is_the_client_ratio exactRounding
           (Returned tenWordsRequest)
           (Returned "Ten small numbers, counted in order.")
           (Returned "numbers")
           (mkSummaryPayload
              (Some "Ten small numbers, counted in order.")
              (Some "numbers") medium "notes.pdf" 6 10)
           (Fin 40) eq_refl).
Defined.

(* ===================================================================== *)
(** * Properties of the extraction route and of its client *)
(* ===================================================================== *)

(** An answer built for a text with a word. *)
Lemma done_hasWord extracted :
  hasWord extracted ->
  hasWord extracted
  /\ (1 <= Z.of_nat (List.length (wordsOf extracted)))%Z.
Proof.
  intros H. split; [exact H|].
  pose proof (wordsOf_hasWord extracted H). lia.
Qed.

Lemma literal_hasWord c rest : Js.isSpace c = false -> hasWord (String c rest).
Proof. intros H. exists c. split; [left; reflexivity | exact H]. Qed.

(** X19.  For a request of kind ["pdf"] or ["image"] that carries a file,
    the extraction route answers an error in one case only: the OCR of an
    image failed (status 500).  A PDF is always answered with a text, also
    when it cannot be read or parsed.  The text of an answer always has a
    code unit that is not white space, so its word count is at least 1,
    and its character count is its length. *)
Theorem extraction_route_text_is_never_blank :
  forall (render : number -> string) (f : File) (fileType : string)
         (parsed : Outcome string) (recognized : Outcome Recognized),
    fileType = "pdf"%string \/ fileType = "image"%string ->
    match extractPOST render (Returned (Some f, fileType)) parsed recognized
    with
    | ExtractDone payload =>
        hasWord (result_text payload)
        /\ (1 <= result_wordCount payload)%Z
        /\ result_characterCount payload
           = Z.of_nat (String.length (result_text payload))
    | ExtractRefused st _ =>
        fileType = "image"%string /\ st = 500
        /\ exists error, recognized = Threw error
    end.
Proof.
  intros render f fileType parsed recognized [-> | ->];
    cbn [extractPOST String.eqb Ascii.eqb Bool.eqb andb].
  - change (String.eqb "pdf" "pdf") with true. cbv iota.
    destruct parsed as [pdfText|error].
    + destruct (Js.truthy (Js.trim pdfText)) eqn:Htrim;
        cbn [result_text result_wordCount result_characterCount].
      * destruct (done_hasWord _ (trim_hasWord pdfText Htrim)). auto.
      * split; [apply literal_hasWord; reflexivity|].
        split; [vm_compute; discriminate | reflexivity].
    + cbn [result_text result_wordCount result_characterCount].
      split; [apply literal_hasWord; reflexivity|].
      split; [vm_compute; discriminate | reflexivity].
  - change (String.eqb "image" "pdf") with false.
    change (String.eqb "image" "image") with true. cbv iota.
    destruct recognized as [r|error]; [|eauto].
    cbv zeta.
    destruct (negb (Js.truthy (removeSpaces _))) eqn:Hblank;
      cbn [result_text result_wordCount result_characterCount].
    + split; [apply literal_hasWord; reflexivity|].
      split; [vm_compute; discriminate | reflexivity].
    + apply negb_false_iff in Hblank. apply removeSpaces_hasWord in Hblank.
      destruct (done_hasWord _ Hblank). auto.
Qed.

(** A PDF the parser fails on. *)
Lemma extraction_route_witness :
  ("pdf" = "pdf" \/ "pdf" = "image")%string
  /\ extractPOST (fun _ => "12"%string) (Returned (Some reportPdf, "pdf"))
       (Threw (ThrownOther None)) ocrFails
     = ExtractDone
         (mkExtractPayload
            "Failed to parse PDF. The document may be image-based or corrupted."
            11 66)
  /\ hasWord
       "Failed to parse PDF. The document may be image-based or corrupted.".
Proof.
  assert (H : ("pdf" = "pdf" \/ "pdf" = "image")%string) by (left; reflexivity).
  split; [exact H|]. split; [reflexivity|].
  exact (proj1 (extraction_route_text_is_never_blank (fun _ => "12"%string)
                  reportPdf "pdf" (Threw (ThrownOther None)) ocrFails H)).
Defined.

(** An error answer of the route is retried by the client. *)
Lemma extract_refusal_is_retried render formData parsed recognized st e :
  extractPOST render formData parsed recognized = ExtractRefused st e ->
  forall f type j,
    extractAttempt f type (extractFetched (ExtractRefused st e))
    = Threw (ThrownError (newError e))
    /\ onCatch (extractPolicy type) j (ThrownError (newError e))
       = Continue []
    /\ Js.truthy e = true.
Proof.
  intros H f type j. unfold extractPOST in H.
  assert (Hdone : forall x, ExtractDone x <> ExtractRefused st e)
    by discriminate.
  destruct formData as [[[g|] fileType]|error];
    [ | injection H as <- <-; repeat split; destruct type; reflexivity
      | injection H as <- <-; repeat split; destruct type; reflexivity ].
  destruct (String.eqb fileType "pdf").
  { destruct parsed as [pdfText|error];
      [destruct (Js.truthy (Js.trim pdfText))|]; now apply Hdone in H. }
  destruct (String.eqb fileType "image"); [|now apply Hdone in H].
  destruct recognized as [r|error].
  - cbv zeta in H.
    destruct (negb (Js.truthy (removeSpaces _))); now apply Hdone in H.
  - injection H as <- <-. repeat split; destruct type; reflexivity.
Qed.

(** X20.  When the extraction route answers an error on each of the three
    attempts, [extractTextFromFile] makes exactly three remote calls and
    then throws "Failed after 3 attempts: " followed by the message of the
    third answer: no error of the route is taken for a validation error,
    a rate limit or a timeout. *)
Theorem route_errors_use_up_the_attempts :
  forall (render : number -> string) (f : File) (type : FileKind)
         (formData : nat -> Outcome (option File * string))
         (parsed : nat -> Outcome string)
         (recognized : nat -> Outcome Recognized) (e3 : string) (st3 : nat),
    extractTextFromFile_checks (Some f) type = None ->
    (forall a, 1 <= a <= 3 ->
       exists st e,
         extractPOST render (formData a) (parsed a) (recognized a)
         = ExtractRefused st e) ->
    extractPOST render (formData 3) (parsed 3) (recognized 3)
    = ExtractRefused st3 e3 ->
    let responses :=
      fun a =>
        extractFetched
          (extractPOST render (formData a) (parsed a) (recognized a)) in
    outcome (extractTextFromFile (Some f) type responses)
    = Threw (ThrownError (newError ("Failed after 3 attempts: " ++ e3)))
    /\ remoteCalls (events (extractTextFromFile (Some f) type responses)) = 3.
Proof.
  intros render f type formData parsed recognized e3 st3 Hchecks Hall H3
         responses.
  assert (Hcont : forall a, 1 <= a <= 3 ->
    continuesAt (extractPolicy type)
      (fun a => extractAttempt f type (responses a)) a = true).
  { intros a Ha. destruct (Hall a Ha) as (st & e & Hans).
    destruct (extract_refusal_is_retried _ _ _ _ _ _ Hans f type a)
      as (Hatt & Hcatch & _).
    unfold continuesAt, responses. rewrite Hans, Hatt, Hcatch. reflexivity. }
  destruct (extract_refusal_is_retried _ _ _ _ _ _ H3 f type 3)
    as (Hatt3 & _ & Htruthy).
  rewrite extractTextFromFile_execute, Hchecks.
  destruct (execute_gives_up (extractPolicy type)
              (fun a => extractAttempt f type (responses a))
              (ThrownError (newError e3))) as (Ho & Hn).
  - cbn. lia.
  - unfold retriedBefore. cbn [maxRetries extractPolicy Nat.sub seq forallb].
    rewrite (Hcont 1), (Hcont 2) by lia. reflexivity.
  - apply (Hcont 3). lia.
  - cbn [maxRetries extractPolicy]. unfold responses. rewrite H3. exact Hatt3.
  - split; [|exact Hn]. rewrite Ho.
    unfold exhausted. cbn [err_message newError].
    unfold Js.orElse. rewrite Htruthy. reflexivity.
Qed.

(** The OCR of the route fails three times. *)
Lemma route_errors_witness :
  extractTextFromFile_checks (Some photoPng) image = None
  /\ outcome
       (extractTextFromFile (Some photoPng) image
          (fun a =>
             extractFetched
               (extractPOST (fun _ => "12"%string)
                  (Returned (Some photoPng, "image"%string))
                  (Threw (ThrownOther None)) ocrFails)))
     = Threw (ThrownError (newError
         ("Failed after 3 attempts: "
          ++ "Failed to extract text from image. Please ensure the image contains clear, readable text.")))
  /\ remoteCalls
       (events
          (extractTextFromFile (Some photoPng) image
             (fun a =>
                extractFetched
                  (extractPOST (fun _ => "12"%string)
                     (Returned (Some photoPng, "image"%string))
                     (Threw (ThrownOther None)) ocrFails)))) = 3.
Proof.
  split; [reflexivity|].
  apply (route_errors_use_up_the_attempts (fun _ => "12"%string) photoPng
           image (fun _ => Returned (Some photoPng, "image"%string))
           (fun _ => Threw (ThrownOther None)) (fun _ => ocrFails)
           "Failed to extract text from image. Please ensure the image contains clear, readable text."
           500 eq_refl).
  - intros a _. eexists. eexists. reflexivity.
  - reflexivity.
Defined.

(* ===================================================================== *)
(** * Properties of [preprocessTextForSummary] *)
(* ===================================================================== *)

Lemma replaceRuns_chars (Q : ascii -> Prop) inClass s :
  Q " "%char ->
  forall inRun,
    Forall (fun c => inClass c = false -> Q c) (chars s) ->
    Forall Q (chars (replaceRuns inClass inRun s)).
Proof.
  intros Hsp. induction s as [|c s IH]; intros inRun H; cbn; [constructor|].
  apply Forall_cons_iff in H as [Hc H].
  destruct (inClass c) eqn:E.
  - destruct inRun; [apply IH; exact H|].
    cbn. constructor; [exact Hsp | apply IH; exact H].
  - cbn. constructor; [auto | apply IH; exact H].
Qed.

Lemma removeSpecial_chars (Q : ascii -> Prop) s :
  Forall Q (chars s) ->
  Forall (fun c => isKept c = true /\ Q c) (chars (removeSpecial s)).
Proof.
  induction s as [|c s IH]; cbn; intros H; [constructor|].
  apply Forall_cons_iff in H as [Hc H].
  destruct (isKept c) eqn:E; cbn; auto.
Qed.

(** X21.  [preprocessTextForSummary] throws for the empty text and for no
    other.  The text it returns is made of letters, digits, underscores,
    spaces and the marks [.,!?;:()-] only; the space is the only white
    space left in it (no tab, no line break); and it neither starts nor
    ends with white space: trimming it again changes nothing. *)
Theorem preprocessed_text_is_clean :
  forall text : string,
    match preprocessTextForSummary text with
    | Threw error =>
        text = EmptyString
        /\ error
           = ThrownError (newError "Invalid text input for preprocessing")
    | Returned cleaned =>
        text <> EmptyString
        /\ Forall (fun c => isKept c = true
                            /\ (Js.isSpace c = true -> c = " "%char))
                  (chars cleaned)
        /\ Js.trim cleaned = cleaned
    end.
Proof.
  intros text. unfold preprocessTextForSummary.
  destruct text as [|c0 text0]; [split; reflexivity|].
  cbn [Js.truthy String.eqb negb].
  set (text := String c0 text0).
  split; [discriminate|]. split; [|apply trim_idempotent].
  apply trim_chars. apply removeSpecial_chars.
  apply replaceRuns_chars; [reflexivity|].
  eapply Forall_impl;
    [|apply (replaceRuns_chars
               (fun c => Js.isSpace c = true -> c = " "%char) Js.isSpace text);
      [reflexivity|]].
  - intros c H _. exact H.
  - apply Forall_forall. intros c _ Hfalse Htrue. congruence.
Qed.

(* ===================================================================== *)
(** * Invariants of the handlers of the page *)
(* ===================================================================== *)

Lemma forEachFile_Forall (Q : UploadedFile -> Prop) step files :
  (forall k uploadedFile st,
     In uploadedFile files -> Forall Q st -> Forall Q (step k uploadedFile st)) ->
  forall k prev, Forall Q prev -> Forall Q (forEachFile step files k prev).
Proof.
  induction files as [|uf rest IH]; intros Hstep k prev H; cbn [forEachFile];
    [exact H|].
  apply IH.
  - intros j g st Hin. apply Hstep. right. exact Hin.
  - apply Hstep; [left; reflexivity | exact H].
Qed.

Lemma extractEach_Forall (Q : UploadedFile -> Prop) responses files :
  (forall uploadedFile r st,
     Forall Q st -> Forall Q (extractOne uploadedFile r st)) ->
  forall k prev, Forall Q prev -> Forall Q (extractEach files responses k prev).
Proof.
  intros Hstep. induction files as [|uf rest IH]; intros k prev H;
    cbn [extractEach]; [exact H|].
  apply IH. apply Hstep. exact H.
Qed.

(** X22.  Through a whole comprehensive run, and so through each of its
    six steps, a structure analysis is only ever stored in a record that
    has an extracted text, provided the page the run updates is the array
    it was started with or a later state of it.  This is what makes the
    test for an extracted text in the filter of the specialized analysis
    follow from the presence of a structure analysis. *)
Theorem comprehensive_run_keeps_structure_after_text :
  forall (uploadedFiles : list UploadedFile) (len : SummaryLength)
         (services : Services) (prev : list UploadedFile),
    Forall (fun f => structureAfterText f /\ textsKept uploadedFiles f) prev ->
    Forall (fun f => structureAfterText f /\ textsKept uploadedFiles f)
      (runComprehensiveAnalysis uploadedFiles len services prev).
Proof.
  intros uploadedFiles len services prev Hprev.
  set (Q := fun f => structureAfterText f /\ textsKept uploadedFiles f) in *.
  assert (Hkeep : forall uploadedFile change st,
    (forall f, id (change f) = id f) ->
    (forall f, documentStructure (change f) = documentStructure f) ->
    (forall f, present (extractedText f) = true ->
               present (extractedText (change f)) = true) ->
    Forall Q st -> Forall Q (updateFile uploadedFile change st)).
  { intros uf change st Hid Hdoc Htext Hst.
    apply updateFile_Forall; [exact Hst|].
    intros f _ _ [Hs Hk]. unfold Q, structureAfterText, textsKept in *.
    rewrite Hid, Hdoc. split; auto. }
  unfold runComprehensiveAnalysis. cbv zeta.
  unfold generateSummaries, performSpecializedAnalyses,
    analyzeDocumentQualities, analyzeDocumentStructures, analyzeImages,
    extractTextFromFiles.
  apply forEachFile_Forall.
  { intros k uf st _ Hst. destruct (extractedText uf) as [x|]; [|exact Hst].
    unfold summarizeOne. destruct (outcome _);
      repeat apply Hkeep; auto. }
  apply forEachFile_Forall.
  { intros k uf st _ Hst.
    destruct (negb (present (extractedText uf))
              || negb (present (documentStructure uf))); [exact Hst|].
    unfold specializedOne. destruct (specializedAnswers services k);
      repeat apply Hkeep; auto. }
  apply forEachFile_Forall.
  { intros k uf st _ Hst.
    destruct (negb (present (extractedText uf))); [exact Hst|].
    unfold analyzeQualityOne. destruct (qualityAnswers services k);
      repeat apply Hkeep; auto. }
  apply forEachFile_Forall.
  { intros k uf st Hin Hst.
    destruct (present (extractedText uf)) eqn:Htext; cbn [negb];
      [|exact Hst].
    apply filter_In in Hin as [Hin _].
    unfold analyzeStructureOne.
    destruct (structureAnswers services k) as [analysis|error].
    - rewrite (updateFile_twice _ _ (set_isAnalyzingStructure (Some true)))
        by reflexivity.
      apply updateFile_Forall; [exact Hst|].
      intros f _ Hid [Hs Hk]. split.
      + intros _. cbn. apply Hk. exists uf. auto.
      + exact Hk.
    - repeat apply Hkeep; auto. }
  apply forEachFile_Forall.
  { intros k uf st _ Hst. unfold analyzeImageOne.
    destruct (analyzeImage _); repeat apply Hkeep; auto. }
  apply extractEach_Forall; [|exact Hprev].
  intros uf r st Hst. unfold extractOne.
  destruct (outcome _); repeat apply Hkeep; auto.
Qed.

(** A run on the pending report and on the report already analysed. *)
Lemma comprehensive_run_keeps_witness :
  Forall (fun f => structureAfterText f
                   /\ textsKept [analysedReport "invoice"] f)
         [analysedReport "invoice"]
  /\ Forall (fun f => structureAfterText f
                      /\ textsKept [analysedReport "invoice"] f)
       (runComprehensiveAnalysis [analysedReport "invoice"] medium allAnswer
          [analysedReport "invoice"]).
Proof.
  assert (H : Forall (fun f => structureAfterText f
                               /\ textsKept [analysedReport "invoice"] f)
                     [analysedReport "invoice"]).
  { constructor; [|constructor]. split; intros _; reflexivity. }
  split; [exact H|].
  exact (comprehensive_run_keeps_structure_after_text
           [analysedReport "invoice"] medium allAnswer
           [analysedReport "invoice"] H).
Defined.

(** [summarizeOne] is one update of the dispatched file, which keeps the
    id and leaves the file with a summary or with an error that has a
    message. *)
Lemma summarizeOne_update uploadedFile extracted len answers prev :
  exists change,
    summarizeOne uploadedFile extracted len answers prev
    = updateFile uploadedFile change prev
    /\ (forall f, id (change f) = id f)
    /\ (forall f, needsSummary (change f) = false).
Proof.
  unfold summarizeOne.
  destruct (outcome (generateSummary (text extracted)
                       (file_name (file uploadedFile)) len answers))
    as [x|t] eqn:Ho.
  - eexists. split.
    { apply (updateFile_twice _ _ (set_isSummarizing (Some true))).
      reflexivity. }
    split; [intros f; reflexivity|].
    intros f. unfold needsSummary.
    cbn [generatedSummary extractedText summaryError set_isSummarizing
         set_generatedSummary present negb].
    rewrite andb_false_r. reflexivity.
  - eexists. split.
    { apply (updateFile_twice _ _ (set_isSummarizing (Some true))).
      reflexivity. }
    split; [intros f; reflexivity|].
    intros f. unfold needsSummary.
    cbn [generatedSummary extractedText summaryError set_isSummarizing
         set_summaryError Js.truthyOpt].
    rewrite (generateSummary_message _ _ _ _ _ Ho).
    apply andb_false_r.
Qed.

(** X23.  After [generateSummaries] no file is left for it: every file
    that was selected, or that shares its id with a selected file, has a
    summary or an error message that is not empty, so
    [canGenerateSummaries] is false and a second run selects nothing. *)
Theorem summaries_settle_every_file :
  forall (uploadedFiles : list UploadedFile) (len : SummaryLength)
         (answers later : nat -> nat -> FetchResult SummaryPayload)
         (prev : list UploadedFile),
    (forall f, In f prev -> needsSummary f = true ->
       exists g, In g uploadedFiles /\ needsSummary g = true
                 /\ id g = id f) ->
    let after := generateSummaries uploadedFiles len answers prev in
    Forall (fun f => needsSummary f = false) after
    /\ fst (canGenerateSummaries after) = false
    /\ generateSummaries after len later after = after.
Proof.
  intros uploadedFiles len answers later prev Hprev after.
  assert (Hgen : forall files k st,
    (forall g, In g files -> needsSummary g = true) ->
    Forall (fun f => needsSummary f = false
                     \/ exists g, In g files /\ id g = id f) st ->
    Forall (fun f => needsSummary f = false)
      (forEachFile
         (fun j uf st' =>
            match extractedText uf with
            | None => st'
            | Some extracted => summarizeOne uf extracted len (answers j) st'
            end) files k st)).
  { induction files as [|uf rest IH]; intros k st Hsel Hst;
      cbn [forEachFile].
    - eapply Forall_impl; [|exact Hst].
      intros f [H | (g & [] & _)]. exact H.
    - apply IH; [intros g Hg; apply Hsel; right; exact Hg|].
      assert (Hneed : needsSummary uf = true) by (apply Hsel; left; reflexivity).
      unfold needsSummary in Hneed.
      destruct (extractedText uf) as [extracted|]; [|discriminate].
      destruct (summarizeOne_update uf extracted len (answers k) st)
        as (change & -> & Hid & Hsettled).
      unfold updateFile. apply Forall_forall.
      intros f' Hf'. apply in_map_iff in Hf' as (f & <- & Hin).
      rewrite Forall_forall in Hst. specialize (Hst f Hin).
      destruct (String.eqb_spec (id f) (id uf)) as [E|E].
      + left. apply Hsettled.
      + destruct Hst as [H | (g & [<- | Hg] & Hgid)];
          [left; exact H | congruence |].
        right. exists g. split; [exact Hg | exact Hgid]. }
  assert (Hall : Forall (fun f => needsSummary f = false) after).
  { unfold after, generateSummaries. apply Hgen.
    - intros g Hg. apply filter_In in Hg. apply Hg.
    - apply Forall_forall. intros f Hin.
      destruct (needsSummary f) eqn:E; [right | left; reflexivity].
      destruct (Hprev f Hin E) as (g & Hg & Hneed & Hid).
      exists g. split; [|exact Hid]. apply filter_In. auto. }
  split; [exact Hall|]. split.
  - unfold canGenerateSummaries, someFile. cbn [fst].
    clear -Hall. induction Hall as [|f l Hf _ IH]; cbn; [reflexivity|].
    rewrite Hf. exact IH.
  - unfold generateSummaries. rewrite (filter_none needsSummary _ Hall).
    reflexivity.
Qed.

(** The analysed report, with a summary service that cannot be reached. *)
Lemma summaries_settle_witness :
  (forall f, In f [analysedReport "invoice"] -> needsSummary f = true ->
     exists g, In g [analysedReport "invoice"] /\ needsSummary g = true
               /\ id g = id f)
  /\ Forall (fun f => needsSummary f = false)
       (generateSummaries [analysedReport "invoice"] medium
          (fun _ => noSummary) [analysedReport "invoice"]).
Proof.
  assert (H : forall f, In f [analysedReport "invoice"] ->
                needsSummary f = true ->
                exists g, In g [analysedReport "invoice"]
                          /\ needsSummary g = true /\ id g = id f).
  { intros f Hin Hneed. exists f. auto. }
  split; [exact H|].
  exact (proj1 (summaries_settle_every_file [analysedReport "invoice"] medium
                  (fun _ => noSummary) (fun _ => noSummary)
                  [analysedReport "invoice"] H)).
Defined.

(* ===================================================================== *)
(** * Properties of the insights on an image analysis *)
(* ===================================================================== *)

Lemma insertBy_Permutation {A} (compare : A -> A -> Z) x l :
  Permutation (insertBy compare x l) (x :: l).
Proof.
  induction l as [|y rest IH]; cbn [insertBy]; [reflexivity|].
  destruct (0 <? compare x y)%Z; [|reflexivity].
  rewrite IH. apply perm_swap.
Qed.

Lemma sortBy_Permutation {A} (compare : A -> A -> Z) l :
  Permutation (sortBy compare l) l.
Proof.
  induction l as [|x rest IH]; cbn [sortBy fold_right]; [reflexivity|].
  rewrite insertBy_Permutation. constructor. exact IH.
Qed.

Lemma insertBy_confidence x l :
  StronglySorted (fun a b => (confidence b <= confidence a)%Z) l ->
  StronglySorted (fun a b => (confidence b <= confidence a)%Z)
    (insertBy (fun a b => (confidence b - confidence a)%Z) x l).
Proof.
  induction 1 as [|y rest Hs IH Hy]; cbn [insertBy].
  - constructor; constructor.
  - destruct (Z.ltb_spec 0 (confidence y - confidence x)) as [Hlt|Hge].
    + constructor; [exact IH|].
      apply Forall_forall. intros b Hb.
      apply (Permutation_in _ (insertBy_Permutation _ x rest)) in Hb.
      destruct Hb as [<- | Hb]; [lia|].
      rewrite Forall_forall in Hy. apply Hy. exact Hb.
    + constructor; [constructor; assumption|].
      constructor; [lia|].
      eapply Forall_impl; [|exact Hy]. cbv beta. intros b Hb. lia.
Qed.

Lemma sortBy_confidence l :
  StronglySorted (fun a b => (confidence b <= confidence a)%Z)
    (sortBy (fun a b => (confidence b - confidence a)%Z) l).
Proof.
  induction l as [|x rest IH]; cbn [sortBy fold_right]; [constructor|].
  apply insertBy_confidence. exact IH.
Qed.

Lemma StronglySorted_firstn_skipn {A} (R : A -> A -> Prop) l :
  StronglySorted R l ->
  forall n a b, In a (firstn n l) -> In b (skipn n l) -> R a b.
Proof.
  induction 1 as [|x rest Hs IH Hx]; intros n a b Ha Hb.
  - destruct n; destruct Ha.
  - destruct n as [|n]; [destruct Ha|].
    cbn [firstn skipn] in Ha, Hb. destruct Ha as [<- | Ha].
    + rewrite Forall_forall in Hx. apply Hx.
      rewrite <- (firstn_skipn n rest). apply in_or_app. right. exact Hb.
    + exact (IH n a b Ha Hb).
Qed.

(** X24.  The first insight on an analysis that counts at least one
    object names at most three objects of the analysis, and they are the
    most confident ones: no object left out has a higher confidence than
    an object that is named. *)
Theorem insight_names_the_most_confident_objects :
  forall (analysis : ImageAnalysisResult),
    0 < totalObjects (objectDetection analysis) ->
    exists top rest others,
      getAnalysisInsights analysis
      = ("Detected " ++ Js.ofNat (totalObjects (objectDetection analysis))
         ++ " objects: " ++ join ", " (map label top))%string :: others
      /\ Permutation (top ++ rest) (objects (objectDetection analysis))
      /\ List.length top
         = Nat.min 3 (List.length (objects (objectDetection analysis)))
      /\ forall a b, In a top -> In b rest ->
           (confidence b <= confidence a)%Z.
Proof.
  intros analysis Htotal.
  set (objs := objects (objectDetection analysis)).
  set (sorted := sortBy (fun a b => (confidence b - confidence a)%Z) objs).
  exists (firstn 3 sorted), (skipn 3 sorted). eexists.
  split.
  { unfold getAnalysisInsights. cbv zeta.
    destruct (Nat.ltb_spec 0 (totalObjects (objectDetection analysis)))
      as [_|Hle]; [|lia].
    cbn [app]. reflexivity. }
  split; [rewrite firstn_skipn; apply sortBy_Permutation|].
  split.
  { rewrite length_firstn. unfold sorted.
    rewrite (Permutation_length (sortBy_Permutation _ objs)). reflexivity. }
  apply StronglySorted_firstn_skipn. apply sortBy_confidence.
Qed.

(** The analysis of a picture with four objects. *)
Lemma insight_names_witness :
  0 < totalObjects
        (objectDetection
           (fullAnalysis photoPng "a dog on a bench" fourObjects
              "2024-05-01T10:00:00.000Z"))
  /\ exists others,
       getAnalysisInsights
         (fullAnalysis photoPng "a dog on a bench" fourObjects
            "2024-05-01T10:00:00.000Z")
       = "Detected 4 objects: dog, person, bench" :: others.
Proof.
  assert (H : 0 < totalObjects
                    (objectDetection
                       (fullAnalysis photoPng "a dog on a bench" fourObjects
                          "2024-05-01T10:00:00.000Z")))
    by (vm_compute; repeat constructor).
  split; [exact H|].
  destruct (insight_names_the_most_confident_objects
              (fullAnalysis photoPng "a dog on a bench" fourObjects
                 "2024-05-01T10:00:00.000Z") H)
    as (top & rest & others & Heq & _).
  eexists. vm_compute. reflexivity.
Defined.

(** X25.  On every analysis the image route returns, full or fallback,
    the insights are an optional sentence on the objects, present exactly
    when an object was counted, then the sentence on the one grey
    [#808080], then at most one sentence on the kind of picture.  The
    sentence on readable text never shows, because the route always leaves
    the text of the picture empty. *)
Theorem insights_on_route_analyses :
  forall (formData : Outcome (option File)) (arrayBuffer : Outcome unit)
         (caption : Upstream (option string))
         (detection : Upstream (list DetectedObject)) (now : string)
         (success : bool) (analysis : ImageAnalysisResult)
         (warning : option string),
    body (POST formData arrayBuffer caption detection now)
    = AnalysisBody success analysis warning ->
    exists detected kind,
      getAnalysisInsights analysis
      = detected ++ "Dominant colors: #808080" :: kind
      /\ List.length detected <= 1
      /\ (detected = [] <-> totalObjects (objectDetection analysis) = 0)
      /\ (kind = [] \/ kind = ["Appears to be a photograph"]
          \/ kind = ["Appears to be a drawing or illustration"]).
Proof.
  intros formData arrayBuffer caption detection now success analysis warning.
  assert (Hshape : forall a,
    extractedText_of_image (textAnalysis a) = "" ->
    dominantColors (visualFeatures a) = ["#808080"] ->
    exists detected kind,
      getAnalysisInsights a = detected ++ "Dominant colors: #808080" :: kind
      /\ List.length detected <= 1
      /\ (detected = [] <-> totalObjects (objectDetection a) = 0)
      /\ (kind = [] \/ kind = ["Appears to be a photograph"]
          \/ kind = ["Appears to be a drawing or illustration"])).
  { intros a Htext Hcolors. unfold getAnalysisInsights. cbv zeta.
    rewrite Htext, Hcolors.
    change (0 <? String.length "")%nat with false.
    change (0 <? List.length ["#808080"])%nat with true.
    cbn [firstn join app].
    assert (Hkind : forall kind : list string,
              kind = (if isPhoto (visualFeatures a)
                      then ["Appears to be a photograph"]
                      else if isDrawing (visualFeatures a)
                      then ["Appears to be a drawing or illustration"]
                      else []) ->
              kind = [] \/ kind = ["Appears to be a photograph"]
              \/ kind = ["Appears to be a drawing or illustration"]).
    { intros kind ->. destruct (isPhoto (visualFeatures a)); [auto|].
      destruct (isDrawing (visualFeatures a)); auto. }
    destruct (Nat.ltb_spec 0 (totalObjects (objectDetection a)))
      as [Hlt|Hle].
    - eexists. eexists. split; [reflexivity|].
      split; [cbn; lia|]. split; [split; [discriminate | lia]|].
      apply Hkind. reflexivity.
    - exists []. eexists. split; [reflexivity|].
      split; [cbn; lia|]. split; [split; [lia | reflexivity]|].
      apply Hkind. reflexivity. }
  unfold POST.
  destruct formData as [[f|]|t]; cbn [body]; try discriminate.
  destruct (negb (Js.startsWith (file_type f) "image/")); cbn [body];
    try discriminate.
  destruct (MAX_IMAGE_SIZE <? file_size f)%N; cbn [body]; try discriminate.
  destruct arrayBuffer as [u|t]; cbn [body]; try discriminate.
  destruct (analyzeImageWithHuggingFace caption) as [description|apiError];
    cbn [body]; intros H; injection H as _ <- _; apply Hshape; reflexivity.
Qed.

(** The fallback analysis of the PNG photo. *)
Lemma insights_on_route_witness :
  body (POST (Returned (Some photoPng)) (Returned tt) captionUnavailable
          noObjects "2024-05-01T10:00:00.000Z")
  = AnalysisBody true (fallbackAnalysis photoPng "2024-05-01T10:00:00.000Z")
      (Some "Using basic analysis due to API limitations")
  /\ exists detected kind,
       getAnalysisInsights
         (fallbackAnalysis photoPng "2024-05-01T10:00:00.000Z")
       = detected ++ "Dominant colors: #808080" :: kind.
Proof.
  split; [reflexivity|].
  destruct (insights_on_route_analyses (Returned (Some photoPng))
              (Returned tt) captionUnavailable noObjects
              "2024-05-01T10:00:00.000Z" true
              (fallbackAnalysis photoPng "2024-05-01T10:00:00.000Z")
              (Some "Using basic analysis due to API limitations") eq_refl)
    as (detected & kind & H & _).
  exists detected, kind. exact H.
Defined.
